(** * tg_ml_scraper: engagement snapshot store and ranking engine

    A shallow embedding of the Python package [tg_ml_scraper]
    (extractors.py, db.py, service.py, reporting.py, and the text
    functions of config.py and bot_app.py) together with the properties of
    its specification and further properties of the code.

    Conventions of the embedding.
    - Python [str] values are Rocq [string]s (sequences of bytes, the
      UTF-8 encoding of the text); ASCII case folding and byte-wise
      comparison are what the code's host tests and SQLite's BINARY
      collation need.
    - Python [int] is [Z]; [None]-able values are [option]s.
    - A [dict] is a [gmap]; a SQLite table is the list of its rows in
      rowid order, with the AUTOINCREMENT counter kept beside it.
    - A Python exception is the [Raise] case of [result]. *)

From Stdlib Require Import ZArith Lia List Bool Ascii String Sorting Permutation.
From stdpp Require Import base option list gmap strings fin_maps pretty.

Local Open Scope string_scope.
Local Open Scope Z_scope.

(** ** Byte-string helpers (the [str] methods the package calls) *)

Module Str.

Definition code (c : ascii) : N := N_of_ascii c.

Definition is_upper (c : ascii) : bool := ((65 <=? code c) && (code c <=? 90))%N.
Definition is_lower (c : ascii) : bool := ((97 <=? code c) && (code c <=? 122))%N.
Definition is_alpha (c : ascii) : bool := is_upper c || is_lower c.
Definition is_digit (c : ascii) : bool := ((48 <=? code c) && (code c <=? 57))%N.

(** [c.lower()] on one ASCII letter. *)
Definition lower_char (c : ascii) : ascii :=
  if is_upper c then ascii_of_N (code c + 32) else c.

(** [s.lower()] *)
Fixpoint lower (s : string) : string :=
  match s with
  | EmptyString => EmptyString
  | String c s' => String (lower_char c) (lower s')
  end.

(** [s.startswith(p)] *)
Fixpoint startswith (p s : string) : bool :=
  match p, s with
  | EmptyString, _ => true
  | String _ _, EmptyString => false
  | String a p', String b s' => if Ascii.eqb a b then startswith p' s' else false
  end.

(** [p in s] *)
Fixpoint contains (p s : string) : bool :=
  startswith p s ||
  match s with
  | EmptyString => false
  | String _ s' => contains p s'
  end.

(** [s.endswith(p)] *)
Fixpoint endswith (p s : string) : bool :=
  String.eqb p s ||
  match s with
  | EmptyString => false
  | String _ s' => endswith p s'
  end.

(** [c in chars] *)
Fixpoint mem_char (c : ascii) (chars : string) : bool :=
  match chars with
  | EmptyString => false
  | String d chars' => Ascii.eqb c d || mem_char c chars'
  end.

(** [bool(s)]: a string is truthy when it is not empty. *)
Definition truthy (s : string) : bool :=
  match s with EmptyString => false | String _ _ => true end.

(** Longest prefix of [s] that avoids every character of [stops], and
    what follows it. *)
Fixpoint span_until (stops : string) (s : string) : string * string :=
  match s with
  | EmptyString => (EmptyString, EmptyString)
  | String c s' =>
      if mem_char c stops then (EmptyString, s)
      else let '(a, b) := span_until stops s' in (String c a, b)
  end.

(** [s.partition(c)] when [c] occurs: the text before the first [c] and
    the text after it. *)
Fixpoint split_first (c : ascii) (s : string) : option (string * string) :=
  match s with
  | EmptyString => None
  | String d s' =>
      if Ascii.eqb c d then Some (EmptyString, s')
      else match split_first c s' with
           | Some (a, b) => Some (String d a, b)
           | None => None
           end
  end.

(** The same with the stop set given as a predicate. *)
Fixpoint span_until_p (stop : ascii -> bool) (s : string) : string * string :=
  match s with
  | EmptyString => (EmptyString, EmptyString)
  | String c s' =>
      if stop c then (EmptyString, s)
      else let '(a, b) := span_until_p stop s' in (String c a, b)
  end.

Fixpoint forallb (p : ascii -> bool) (s : string) : bool :=
  match s with
  | EmptyString => true
  | String c s' => p c && forallb p s'
  end.

Fixpoint filter (p : ascii -> bool) (s : string) : string :=
  match s with
  | EmptyString => EmptyString
  | String c s' => if p c then String c (filter p s') else filter p s'
  end.

Fixpoint lstrip (p : ascii -> bool) (s : string) : string :=
  match s with
  | EmptyString => EmptyString
  | String c s' => if p c then lstrip p s' else s
  end.

(** [s.rstrip(chars)] *)
Fixpoint rstrip (p : ascii -> bool) (s : string) : string :=
  match s with
  | EmptyString => EmptyString
  | String c s' =>
      match rstrip p s' with
      | EmptyString => if p c then EmptyString else String c EmptyString
      | r => String c r
      end
  end.

(** ASCII members of [str.isspace]: TAB..CR, FS..US and the space. *)
Definition is_space (c : ascii) : bool :=
  ((9 <=? code c) && (code c <=? 13) || (28 <=? code c) && (code c <=? 32))%N.

(** [s.strip()] *)
Definition strip (s : string) : string := lstrip is_space (rstrip is_space s).

(** [s[n:]] *)
Fixpoint drop (n : nat) (s : string) : string :=
  match n, s with
  | O, _ => s
  | S n', String _ s' => drop n' s'
  | S _, EmptyString => EmptyString
  end.

(** [sorted(set(l))]: the distinct members of [l] in ascending order. *)
Fixpoint insert_sorted (x : string) (l : list string) : list string :=
  match l with
  | [] => [x]
  | y :: l' =>
      match String.compare x y with
      | Lt => x :: l
      | Eq => l
      | Gt => y :: insert_sorted x l'
      end
  end.

Definition sorted_set (l : list string) : list string := fold_right insert_sorted [] l.

End Str.

(** ** Exceptions *)

Inductive exn : Type :=
  | UsernameInvalidError
  | UsernameNotOccupiedError
  | ChannelPrivateError
  | ValueError (msg : string)
  | RuntimeError (msg : string)
  | OtherError (msg : string).

Inductive result (A : Type) : Type :=
  | Ok (a : A)
  | Raise (e : exn).
Arguments Ok {A} a.
Arguments Raise {A} e.

(** Sequencing: [x ← c; k] runs [k] unless [c] raised. *)
#[global] Instance result_bind : MBind result := fun A B k r =>
  match r with
  | Ok a => k a
  | Raise e => Raise e
  end.

(** [[f(x) for x in xs]] where [f] may raise: the first exception wins. *)
Fixpoint map_result {A B} (f : A -> result B) (xs : list A) : result (list B) :=
  match xs with
  | [] => Ok []
  | x :: xs' => y ← f x; ys ← map_result f xs'; Ok (y :: ys)
  end.

(** ** extractors.py *)

Module Extractors.

Definition RESEARCH_HOST_SUFFIXES : list string :=
  [ "arxiv.org"; "openreview.net"; "aclanthology.org";
    "proceedings.mlr.press"; "jmlr.org"; "paperswithcode.com";
    "ieeexplore.ieee.org"; "link.springer.com"; "sciencedirect.com";
    "nature.com"; "science.org"; "doi.org" ].

Definition TELEGRAM_HOST_SUFFIXES : list string :=
  [ "t.me"; "telegram.me"; "telegram.dog"; "telegram.org" ].

(** *** [urllib.parse.urlparse(url).netloc]

    The part of CPython's [urlsplit] that decides [netloc]: leading C0
    controls and spaces are stripped, tab, CR and LF are removed, a
    scheme is split off when the text before the first [:] starts with a
    letter and holds scheme characters only, and when what remains starts
    with [//] the netloc runs up to the first of [/], [?], [#].  A netloc
    with an unmatched square bracket raises [ValueError("Invalid IPv6
    URL")].  The validation of a well-bracketed IP literal and the NFKC
    check on non-ASCII hosts that recent releases add are not part of
    this model. *)

Definition is_c0_or_space (c : ascii) : bool := (Str.code c <=? 32)%N.

Definition is_unsafe_byte (c : ascii) : bool :=
  Str.mem_char c (String "009" (String "010" (String "013" EmptyString))).

Definition is_scheme_char (c : ascii) : bool :=
  Str.is_alpha c || Str.is_digit c || Str.mem_char c "+-.".

Definition strip_scheme (url : string) : string :=
  match url with
  | EmptyString => url
  | String c0 _ =>
      match Str.split_first ":" url with
      | Some (scheme, rest) =>
          if Str.truthy scheme && Str.is_alpha c0 && Str.forallb is_scheme_char scheme
          then rest else url
      | None => url
      end
  end.

Definition urlparse_netloc (url : string) : result string :=
  let url := Str.lstrip is_c0_or_space url in
  let url := Str.filter (fun c => negb (is_unsafe_byte c)) url in
  let url := strip_scheme url in
  match url with
  | String "/" (String "/" rest) =>
      let netloc := fst (Str.span_until "/?#" rest) in
      if xorb (Str.mem_char "[" netloc) (Str.mem_char "]" netloc)
      then Raise (ValueError "Invalid IPv6 URL")
      else Ok netloc
  | _ => Ok EmptyString
  end.

(** *** [classify_link] *)

Inductive link_type : Type := Github | Telegram | Research | Article | Other.

Definition link_type_str (t : link_type) : string :=
  match t with
  | Github => "github"
  | Telegram => "telegram"
  | Research => "research"
  | Article => "article"
  | Other => "other"
  end.

#[global] Instance link_type_eq_dec : EqDecision link_type.
Proof. solve_decision. Defined.

(** [host == suffix or host.endswith("." + suffix)] *)
Definition host_matches (host suffix : string) : bool :=
  String.eqb host suffix || Str.endswith ("." +:+ suffix) host.

(** The category of a host, once it has been extracted and lowered. *)
Definition classify_host (host : string) : link_type :=
  if Str.contains "github.com" host then Github
  else if existsb (host_matches host) TELEGRAM_HOST_SUFFIXES then Telegram
  else if existsb (host_matches host) RESEARCH_HOST_SUFFIXES then Research
  else if Str.truthy host then Article
  else Other.

Definition classify_link (url : string) : result link_type :=
  netloc ← urlparse_netloc url;
  Ok (classify_host (Str.lower netloc)).

(** [links_with_types]: the list comprehension stops at the first URL on
    which [classify_link] raises. *)
Definition links_with_types (urls : list string) : result (list (string * link_type)) :=
  map_result (fun url => t ← classify_link url; Ok (url, t)) urls.

(** *** [extract_reactions], [total_reactions]

    A Telethon message is probed with [getattr]; every probed attribute
    is an optional field here.  [repr] is what [str(reaction_obj)]
    returns. *)

Record reaction_obj : Type := {
  emoticon : option string;
  document_id : option Z;
  repr : string
}.

Record reaction_count : Type := {
  reaction : option reaction_obj;
  count : option Z
}.

Record message_reactions : Type := {
  results : option (list reaction_count)
}.

(** [emoticon or (f"custom_{document_id}" if document_id else str(reaction_obj))] *)
Definition reaction_obj_key (r : reaction_obj) : string :=
  match emoticon r with
  | Some (String c e) => String c e
  | _ =>
      match document_id r with
      | Some id => if id =? 0 then repr r else "custom_" +:+ pretty id
      | None => repr r
      end
  end.

Definition reaction_key (item : reaction_count) : string :=
  match reaction item with
  | None => "unknown"
  | Some r => reaction_obj_key r
  end.

(** [int(getattr(item, "count", 0))] *)
Definition reaction_count_value (item : reaction_count) : Z := default 0 (count item).

Definition record_reaction (acc : gmap string Z) (item : reaction_count) : gmap string Z :=
  <[reaction_key item := reaction_count_value item]> acc.

Definition extract_reactions (reactions : option message_reactions) : gmap string Z :=
  match reactions with
  | None => ∅
  | Some r =>
      match results r with
      | None => ∅
      | Some items => fold_left record_reaction items ∅
      end
  end.

(** *** [extract_urls]

    [URL_REGEX] is [https?://] followed by one or more characters other
    than white space, a closing parenthesis, a closing square bracket, a
    greater-than sign, a double quote and an apostrophe: at a position
    where the text reads [http://] or [https://] followed by at least one
    character outside that class, the match is the longest such run;
    [findall] scans left to right and resumes after each match. *)

Inductive message_entity : Type :=
  | MessageEntityTextUrl (url : option string)
  | MessageEntityOther.

Record message : Type := {
  msg_id : Z;
  msg_message : option string;
  msg_entities : option (list message_entity);
  msg_reactions : option message_reactions;
  msg_views : option Z;
  msg_forwards : option Z
}.

Definition is_url_stop (c : ascii) : bool :=
  Str.is_space c || Str.mem_char c (String ")" (String "]" (String ">" (String "034" (String "'" EmptyString))))).

Definition url_match_at (s : string) : option string :=
  let try_scheme (scheme : string) :=
    if Str.startswith scheme s then
      match fst (Str.span_until_p is_url_stop (Str.drop (String.length scheme) s)) with
      | EmptyString => None
      | body => Some (scheme +:+ body)
      end
    else None in
  match try_scheme "https://" with
  | Some m => Some m
  | None => try_scheme "http://"
  end.

Fixpoint url_findall_from (skip : nat) (s : string) : list string :=
  match s with
  | EmptyString => []
  | String _ s' =>
      match skip with
      | S k => url_findall_from k s'
      | O =>
          match url_match_at s with
          | Some m => m :: url_findall_from (String.length m - 1) s'
          | None => url_findall_from O s'
          end
      end
  end.

Definition URL_REGEX_findall (text : string) : list string := url_findall_from O text.

Definition entity_urls (entities : list message_entity) : list string :=
  flat_map (fun e =>
              match e with
              | MessageEntityTextUrl (Some url) =>
                  if Str.truthy url then [Str.strip url] else []
              | _ => []
              end) entities.

Definition extract_urls (m : message) : list string :=
  let text := default EmptyString (msg_message m) in
  let from_text :=
    map (Str.rstrip (fun c => Str.mem_char c ".,;:!?")) (URL_REGEX_findall text) in
  let from_entities := entity_urls (default [] (msg_entities m)) in
  Str.sorted_set (from_text ++ from_entities).

(** [sum(reactions.values())] *)
Definition total_reactions (reactions : gmap string Z) : Z :=
  map_fold (fun _ v acc => v + acc) 0 reactions.

End Extractors.

(** ** db.py

    A table is the list of its rows in rowid order together with its
    AUTOINCREMENT counter (the row of [sqlite_sequence]): a fresh row takes
    the counter's successor and is appended.  The [reactions_json] column
    holds [json.dumps(reactions, sort_keys=True)], a canonical rendering of
    the mapping, and is kept as the mapping itself; [snapshot_date] holds
    [date.isoformat()], whose text order on the fixed-width [YYYY-MM-DD]
    form is the calendar order (lemma [date_isoformat_compare] below), and
    is kept as the day number. *)

Module Db.

Import Extractors.

Record post_row : Type := {
  p_id : Z;
  p_channel_id : Z;
  p_channel_username : option string;
  p_channel_title : string;
  p_message_id : Z;
  p_post_url : option string;
  p_post_datetime : string;
  p_message_text : option string;
  p_views : option Z;
  p_forwards : option Z
}.

Record link_row : Type := {
  l_id : Z;
  l_post_id : Z;
  l_url : string;
  l_link_type : link_type
}.

Record snapshot_row : Type := {
  s_id : Z;
  s_post_id : Z;
  s_snapshot_date : Z;
  s_total_reactions : Z;
  s_reactions_json : gmap string Z;
  s_views : option Z;
  s_forwards : option Z
}.

Record conn : Type := {
  posts : list post_row;
  posts_seq : Z;
  links : list link_row;
  links_seq : Z;
  snapshots : list snapshot_row;
  snapshots_seq : Z
}.

(** The database [ensure_db] creates. *)
Definition empty_db : conn :=
  {| posts := []; posts_seq := 0; links := []; links_seq := 0;
     snapshots := []; snapshots_seq := 0 |}.

(** [channel_id = ? AND message_id = ?] *)
Definition post_has_key (channel_id message_id : Z) (r : post_row) : bool :=
  (p_channel_id r =? channel_id) && (p_message_id r =? message_id).

(** [post_id = ? AND url = ?] *)
Definition link_has_key (post_id : Z) (url : string) (r : link_row) : bool :=
  (l_post_id r =? post_id) && String.eqb (l_url r) url.

(** [post_id = ? AND snapshot_date = ?] *)
Definition snapshot_has_key (post_id date : Z) (r : snapshot_row) : bool :=
  (s_post_id r =? post_id) && (s_snapshot_date r =? date).

(** [upsert_post]: INSERT ... ON CONFLICT(channel_id, message_id) DO UPDATE,
    then SELECT id back. *)
Definition upsert_post (c : conn)
    (channel_id : Z) (channel_username : option string) (channel_title : string)
    (message_id : Z) (post_url : option string) (post_datetime : string)
    (message_text : option string) (views forwards : option Z) : result (conn * Z) :=
  let c' :=
    if existsb (post_has_key channel_id message_id) (posts c) then
      {| posts :=
           map (fun r =>
                  if post_has_key channel_id message_id r then
                    {| p_id := p_id r;
                       p_channel_id := p_channel_id r;
                       p_channel_username := channel_username;
                       p_channel_title := channel_title;
                       p_message_id := p_message_id r;
                       p_post_url := post_url;
                       p_post_datetime := post_datetime;
                       p_message_text := message_text;
                       p_views := views;
                       p_forwards := forwards |}
                  else r) (posts c);
         posts_seq := posts_seq c;
         links := links c; links_seq := links_seq c;
         snapshots := snapshots c; snapshots_seq := snapshots_seq c |}
    else
      {| posts :=
           posts c ++
           [ {| p_id := posts_seq c + 1;
                p_channel_id := channel_id;
                p_channel_username := channel_username;
                p_channel_title := channel_title;
                p_message_id := message_id;
                p_post_url := post_url;
                p_post_datetime := post_datetime;
                p_message_text := message_text;
                p_views := views;
                p_forwards := forwards |} ];
         posts_seq := posts_seq c + 1;
         links := links c; links_seq := links_seq c;
         snapshots := snapshots c; snapshots_seq := snapshots_seq c |} in
  match find (post_has_key channel_id message_id) (posts c') with
  | None => Raise (RuntimeError "Failed to resolve post id after upsert.")
  | Some row => Ok (c', p_id row)
  end.

(** One [INSERT OR IGNORE INTO links]: a row that would break
    UNIQUE(post_id, url) is dropped. *)
Definition insert_link_or_ignore (post_id : Z) (c : conn) (link : string * link_type) : conn :=
  let '(url, link_type) := link in
  if existsb (link_has_key post_id url) (links c) then c
  else
    {| posts := posts c; posts_seq := posts_seq c;
       links := links c ++
                [ {| l_id := links_seq c + 1; l_post_id := post_id;
                     l_url := url; l_link_type := link_type |} ];
       links_seq := links_seq c + 1;
       snapshots := snapshots c; snapshots_seq := snapshots_seq c |}.

(** [replace_links]: DELETE the post's links, then insert the given ones. *)
Definition replace_links (c : conn) (post_id : Z) (new_links : list (string * link_type)) : conn :=
  let c' :=
    {| posts := posts c; posts_seq := posts_seq c;
       links := List.filter (fun r => negb (l_post_id r =? post_id)) (links c);
       links_seq := links_seq c;
       snapshots := snapshots c; snapshots_seq := snapshots_seq c |} in
  match new_links with
  | [] => c'
  | _ => fold_left (insert_link_or_ignore post_id) new_links c'
  end.

(** [upsert_snapshot]: INSERT ... ON CONFLICT(post_id, snapshot_date) DO UPDATE. *)
Definition upsert_snapshot (c : conn) (post_id snapshot_date total_reactions : Z)
    (reactions : gmap string Z) (views forwards : option Z) : conn :=
  if existsb (snapshot_has_key post_id snapshot_date) (snapshots c) then
    {| posts := posts c; posts_seq := posts_seq c;
       links := links c; links_seq := links_seq c;
       snapshots :=
         map (fun r =>
                if snapshot_has_key post_id snapshot_date r then
                  {| s_id := s_id r; s_post_id := s_post_id r;
                     s_snapshot_date := s_snapshot_date r;
                     s_total_reactions := total_reactions;
                     s_reactions_json := reactions;
                     s_views := views; s_forwards := forwards |}
                else r) (snapshots c);
       snapshots_seq := snapshots_seq c |}
  else
    {| posts := posts c; posts_seq := posts_seq c;
       links := links c; links_seq := links_seq c;
       snapshots :=
         snapshots c ++
         [ {| s_id := snapshots_seq c + 1; s_post_id := post_id;
              s_snapshot_date := snapshot_date;
              s_total_reactions := total_reactions;
              s_reactions_json := reactions;
              s_views := views; s_forwards := forwards |} ];
       snapshots_seq := snapshots_seq c + 1 |}.

(** What the UNIQUE constraints of the schema guarantee of any stored
    state. *)
Record db_wf (c : conn) : Prop := {
  wf_posts_key : NoDup (map (fun r => (p_channel_id r, p_message_id r)) (posts c));
  wf_posts_id : NoDup (map p_id (posts c));
  wf_posts_seq : Forall (fun r => p_id r <= posts_seq c) (posts c);
  wf_links_key : NoDup (map (fun r => (l_post_id r, l_url r)) (links c));
  wf_snapshots_key : NoDup (map (fun r => (s_post_id r, s_snapshot_date r)) (snapshots c))
}.

(** [SELECT url, link_type FROM links WHERE post_id = ? ORDER BY id ASC] *)
Definition links_of_post (c : conn) (post_id : Z) : list (string * link_type) :=
  map (fun r => (l_url r, l_link_type r))
      (List.filter (fun r => l_post_id r =? post_id) (links c)).

End Db.

(** ** service.py

    Time is counted in microseconds.  An aware UTC [datetime] is the
    number of microseconds since 1970-01-01T00:00:00Z; a [date] is the
    number of days since 1970-01-01. *)

Module Service.

Import Extractors Db.

Definition MICROSECONDS_PER_DAY : Z := 86400000000.

(** [timedelta(days=n)] *)
Definition timedelta_days (n : Z) : Z := n * MICROSECONDS_PER_DAY.

(** [dt.date()] of a UTC datetime. *)
Definition utc_date (t : Z) : Z := t / MICROSECONDS_PER_DAY.

(** A [datetime] as Telethon hands it over: the reading of its own wall
    clock, and the UTC offset of its [tzinfo] when it has one. *)
Record datetime : Type := {
  wall : Z;
  tzinfo : option Z
}.

Definition _normalize_dt (dt : datetime) : Z :=
  match tzinfo dt with
  | None => wall dt
  | Some utcoffset => wall dt - utcoffset
  end.

(** The civil date of a day number, by the usual computation over
    400-year eras that begin on 1 March: the year of the era, the day of
    that year and the month counted from March. *)
Definition yoe_of (doe : Z) : Z := (doe - doe / 1460 + doe / 36524 - doe / 146096) / 365.

Definition doy_of (doe : Z) : Z :=
  doe - (365 * yoe_of doe + yoe_of doe / 4 - yoe_of doe / 100).

Definition mp_of (doy : Z) : Z := (5 * doy + 2) / 153.

Definition dom_of (doy : Z) : Z := doy - (153 * mp_of doy + 2) / 5 + 1.

Definition civil_from_days (days : Z) : Z * Z * Z :=
  let z := days + 719468 in
  let era := z / 146097 in
  let doe := z - era * 146097 in
  let doy := doy_of doe in
  let mp := mp_of doy in
  let m := if mp <? 10 then mp + 3 else mp - 9 in
  let y := yoe_of doe + era * 400 + (if m <=? 2 then 1 else 0) in
  (y, m, dom_of doy).

Definition digit_char (d : Z) : ascii := ascii_of_N (48 + Z.to_N d).

(** [n] in [width] decimal digits, zero-padded, as [%04d] and [%02d]
    print a number [0 <= n < 10 ^ width]. *)
Fixpoint digits (width : nat) (n : Z) : string :=
  match width with
  | O => EmptyString
  | S w => digits w (n / 10) +:+ String (digit_char (n mod 10)) EmptyString
  end.

(** [date.isoformat()]: [YYYY-MM-DD]. *)
Definition date_isoformat (day : Z) : string :=
  let '(y, m, d) := civil_from_days day in
  digits 4 y +:+ "-" +:+ digits 2 m +:+ "-" +:+ digits 2 d.

(** [HH:MM:SS[.ffffff]] of the microsecond of the day. *)
Definition time_isoformat (us_of_day : Z) : string :=
  let secs := us_of_day / 1000000 in
  let us := us_of_day mod 1000000 in
  digits 2 (secs / 3600) +:+ ":" +:+ digits 2 (secs / 60 mod 60) +:+ ":"
  +:+ digits 2 (secs mod 60)
  +:+ (if us =? 0 then EmptyString else "." +:+ digits 6 us).

(** [datetime.isoformat()] of an aware UTC datetime:
    [YYYY-MM-DDTHH:MM:SS[.ffffff]+00:00]. *)
Definition isoformat (t : Z) : string :=
  date_isoformat (utc_date t) +:+ "T" +:+ time_isoformat (t mod MICROSECONDS_PER_DAY)
  +:+ "+00:00".

(** Messages as the message source yields them. *)
Record tg_message : Type := {
  date : option datetime;
  content : message
}.

(** A resolved channel; [title] and [username] are probed with [getattr]. *)
Record entity : Type := {
  ent_title : option string;
  ent_username : option string;
  ent_id : Z
}.

(** The Telegram client: channel resolution may raise, and so may the
    message iterator at any point of the stream. *)
Record client : Type := {
  get_entity : string -> result entity;
  iter_messages : entity -> list (result tg_message)
}.

Record Settings : Type := {
  channels : list string;
  lookback_days : Z
}.

Record ScrapeStats : Type := {
  channels_total : Z;
  channels_ok : Z;
  channels_failed : Z;
  posts_processed : Z
}.

Inductive log_record : Type :=
  | LogInfo (text : string)
  | LogWarning (channel : string) (e : exn)
  | LogException (channel : string) (e : exn).

(** What the loop body needs to know of the channel. *)
Record channel_info : Type := {
  channel_title : string;
  channel_username : option string;
  channel_id : Z
}.

(** The body of the message loop from [extract_urls] on: the post, its
    links and today's snapshot. *)
Definition store_message (conn : Db.conn) (ch : channel_info) (snapshot_day : Z)
    (msg_dt : Z) (m : message) : result Db.conn :=
  let urls := extract_urls m in
  let reactions_map := extract_reactions (msg_reactions m) in
  let post_url :=
    match channel_username ch with
    | Some (String c u) =>
        Some ("https://t.me/" +:+ String c u +:+ "/" +:+ pretty (msg_id m))
    | _ => None
    end in
  '(conn, post_id) ← upsert_post conn (channel_id ch) (channel_username ch)
                        (channel_title ch) (msg_id m) post_url (isoformat msg_dt)
                        (msg_message m) (msg_views m) (msg_forwards m);
  typed ← links_with_types urls;
  let conn := replace_links conn post_id typed in
  Ok (upsert_snapshot conn post_id snapshot_day (total_reactions reactions_map)
        reactions_map (msg_views m) (msg_forwards m)).

(** [async for message in client.iter_messages(entity)]: returns the
    connection, the number of posts stored and the part of the stream that
    was never pulled. *)
Fixpoint scrape_messages (since_dt snapshot_day : Z) (ch : channel_info)
    (stream : list (result tg_message)) (conn : Db.conn) (posts_in_channel : Z)
    : result (Db.conn * Z * list (result tg_message)) :=
  match stream with
  | [] => Ok (conn, posts_in_channel, [])
  | Raise e :: _ => Raise e
  | Ok message :: rest =>
      match date message with
      | None => scrape_messages since_dt snapshot_day ch rest conn posts_in_channel
      | Some d =>
          let msg_dt := _normalize_dt d in
          if msg_dt <? since_dt then Ok (conn, posts_in_channel, rest)
          else
            conn ← store_message conn ch snapshot_day msg_dt (content message);
            scrape_messages since_dt snapshot_day ch rest conn (posts_in_channel + 1)
      end
  end.

Record run_state : Type := {
  stats : ScrapeStats;
  conn : Db.conn;
  log : list log_record
}.

Definition count_failed (st : run_state) (entry : log_record) : run_state :=
  {| stats :=
       {| channels_total := channels_total (stats st);
          channels_ok := channels_ok (stats st);
          channels_failed := channels_failed (stats st) + 1;
          posts_processed := posts_processed (stats st) |};
     conn := conn st;
     log := log st ++ [entry] |}.

Definition is_resolution_error (e : exn) : bool :=
  match e with
  | UsernameInvalidError | UsernameNotOccupiedError | ChannelPrivateError => true
  | _ => false
  end.

(** One iteration of [for raw_channel in self.settings.channels]. *)
Definition scrape_channel (cl : client) (since_dt snapshot_day : Z)
    (st : run_state) (raw_channel : string) : result run_state :=
  let channel := Str.lstrip (Ascii.eqb "@") raw_channel in
  match get_entity cl channel with
  | Raise e =>
      if is_resolution_error e
      then Ok (count_failed st (LogWarning channel e))
      else Ok (count_failed st (LogException channel e))
  | Ok ent =>
      let ch := {| channel_title := default channel (ent_title ent);
                   channel_username := ent_username ent;
                   channel_id := ent_id ent |} in
      '(conn', posts_in_channel, _) ←
        scrape_messages since_dt snapshot_day ch (iter_messages cl ent) (conn st) 0;
      Ok {| stats :=
              {| channels_total := channels_total (stats st);
                 channels_ok := channels_ok (stats st) + 1;
                 channels_failed := channels_failed (stats st);
                 posts_processed := posts_processed (stats st) + posts_in_channel |};
            conn := conn';
            log := log st ++ [LogInfo (channel_title ch)] |}
  end.

Fixpoint scrape_channels (cl : client) (since_dt snapshot_day : Z)
    (st : run_state) (chans : list string) : result run_state :=
  match chans with
  | [] => Ok st
  | raw_channel :: rest =>
      st' ← scrape_channel cl since_dt snapshot_day st raw_channel;
      scrape_channels cl since_dt snapshot_day st' rest
  end.

(** [lookback_days or self.settings.lookback_days] *)
Definition effective_lookback (settings : Settings) (lookback : option Z) : Z :=
  match lookback with
  | Some d => if d =? 0 then lookback_days settings else d
  | None => lookback_days settings
  end.

Definition since_dt (settings : Settings) (now : Z) (lookback : option Z) : Z :=
  now - timedelta_days (effective_lookback settings lookback).

(** [scrape_lookback]: [now] and [now'] are the two readings of the clock.
    The run's writes reach the stored database only through the final
    [conn.commit()]; an exception leaves the stored database as it was. *)
Definition scrape_lookback (settings : Settings) (cl : client) (now now' : Z)
    (lookback : option Z) (db : Db.conn) : result (ScrapeStats * list log_record) * Db.conn :=
  let since := since_dt settings now lookback in
  let snapshot_day := utc_date now' in
  let st0 :=
    {| stats := {| channels_total := Z.of_nat (List.length (channels settings));
                   channels_ok := 0; channels_failed := 0; posts_processed := 0 |};
       conn := db;
       log := [LogInfo "Telegram client started."] |} in
  match scrape_channels cl since snapshot_day st0 (channels settings) with
  | Ok st => (Ok (stats st, log st), conn st)
  | Raise e => (Raise e, db)
  end.

End Service.

(** ** The structured export: [json.dumps] and [json.loads]

    The values the export writes are [None], [int], [str], lists and
    dictionaries with string keys; a dictionary is kept as the list of its
    items in insertion order.  [dumps] is [json.dumps(v, ensure_ascii=False,
    indent=2)] and [loads] is [json.loads] on that fragment of JSON: the
    literals [true] and [false], numbers with a fraction or an exponent
    and [\u] escapes of non-ASCII code points, none of which the export
    writes, are not read. *)

Module Json.

#[warnings="-register-all"]
Inductive json : Type :=
  | JNull
  | JInt (n : Z)
  | JStr (s : string)
  | JList (items : list json)
  | JDict (fields : list (string * json)).

(** The double quote and the backslash. *)
Definition dq : ascii := "034"%char.
Definition bs : ascii := "092"%char.

Definition hex_digit (n : N) : ascii :=
  if (n <? 10)%N then ascii_of_N (48 + n) else ascii_of_N (87 + n).

(** [ESCAPE_DCT]: the quote, the backslash and the control characters. *)
Definition escape_char (c : ascii) : string :=
  if Ascii.eqb c dq then String bs (String dq EmptyString)
  else if Ascii.eqb c bs then String bs (String bs EmptyString)
  else if Ascii.eqb c "008" then String bs "b"
  else if Ascii.eqb c "012" then String bs "f"
  else if Ascii.eqb c "010" then String bs "n"
  else if Ascii.eqb c "013" then String bs "r"
  else if Ascii.eqb c "009" then String bs "t"
  else if (Str.code c <? 32)%N then
    String bs (String "u" (String "0" (String "0"
      (String (hex_digit (Str.code c / 16)) (String (hex_digit (Str.code c mod 16)) EmptyString)))))
  else String c EmptyString.

Fixpoint escape (s : string) : string :=
  match s with
  | EmptyString => EmptyString
  | String c s' => escape_char c +:+ escape s'
  end.

(** [encode_basestring] *)
Definition encode_string (s : string) : string :=
  String dq (escape s +:+ String dq EmptyString).

Fixpoint spaces (n : nat) : string :=
  match n with
  | O => EmptyString
  | S n' => String " " (spaces n')
  end.

(** A line break followed by the indentation of nesting level [level]. *)
Definition newline_indent (level : nat) : string :=
  String "010" (spaces (2 * level)).

(** The items after the first, each behind a comma, and the closing
    bracket on a line of its own. *)
Definition dumps_items (dump : json -> string) (level : nat) : list json -> string :=
  fix rest (l : list json) : string :=
    match l with
    | [] => newline_indent level +:+ "]"
    | y :: l' => "," +:+ newline_indent (S level) +:+ dump y +:+ rest l'
    end.

Definition dumps_fields (dump : json -> string) (level : nat)
    : list (string * json) -> string :=
  fix rest (l : list (string * json)) : string :=
    match l with
    | [] => newline_indent level +:+ "}"
    | (k, y) :: l' =>
        "," +:+ newline_indent (S level) +:+ encode_string k +:+ ": " +:+ dump y +:+ rest l'
    end.

Fixpoint dumps_at (level : nat) (v : json) : string :=
  match v with
  | JNull => "null"
  | JInt n => pretty n
  | JStr s => encode_string s
  | JList [] => "[]"
  | JList (x :: xs) =>
      "[" +:+ newline_indent (S level) +:+ dumps_at (S level) x
      +:+ dumps_items (dumps_at (S level)) level xs
  | JDict [] => "{}"
  | JDict ((k, x) :: xs) =>
      "{" +:+ newline_indent (S level) +:+ encode_string k +:+ ": " +:+ dumps_at (S level) x
      +:+ dumps_fields (dumps_at (S level)) level xs
  end.

Definition dumps (v : json) : string := dumps_at 0 v.

(** *** Reading *)

Definition is_ws (c : ascii) : bool := Str.mem_char c (String " " (String "009" (String "010" (String "013" EmptyString)))).

Fixpoint skip_ws (s : string) : string :=
  match s with
  | EmptyString => EmptyString
  | String c s' => if is_ws c then skip_ws s' else s
  end.

Definition hex_value (c : ascii) : option N :=
  if Str.is_digit c then Some (Str.code c - 48)%N
  else if ((97 <=? Str.code c) && (Str.code c <=? 102))%N then Some (Str.code c - 87)%N
  else if ((65 <=? Str.code c) && (Str.code c <=? 70))%N then Some (Str.code c - 55)%N
  else None.

Definition cons_char (c : ascii) (r : option (string * string)) : option (string * string) :=
  match r with
  | Some (s, rest) => Some (String c s, rest)
  | None => None
  end.

(** [scanstring], entered after the opening quote: the decoded text and
    what follows the closing quote. *)
Fixpoint scan_string (s : string) : option (string * string) :=
  match s with
  | EmptyString => None
  | String c r =>
      if Ascii.eqb c dq then Some (EmptyString, r)
      else if Ascii.eqb c bs then
        match r with
        | EmptyString => None
        | String e r' =>
            if Ascii.eqb e dq then cons_char dq (scan_string r')
            else if Ascii.eqb e bs then cons_char bs (scan_string r')
            else if Ascii.eqb e "/" then cons_char "/" (scan_string r')
            else if Ascii.eqb e "b" then cons_char "008" (scan_string r')
            else if Ascii.eqb e "f" then cons_char "012" (scan_string r')
            else if Ascii.eqb e "n" then cons_char "010" (scan_string r')
            else if Ascii.eqb e "r" then cons_char "013" (scan_string r')
            else if Ascii.eqb e "t" then cons_char "009" (scan_string r')
            else if Ascii.eqb e "u" then
              match r' with
              | String h1 (String h2 (String h3 (String h4 r''))) =>
                  match hex_value h1, hex_value h2, hex_value h3, hex_value h4 with
                  | Some a, Some b, Some c', Some d =>
                      let cp := (((a * 16 + b) * 16 + c') * 16 + d)%N in
                      if (cp <? 128)%N then cons_char (ascii_of_N cp) (scan_string r'')
                      else None
                  | _, _, _, _ => None
                  end
              | _ => None
              end
            else None
        end
      else if (Str.code c <? 32)%N then None
      else cons_char c (scan_string r)
  end.

Definition digit_value (c : ascii) : Z := Z.of_N (Str.code c - 48).

Fixpoint scan_digits (s : string) (acc : Z) : Z * string :=
  match s with
  | EmptyString => (acc, EmptyString)
  | String c s' =>
      if Str.is_digit c then scan_digits s' (10 * acc + digit_value c) else (acc, s)
  end.

(** The digits of [0|[1-9]\d*]. *)
Definition scan_natural (s : string) : option (Z * string) :=
  match s with
  | String c s' =>
      if Ascii.eqb c "0" then Some (0, s')
      else if Str.is_digit c then Some (scan_digits s 0)
      else None
  | EmptyString => None
  end.

(** A number is an [int] when neither a fraction nor an exponent follows. *)
Definition ends_integer (rest : string) : bool :=
  match rest with
  | String c _ => negb (Str.mem_char c ".eE")
  | EmptyString => true
  end.

Definition scan_int (s : string) : option (Z * string) :=
  let signed :=
    match s with
    | String "-" s' =>
        match scan_natural s' with
        | Some (n, rest) => Some (- n, rest)
        | None => None
        end
    | _ => scan_natural s
    end in
  match signed with
  | Some (n, rest) => if ends_integer rest then Some (n, rest) else None
  | None => None
  end.

(** The scanner.  [fuel] bounds the nesting and the number of items read;
    [loads] supplies the length of the text, more than any text needs. *)
Fixpoint scan_value (fuel : nat) (s : string) : option (json * string) :=
  match fuel with
  | O => None
  | S fuel' =>
      match s with
      | EmptyString => None
      | String c r =>
          if Ascii.eqb c dq then
            match scan_string r with
            | Some (text, rest) => Some (JStr text, rest)
            | None => None
            end
          else if Ascii.eqb c "[" then
            match skip_ws r with
            | String "]" rest => Some (JList [], rest)
            | r' =>
                match scan_items fuel' r' with
                | Some (items, rest) => Some (JList items, rest)
                | None => None
                end
            end
          else if Ascii.eqb c "{" then
            match skip_ws r with
            | String "}" rest => Some (JDict [], rest)
            | r' =>
                match scan_fields fuel' r' with
                | Some (fields, rest) => Some (JDict fields, rest)
                | None => None
                end
            end
          else if Str.startswith "null" s then Some (JNull, Str.drop 4 s)
          else
            match scan_int s with
            | Some (n, rest) => Some (JInt n, rest)
            | None => None
            end
      end
  end

with scan_items (fuel : nat) (s : string) : option (list json * string) :=
  match fuel with
  | O => None
  | S fuel' =>
      match scan_value fuel' s with
      | None => None
      | Some (v, rest) =>
          match skip_ws rest with
          | String "]" rest' => Some ([v], rest')
          | String "," rest' =>
              match scan_items fuel' (skip_ws rest') with
              | Some (vs, rest'') => Some (v :: vs, rest'')
              | None => None
              end
          | _ => None
          end
      end
  end

with scan_fields (fuel : nat) (s : string) : option (list (string * json) * string) :=
  match fuel with
  | O => None
  | S fuel' =>
      match s with
      | String c r =>
          if Ascii.eqb c dq then
            match scan_string r with
            | None => None
            | Some (key, rest) =>
                match skip_ws rest with
                | String ":" rest' =>
                    match scan_value fuel' (skip_ws rest') with
                    | None => None
                    | Some (v, rest'') =>
                        match skip_ws rest'' with
                        | String "}" rest3 => Some ([(key, v)], rest3)
                        | String "," rest3 =>
                            match scan_fields fuel' (skip_ws rest3) with
                            | Some (fs, rest4) => Some ((key, v) :: fs, rest4)
                            | None => None
                            end
                        | _ => None
                        end
                    end
                | _ => None
                end
            end
          else None
      | EmptyString => None
      end
  end.

Definition loads (text : string) : option json :=
  match scan_value (S (String.length text)) (skip_ws text) with
  | Some (v, rest) =>
      match skip_ws rest with
      | EmptyString => Some v
      | _ => None
      end
  | None => None
  end.

(** A bound on the fuel a value needs. *)
Fixpoint size (v : json) : nat :=
  match v with
  | JList l => S (list_sum (map (fun x => S (size x)) l))
  | JDict l => S (list_sum (map (fun kv => S (size (snd kv))) l))
  | _ => 1
  end.

End Json.

(** ** reporting.py *)

Module Reporting.

Import Extractors Db Json.

Record TopPost : Type := {
  channel_title : string;
  channel_username : option string;
  message_id : Z;
  post_url : option string;
  post_datetime : string;
  message_text : option string;
  latest_reactions : Z;
  reactions_growth : Z;
  latest_views : option Z;
  latest_forwards : option Z;
  github_links : list string;
  research_links : list string;
  article_links : list string
}.

(** [date.today() - timedelta(days=max(1, lookback_days) - 1)] *)
Definition _window_start (today lookback_days : Z) : Z :=
  today - (Z.max 1 lookback_days - 1).

Definition urls_of_type (t : link_type) (link_rows : list (string * link_type)) : list string :=
  map fst (List.filter (fun row => bool_decide (snd row = t)) link_rows).

Definition _split_links (link_rows : list (string * link_type))
    : list string * list string * list string :=
  (urls_of_type Github link_rows, urls_of_type Research link_rows,
   urls_of_type Article link_rows).

(** [bool(l)] of a list. *)
Definition nonempty {A} (l : list A) : bool :=
  match l with [] => false | _ :: _ => true end.

Definition _passes_link_filters (github_links research_links article_links : list string)
    (require_external_links research_only require_github : bool) : bool :=
  if require_github && negb (nonempty github_links) then false
  else
    let has_external :=
      nonempty github_links || nonempty research_links || nonempty article_links in
    if require_external_links && negb has_external then false
    else if research_only && negb (nonempty research_links) then false
    else true.

(** *** The ranking query *)

(** CTE [window]: [SELECT s.* FROM snapshots s WHERE s.snapshot_date >= ?] *)
Definition window (c : conn) (start : Z) : list snapshot_row :=
  List.filter (fun s => start <=? s_snapshot_date s) (snapshots c).

(** The groups of [GROUP BY post_id]: each post id once. *)
Fixpoint distinct (ids : list Z) : list Z :=
  match ids with
  | [] => []
  | x :: rest => x :: List.filter (fun y => negb (y =? x)) (distinct rest)
  end.

Definition dates_of (w : list snapshot_row) (post_id : Z) : list Z :=
  map s_snapshot_date (List.filter (fun s => s_post_id s =? post_id) w).

(** [MAX(snapshot_date)] and [MIN(snapshot_date)] over a group. *)
Definition agg_max (l : list Z) : option Z :=
  match l with
  | [] => None
  | x :: rest => Some (fold_left Z.max rest x)
  end.

Definition agg_min (l : list Z) : option Z :=
  match l with
  | [] => None
  | x :: rest => Some (fold_left Z.min rest x)
  end.

(** CTEs [latest_by_post] and [oldest_by_post]. *)
Definition group_by_post (agg : list Z -> option Z) (w : list snapshot_row) : list (Z * Z) :=
  flat_map (fun post_id =>
              match agg (dates_of w post_id) with
              | Some d => [(post_id, d)]
              | None => []
              end)
           (distinct (map s_post_id w)).

Definition latest_by_post := group_by_post agg_max.
Definition oldest_by_post := group_by_post agg_min.

Record metrics_row : Type := {
  m_post_id : Z;
  m_latest_reactions : Z;
  m_oldest_reactions : Z;
  m_latest_views : option Z;
  m_latest_forwards : option Z
}.

(** CTE [metrics]: the four-way join. *)
Definition metrics (w : list snapshot_row) : list metrics_row :=
  flat_map (fun l : Z * Z =>
    flat_map (fun wl =>
      flat_map (fun o : Z * Z =>
        map (fun wo =>
               {| m_post_id := fst l;
                  m_latest_reactions := s_total_reactions wl;
                  m_oldest_reactions := s_total_reactions wo;
                  m_latest_views := s_views wl;
                  m_latest_forwards := s_forwards wl |})
            (List.filter (fun wo => snapshot_has_key (fst o) (snd o) wo) w))
        (List.filter (fun o : Z * Z => fst o =? fst l) (oldest_by_post w)))
      (List.filter (fun wl => snapshot_has_key (fst l) (snd l) wl) w))
    (latest_by_post w).

(** A row of the outer SELECT. *)
Record candidate : Type := {
  c_id : Z;
  c_channel_title : string;
  c_channel_username : option string;
  c_message_id : Z;
  c_post_url : option string;
  c_post_datetime : string;
  c_message_text : option string;
  c_latest_reactions : Z;
  c_reactions_growth : Z;
  c_latest_views : option Z;
  c_latest_forwards : option Z
}.

(** [FROM metrics m JOIN posts p ON p.id = m.post_id] *)
Definition joined (c : conn) (start : Z) : list candidate :=
  flat_map (fun m =>
    map (fun p =>
           {| c_id := p_id p;
              c_channel_title := p_channel_title p;
              c_channel_username := p_channel_username p;
              c_message_id := p_message_id p;
              c_post_url := p_post_url p;
              c_post_datetime := p_post_datetime p;
              c_message_text := p_message_text p;
              c_latest_reactions := m_latest_reactions m;
              c_reactions_growth := m_latest_reactions m - m_oldest_reactions m;
              c_latest_views := m_latest_views m;
              c_latest_forwards := m_latest_forwards m |})
        (List.filter (fun p => p_id p =? m_post_id m) (posts c)))
    (metrics (window c start)).

(** [ORDER BY m.latest_reactions DESC, reactions_growth DESC,
    p.post_datetime DESC]: [Lt] when [a] sorts before [b].  Text columns
    compare byte-wise. *)
Definition rank_compare (a b : candidate) : comparison :=
  match c_latest_reactions b ?= c_latest_reactions a with
  | Eq =>
      match c_reactions_growth b ?= c_reactions_growth a with
      | Eq => String.compare (c_post_datetime b) (c_post_datetime a)
      | o => o
      end
  | o => o
  end.

Definition rank_leb (a b : candidate) : bool :=
  match rank_compare a b with Gt => false | _ => true end.

(** The sort behind ORDER BY; rows that tie on all three keys keep the
    order in which the join produced them. *)
Fixpoint insert_ranked (x : candidate) (l : list candidate) : list candidate :=
  match l with
  | [] => [x]
  | y :: l' => if rank_leb x y then x :: l else y :: insert_ranked x l'
  end.

Definition order_by_rank (l : list candidate) : list candidate :=
  fold_right insert_ranked [] l.

(** The whole SELECT, LIMIT included. *)
Definition ranked_candidates (c : conn) (start candidates_limit : Z) : list candidate :=
  firstn (Z.to_nat candidates_limit) (order_by_rank (joined c start)).

(** *** [get_top_posts] *)

Record link_filters : Type := {
  require_external_links : bool;
  research_only : bool;
  require_github : bool
}.

Definition candidate_passes (c : conn) (f : link_filters) (row : candidate) : bool :=
  let '(github_links, research_links, article_links) :=
    _split_links (links_of_post c (c_id row)) in
  _passes_link_filters github_links research_links article_links
    (require_external_links f) (research_only f) (require_github f).

Definition to_top_post (c : conn) (row : candidate) : TopPost :=
  let '(github_links, research_links, article_links) :=
    _split_links (links_of_post c (c_id row)) in
  {| channel_title := c_channel_title row;
     channel_username := c_channel_username row;
     message_id := c_message_id row;
     post_url := c_post_url row;
     post_datetime := c_post_datetime row;
     message_text := c_message_text row;
     latest_reactions := c_latest_reactions row;
     reactions_growth := c_reactions_growth row;
     latest_views := c_latest_views row;
     latest_forwards := c_latest_forwards row;
     github_links := github_links;
     research_links := research_links;
     article_links := article_links |}.

(** The [for row in rows] loop, with [result] the list built so far. *)
Fixpoint collect (c : conn) (f : link_filters) (limit : Z)
    (rows : list candidate) (result : list TopPost) : list TopPost :=
  match rows with
  | [] => result
  | row :: rest =>
      if negb (candidate_passes c f row) then collect c f limit rest result
      else
        let result := (result ++ [to_top_post c row])%list in
        if limit <=? Z.of_nat (List.length result) then result
        else collect c f limit rest result
  end.

Definition candidates_limit (limit : Z) : Z := Z.max (limit * 10) 200.

(** [today] is the reading of [date.today()]. *)
Definition get_top_posts (c : conn) (today lookback_days limit : Z) (f : link_filters)
    : list TopPost :=
  let start := _window_start today lookback_days in
  let rows := ranked_candidates c start (candidates_limit limit) in
  collect c f limit rows [].

(** *** The structured export *)

Definition json_of_option_str (o : option string) : json :=
  match o with
  | Some s => JStr s
  | None => JNull
  end.

Definition json_of_option_int (o : option Z) : json :=
  match o with
  | Some n => JInt n
  | None => JNull
  end.

Definition json_of_strs (l : list string) : json := JList (map JStr l).

Definition _post_to_dict (post : TopPost) : json :=
  JDict
    [ ("channel_title", JStr (channel_title post));
      ("channel_username", json_of_option_str (channel_username post));
      ("message_id", JInt (message_id post));
      ("post_url", json_of_option_str (post_url post));
      ("post_datetime", JStr (post_datetime post));
      ("message_text", json_of_option_str (message_text post));
      ("latest_reactions", JInt (latest_reactions post));
      ("reactions_growth", JInt (reactions_growth post));
      ("latest_views", json_of_option_int (latest_views post));
      ("latest_forwards", json_of_option_int (latest_forwards post));
      ("github_links", json_of_strs (github_links post));
      ("research_links", json_of_strs (research_links post));
      ("article_links", json_of_strs (article_links post)) ].

(** [export_top_posts_json]: the text written to [output_path]. *)
Definition export_top_posts_json (top_posts : list TopPost) : string :=
  Json.dumps (JList (map _post_to_dict top_posts)).

(** Reading an export back: [json.loads] on the text, then the thirteen
    fields of every record by name.  The package has no reader of its
    own; this is the reader the round-trip property speaks of. *)
Definition dict_get (key : string) (v : json) : option json :=
  match v with
  | JDict fields =>
      match find (fun kv => String.eqb (fst kv) key) fields with
      | Some kv => Some (snd kv)
      | None => None
      end
  | _ => None
  end.

Definition as_str (v : json) : option string :=
  match v with JStr s => Some s | _ => None end.

Definition as_int (v : json) : option Z :=
  match v with JInt n => Some n | _ => None end.

Definition as_option_str (v : json) : option (option string) :=
  match v with
  | JNull => Some None
  | JStr s => Some (Some s)
  | _ => None
  end.

Definition as_option_int (v : json) : option (option Z) :=
  match v with
  | JNull => Some None
  | JInt n => Some (Some n)
  | _ => None
  end.

Fixpoint read_all {A} (read : json -> option A) (l : list json) : option (list A) :=
  match l with
  | [] => Some []
  | v :: l' =>
      match read v, read_all read l' with
      | Some a, Some l'' => Some (a :: l'')
      | _, _ => None
      end
  end.

Definition as_strs (v : json) : option (list string) :=
  match v with JList l => read_all as_str l | _ => None end.

Definition top_post_of_dict (d : json) : option TopPost :=
  channel_title ← dict_get "channel_title" d ≫= as_str;
  channel_username ← dict_get "channel_username" d ≫= as_option_str;
  message_id ← dict_get "message_id" d ≫= as_int;
  post_url ← dict_get "post_url" d ≫= as_option_str;
  post_datetime ← dict_get "post_datetime" d ≫= as_str;
  message_text ← dict_get "message_text" d ≫= as_option_str;
  latest_reactions ← dict_get "latest_reactions" d ≫= as_int;
  reactions_growth ← dict_get "reactions_growth" d ≫= as_int;
  latest_views ← dict_get "latest_views" d ≫= as_option_int;
  latest_forwards ← dict_get "latest_forwards" d ≫= as_option_int;
  github_links ← dict_get "github_links" d ≫= as_strs;
  research_links ← dict_get "research_links" d ≫= as_strs;
  article_links ← dict_get "article_links" d ≫= as_strs;
  Some {| channel_title := channel_title;
          channel_username := channel_username;
          message_id := message_id;
          post_url := post_url;
          post_datetime := post_datetime;
          message_text := message_text;
          latest_reactions := latest_reactions;
          reactions_growth := reactions_growth;
          latest_views := latest_views;
          latest_forwards := latest_forwards;
          github_links := github_links;
          research_links := research_links;
          article_links := article_links |}.

Definition read_top_posts (text : string) : option (list TopPost) :=
  match Json.loads text with
  | Some (JList records) => read_all top_post_of_dict records
  | _ => None
  end.

End Reporting.

(** * Vocabulary of the properties *)

Module StrProps.

(** Strictly ascending in the byte-wise order. *)
Definition ascending : list string -> Prop :=
  StronglySorted (fun a b => String.compare a b = Lt).

End StrProps.

Module DbProps.

Import Extractors Db.

(** The unique keys of the three tables. *)
Definition post_key (r : post_row) : Z * Z := (p_channel_id r, p_message_id r).
Definition link_key (r : link_row) : Z * string := (l_post_id r, l_url r).
Definition snapshot_key (r : snapshot_row) : Z * Z := (s_post_id r, s_snapshot_date r).

Section PostValues.

Variables (channel_id : Z) (channel_username : option string) (channel_title : string)
          (message_id : Z) (post_url : option string) (post_datetime : string)
          (message_text : option string) (views forwards : option Z).

(** The row [r] after the DO UPDATE clause of [upsert_post]. *)
Definition refreshed_post (r : post_row) : post_row :=
  {| p_id := p_id r; p_channel_id := p_channel_id r;
     p_channel_username := channel_username; p_channel_title := channel_title;
     p_message_id := p_message_id r; p_post_url := post_url;
     p_post_datetime := post_datetime; p_message_text := message_text;
     p_views := views; p_forwards := forwards |}.

(** A row with the key already carries the values. *)
Definition post_is_fresh (r : post_row) : Prop :=
  post_has_key channel_id message_id r = true -> refreshed_post r = r.

End PostValues.

Section SnapshotValues.

Variables (post_id snapshot_date total : Z) (reactions : gmap string Z)
          (views forwards : option Z).

(** The row [r] after the DO UPDATE clause of [upsert_snapshot]. *)
Definition refreshed_snapshot (r : snapshot_row) : snapshot_row :=
  {| s_id := s_id r; s_post_id := s_post_id r; s_snapshot_date := s_snapshot_date r;
     s_total_reactions := total; s_reactions_json := reactions;
     s_views := views; s_forwards := forwards |}.

Definition snapshot_is_fresh (r : snapshot_row) : Prop :=
  snapshot_has_key post_id snapshot_date r = true -> refreshed_snapshot r = r.

End SnapshotValues.

(** The links that survive INSERT OR IGNORE when [have] holds the URLs
    the post already has: the first occurrence of every new URL. *)
Fixpoint fresh_links (have : list string) (ls : list (string * link_type))
    : list (string * link_type) :=
  match ls with
  | [] => []
  | (url, t) :: rest =>
      if existsb (String.eqb url) have then fresh_links have rest
      else (url, t) :: fresh_links (have ++ [url]) rest
  end.

End DbProps.

Module ServiceProps.

Import Extractors Db Service.

(** [datetime] covers the years 1 to 9999: the days from 0001-01-01 up
    to, and not including, 10000-01-01. *)
Definition MIN_DAY : Z := -719162.

Definition MAX_DAY : Z := 2932897.

Definition valid_day (d : Z) : Prop := MIN_DAY <= d < MAX_DAY.

Definition valid_instant (t : Z) : Prop :=
  MIN_DAY * MICROSECONDS_PER_DAY <= t < MAX_DAY * MICROSECONDS_PER_DAY.

(** Year, month and day, compared in this order. *)
Definition civil_lt (a b : Z * Z * Z) : Prop :=
  a.1.1 < b.1.1 \/ (a.1.1 = b.1.1 /\ (a.1.2 < b.1.2 \/ (a.1.2 = b.1.2 /\ a.2 < b.2))).

(** The [post_url] argument of [upsert_post]. *)
Definition post_url_of (ch : channel_info) (m : message) : option string :=
  match channel_username ch with
  | Some (String c u) => Some ("https://t.me/" +:+ String c u +:+ "/" +:+ pretty (msg_id m))
  | _ => None
  end.

(** A message the loop keeps: it has no date (and is skipped), or its
    UTC-normalized timestamp is not older than the cutoff. *)
Definition fresh (since : Z) (m : tg_message) : Prop :=
  match date m with
  | None => True
  | Some d => since <= _normalize_dt d
  end.

(** A message strictly older than the cutoff. *)
Definition older (since : Z) (m : tg_message) : Prop :=
  exists d, date m = Some d /\ _normalize_dt d < since.

(** A message whose discovered URLs all classify. *)
Definition storable (m : tg_message) : Prop :=
  exists typed, links_with_types (extract_urls (content m)) = Ok typed.

(** The number of dated messages. *)
Definition dated_count (msgs : list tg_message) : Z :=
  Z.of_nat (List.length (List.filter (fun m => bool_decide (is_Some (date m))) msgs)).

Definition is_ok {A} (r : result A) : bool :=
  match r with Ok _ => true | Raise _ => false end.

(** A stream that the message loop gets through without an exception:
    up to the cutoff no pull raises and every kept message has links
    that classify. *)
Fixpoint stream_clean (since : Z) (stream : list (result tg_message)) : bool :=
  match stream with
  | [] => true
  | Raise _ :: _ => false
  | Ok m :: rest =>
      match date m with
      | None => stream_clean since rest
      | Some d =>
          if _normalize_dt d <? since then true
          else is_ok (links_with_types (extract_urls (content m)))
               && stream_clean since rest
      end
  end.

(** The number of messages the loop stores from a stream. *)
Fixpoint stored_count (since : Z) (stream : list (result tg_message)) : Z :=
  match stream with
  | [] => 0
  | Raise _ :: _ => 0
  | Ok m :: rest =>
      match date m with
      | None => stored_count since rest
      | Some d =>
          if _normalize_dt d <? since then 0 else 1 + stored_count since rest
      end
  end.

(** [raw_channel.lstrip("@")] *)
Definition channel_name (raw_channel : string) : string :=
  Str.lstrip (Ascii.eqb "@") raw_channel.

(** The channel cannot be resolved. *)
Definition channel_failed (cl : client) (raw_channel : string) : bool :=
  negb (is_ok (get_entity cl (channel_name raw_channel))).

(** The channel cannot be resolved, or its stream is clean. *)
Definition channel_clean (cl : client) (since : Z) (raw_channel : string) : bool :=
  match get_entity cl (channel_name raw_channel) with
  | Raise _ => true
  | Ok ent => stream_clean since (iter_messages cl ent)
  end.

Definition channel_posts (cl : client) (since : Z) (raw_channel : string) : Z :=
  match get_entity cl (channel_name raw_channel) with
  | Raise _ => 0
  | Ok ent => stored_count since (iter_messages cl ent)
  end.

(** The log record of a channel that cannot be resolved. *)
Definition failure_record (cl : client) (raw_channel : string) : list log_record :=
  match get_entity cl (channel_name raw_channel) with
  | Raise e =>
      [ if is_resolution_error e
        then LogWarning (channel_name raw_channel) e
        else LogException (channel_name raw_channel) e ]
  | Ok _ => []
  end.

Definition is_failure_record (r : log_record) : bool :=
  match r with LogInfo _ => false | _ => true end.

Definition sum_Z (l : list Z) : Z := fold_right Z.add 0 l.

Definition count_where {A} (p : A -> bool) (l : list A) : Z :=
  Z.of_nat (List.length (List.filter p l)).

End ServiceProps.

Module JsonProps.

Import Json.

(** What may follow the digits of an integer. *)
Definition number_stop (rest : string) : bool :=
  match rest with
  | EmptyString => true
  | String c _ => negb (Str.is_digit c) && negb (Str.mem_char c ".eE")
  end.

(** The first character of a value's text. *)
Definition is_value_start (c : ascii) : bool :=
  Ascii.eqb c dq || Ascii.eqb c "[" || Ascii.eqb c "{" || Ascii.eqb c "n"
  || Ascii.eqb c "-" || Str.is_digit c.

(** The text of [v], at any nesting level and before any continuation
    that cannot extend a number, reads back as [v]. *)
Definition reads_back (v : json) : Prop :=
  forall level rest fuel,
    number_stop rest = true -> (size v <= fuel)%nat ->
    scan_value fuel (dumps_at level v +:+ rest) = Some (v, rest).

End JsonProps.

Module ReportingProps.

Import Extractors Db Reporting.

(** [a] may stand before [b]: more reactions; or as many and more growth;
    or as many of both and a timestamp that is not smaller. *)
Definition ranks_before (l g : Z) (t : string) (l' g' : Z) (t' : string) : Prop :=
  l' < l \/ (l = l' /\ (g' < g \/ (g = g' /\ String.compare t' t <> Gt))).

Definition candidate_before (a b : candidate) : Prop :=
  ranks_before (c_latest_reactions a) (c_reactions_growth a) (c_post_datetime a)
               (c_latest_reactions b) (c_reactions_growth b) (c_post_datetime b).

Definition post_before (a b : TopPost) : Prop :=
  ranks_before (latest_reactions a) (reactions_growth a) (post_datetime a)
               (latest_reactions b) (reactions_growth b) (post_datetime b).

(** The loop checks the limit only after it has appended a row, so it
    takes at least one passing row. *)
Definition take_count (limit : Z) : nat := Z.to_nat (Z.max 1 limit).

(** The snapshots of one post inside the window. *)
Definition in_window (c : conn) (start post_id : Z) (s : snapshot_row) : Prop :=
  In s (snapshots c) /\ start <= s_snapshot_date s /\ s_post_id s = post_id.

Definition latest_in_window (c : conn) (start post_id : Z) (s : snapshot_row) : Prop :=
  in_window c start post_id s
  /\ forall s', in_window c start post_id s' -> s_snapshot_date s' <= s_snapshot_date s.

Definition oldest_in_window (c : conn) (start post_id : Z) (s : snapshot_row) : Prop :=
  in_window c start post_id s
  /\ forall s', in_window c start post_id s' -> s_snapshot_date s <= s_snapshot_date s'.

End ReportingProps.

(** * Sample data used by the closed statements *)

Module Samples.

Import Extractors Db.

(** A reaction object with neither an emoticon nor a document id, such as
    Telethon's [ReactionPaid]. *)
Definition paid_reaction : reaction_obj :=
  {| emoticon := None; document_id := None; repr := "ReactionPaid()" |}.

Definition custom_reaction (id : Z) : reaction_obj :=
  {| emoticon := None; document_id := Some id;
     repr := "ReactionCustomEmoji(document_id=" +:+ pretty id +:+ ")" |}.

Definition emoji_reaction (e : string) : reaction_obj :=
  {| emoticon := Some e; document_id := None;
     repr := "ReactionEmoji(emoticon='" +:+ e +:+ "')" |}.

Definition counted (r : option reaction_obj) (n : Z) : reaction_count :=
  {| reaction := r; count := Some n |}.

Definition with_results (items : list reaction_count) : option message_reactions :=
  Some {| results := Some items |}.

(** A message with a text and a number of thumbs-up reactions. *)
Definition text_message (id : Z) (text : string) (likes : Z) : message :=
  {| msg_id := id; msg_message := Some text; msg_entities := None;
     msg_reactions := with_results [counted (Some (emoji_reaction "+")) likes];
     msg_views := Some 100; msg_forwards := Some 3 |}.

(** [hour] o'clock UTC on day [day]. *)
Definition at_hour (day hour : Z) : Z := day * 86400000000 + hour * 3600000000.

Definition utc (t : Z) : Service.datetime := {| Service.wall := t; Service.tzinfo := Some 0 |}.
Definition naive (t : Z) : Service.datetime := {| Service.wall := t; Service.tzinfo := None |}.

Definition dated (t : Z) (m : message) : Service.tg_message :=
  {| Service.date := Some (utc t); Service.content := m |}.

Definition ml_channel : Service.channel_info :=
  {| Service.channel_title := "ML Daily";
     Service.channel_username := Some "mldaily";
     Service.channel_id := 1001 |}.

Definition stored (r : result Db.conn) : Db.conn :=
  match r with Ok c => c | Raise _ => empty_db end.

(** Post 42 as first seen on day 10, with a link that later disappears. *)
Definition post42_old : message :=
  text_message 42 "draft at https://example.com/old" 5.

(** Post 42 after an edit. *)
Definition post42 : message :=
  text_message 42 "paper https://arxiv.org/abs/1234, code https://github.com/org/repo" 5.

(** Post 42 with more reactions. *)
Definition post42_later : message :=
  text_message 42 "paper https://arxiv.org/abs/1234, code https://github.com/org/repo" 12.

Definition db_stale : Db.conn :=
  stored (Service.store_message empty_db ml_channel 10 (at_hour 9 13) post42_old).

Definition db_day10 : Db.conn :=
  stored (Service.store_message db_stale ml_channel 10 (at_hour 9 13) post42).

Definition db_day11 : Db.conn :=
  stored (Service.store_message db_day10 ml_channel 11 (at_hour 9 13) post42_later).

(** Two further posts that tie on reactions and growth. *)
Definition post43 : message := text_message 43 "repo https://github.com/org/a" 12.
Definition post44 : message := text_message 44 "blog https://example.com/b" 12.

Definition db_ties : Db.conn :=
  stored (Service.store_message
            (stored (Service.store_message
                       (stored (Service.store_message empty_db ml_channel 11 (at_hour 9 8) post43))
                       ml_channel 11 (at_hour 9 20) post44))
            ml_channel 11 (at_hour 10 1) (text_message 45 "repo https://github.com/org/c" 12)).

Definition no_filters : Reporting.link_filters :=
  {| Reporting.require_external_links := false;
     Reporting.research_only := false;
     Reporting.require_github := false |}.

Definition github_only : Reporting.link_filters :=
  {| Reporting.require_external_links := true;
     Reporting.research_only := false;
     Reporting.require_github := true |}.

(** A message source with a healthy channel, two channels that cannot be
    resolved, a channel whose message iterator fails after its first
    message, and a channel with a malformed link in a message text. *)
Definition healthy_stream : list (result Service.tg_message) :=
  [ Ok (dated (at_hour 10 9) post43);
    Ok {| Service.date := None; Service.content := post44 |};
    Ok {| Service.date := Some (naive (at_hour 9 13)); Service.content := post42 |};
    Ok (dated (at_hour 9 11) post42_old);
    Raise (OtherError "never pulled") ].

Definition sample_client : Service.client :=
  {| Service.get_entity := fun name =>
       if String.eqb name "mldaily" then
         Ok {| Service.ent_title := Some "ML Daily";
               Service.ent_username := Some "mldaily"; Service.ent_id := 1001 |}
       else if String.eqb name "flaky" then
         Ok {| Service.ent_title := Some "Flaky";
               Service.ent_username := Some "flaky"; Service.ent_id := 1002 |}
       else if String.eqb name "brackets" then
         Ok {| Service.ent_title := Some "Brackets";
               Service.ent_username := None; Service.ent_id := 1003 |}
       else if String.eqb name "private" then Raise ChannelPrivateError
       else if String.eqb name "timeout" then Raise (OtherError "timed out")
       else Raise UsernameNotOccupiedError;
     Service.iter_messages := fun ent =>
       if Service.ent_id ent =? 1001 then healthy_stream
       else if Service.ent_id ent =? 1002 then
         [ Ok (dated (at_hour 10 9) post43); Raise (OtherError "connection reset") ]
       else if Service.ent_id ent =? 1003 then
         [ Ok (dated (at_hour 10 9) (text_message 7 "see http://[ for details" 1)) ]
       else [] |}.

Definition settings_of (chans : list string) : Service.Settings :=
  {| Service.channels := chans; Service.lookback_days := 7 |}.

Definition sample_post : Reporting.TopPost :=
  {| Reporting.channel_title := "ML Daily";
     Reporting.channel_username := None;
     Reporting.message_id := 42;
     Reporting.post_url := Some "https://t.me/mldaily/42";
     Reporting.post_datetime := "1970-01-10T13:00:00+00:00";
     Reporting.message_text := Some (String "034" "quoted" +:+ String "034" (String "010" "next line \ end"));
     Reporting.latest_reactions := 12;
     Reporting.reactions_growth := -3;
     Reporting.latest_views := Some 100;
     Reporting.latest_forwards := None;
     Reporting.github_links := ["https://github.com/org/repo"];
     Reporting.research_links := [];
     Reporting.article_links := ["https://example.com/a"; "https://example.com/b"] |}.

End Samples.

(** * Further modules of the package *)

(** ** Text as Python counts it

    [len], slicing, [strip] and [splitlines] work on the characters of a
    [str]; on the UTF-8 encoding a character is a byte that is not a
    continuation byte together with the continuation bytes behind it. *)

Module Text.

(** The bytes [10xxxxxx], which continue a character. *)
Definition is_continuation (c : ascii) : bool :=
  ((128 <=? Str.code c) && (Str.code c <=? 191))%N.

(** [len(s)] *)
Fixpoint len (s : string) : nat :=
  match s with
  | EmptyString => O
  | String c s' => ((if is_continuation c then 0 else 1) + len s')%nat
  end.

(** [s[:n]] *)
Fixpoint take (n : nat) (s : string) : string :=
  match s with
  | EmptyString => EmptyString
  | String c s' =>
      if is_continuation c then String c (take n s')
      else match n with
           | O => EmptyString
           | S n' => String c (take n' s')
           end
  end.

(** [sep.join(parts)] *)
Fixpoint join (sep : string) (parts : list string) : string :=
  match parts with
  | [] => EmptyString
  | [x] => x
  | x :: rest => x +:+ sep +:+ join sep rest
  end.

(** [s.replace(a, b)] for single ASCII characters [a] and [b]. *)
Fixpoint replace_char (a b : ascii) (s : string) : string :=
  match s with
  | EmptyString => EmptyString
  | String c s' => String (if Ascii.eqb c a then b else c) (replace_char a b s')
  end.

Definition byte_is (c : ascii) (n : N) : bool := (Str.code c =? n)%N.

(** The number of bytes of the white-space character at the head of [s],
    0 when [s] does not start with one.  The characters of [str.isspace]
    are U+0009..U+000D, U+001C..U+0020, U+0085, U+00A0, U+1680,
    U+2000..U+200A, U+2028, U+2029, U+202F, U+205F and U+3000. *)
Definition space_width (s : string) : nat :=
  match s with
  | EmptyString => 0
  | String c r =>
      if Str.is_space c then 1
      else if byte_is c 194 then
        match r with
        | String d _ => if byte_is d 133 || byte_is d 160 then 2 else 0
        | EmptyString => 0
        end
      else if byte_is c 225 then
        match r with
        | String d (String e _) => if byte_is d 154 && byte_is e 128 then 3 else 0
        | _ => 0
        end
      else if byte_is c 226 then
        match r with
        | String d (String e _) =>
            if byte_is d 128
               && (((128 <=? Str.code e) && (Str.code e <=? 138))%N
                   || byte_is e 168 || byte_is e 169 || byte_is e 175)
            then 3
            else if byte_is d 129 && byte_is e 159 then 3
            else 0
        | _ => 0
        end
      else if byte_is c 227 then
        match r with
        | String d (String e _) => if byte_is d 128 && byte_is e 128 then 3 else 0
        | _ => 0
        end
      else 0
  end%nat.

(** [s.lstrip()]; [skip] bytes of a white-space character are still to
    be dropped. *)
Fixpoint lstrip_from (skip : nat) (s : string) : string :=
  match s with
  | EmptyString => EmptyString
  | String _ s' =>
      match skip with
      | S k => lstrip_from k s'
      | O =>
          match space_width s with
          | O => s
          | S k => lstrip_from k s'
          end
      end
  end.

Definition lstrip (s : string) : string := lstrip_from 0 s.

(** [s.isspace() or not s] *)
Definition blank (s : string) : bool := negb (Str.truthy (lstrip s)).

(** [s.rstrip()] *)
Fixpoint rstrip (s : string) : string :=
  match s with
  | EmptyString => EmptyString
  | String c s' => if blank s then EmptyString else String c (rstrip s')
  end.

(** [s.strip()] *)
Definition strip (s : string) : string := lstrip (rstrip s).

(** The number of bytes of the line boundary at the head of [s], 0 when
    [s] does not start with one.  The boundaries of [str.splitlines] are
    LF, VT, FF, CR, CR LF, FS, GS, RS, U+0085, U+2028 and U+2029. *)
Definition linebreak_width (s : string) : nat :=
  match s with
  | EmptyString => 0
  | String c r =>
      if byte_is c 13 then
        match r with
        | String d _ => if byte_is d 10 then 2 else 1
        | EmptyString => 1
        end
      else if ((10 <=? Str.code c) && (Str.code c <=? 12) || (28 <=? Str.code c) && (Str.code c <=? 30))%N
      then 1
      else if byte_is c 194 then
        match r with
        | String d _ => if byte_is d 133 then 2 else 0
        | EmptyString => 0
        end
      else if byte_is c 226 then
        match r with
        | String d (String e _) =>
            if byte_is d 128 && (byte_is e 168 || byte_is e 169) then 3 else 0
        | _ => 0
        end
      else 0
  end%nat.

(** [s.splitlines()]; [current] is the line read so far. *)
Fixpoint splitlines_from (skip : nat) (current : string) (s : string) : list string :=
  match s with
  | EmptyString => if Str.truthy current then [current] else []
  | String c s' =>
      match skip with
      | S k => splitlines_from k current s'
      | O =>
          match linebreak_width s with
          | O => splitlines_from O (current +:+ String c EmptyString) s'
          | S k => current :: splitlines_from k EmptyString s'
          end
      end
  end.

Definition splitlines (s : string) : list string := splitlines_from 0 EmptyString s.

(** [s.split(sep)] for a single ASCII character [sep]. *)
Fixpoint split_char (sep : ascii) (s : string) : list string :=
  match s with
  | EmptyString => [EmptyString]
  | String c s' =>
      if Ascii.eqb c sep then EmptyString :: split_char sep s'
      else match split_char sep s' with
           | piece :: rest => String c piece :: rest
           | [] => [String c EmptyString]
           end
  end.

End Text.

(** ** bot_app.py *)

Module BotApp.

Import Text.

Definition newline : string := String "010" EmptyString.

(** The loop of [_split_text] over the lines of the text: [chunks] are
    the chunks closed so far, [current] the lines of the open chunk and
    [current_len] their length with one more for each line. *)
Fixpoint split_lines (limit : Z) (lines : list string)
    (chunks current : list string) (current_len : Z) : list string * list string :=
  match lines with
  | [] => (chunks, current)
  | line :: rest =>
      let extra := Z.of_nat (len line) + 1 in
      if Reporting.nonempty current && (limit <? current_len + extra)
      then split_lines limit rest (chunks ++ [join newline current])%list [line] extra
      else split_lines limit rest chunks (current ++ [line])%list (current_len + extra)
  end.

Definition _split_text (text : string) (limit : Z) : list string :=
  let '(chunks, current) := split_lines limit (splitlines text) [] [] 0 in
  if Reporting.nonempty current then (chunks ++ [join newline current])%list else chunks.

End BotApp.

(** ** config.py *)

Module Config.

Import Text.

(** [_parse_channels]: the comma-separated pieces that are not blank,
    stripped and without leading [@]. *)
Definition _parse_channels (raw : string) : result (list string) :=
  let channels :=
    map (fun c => Str.lstrip (Ascii.eqb "@") (strip c))
        (List.filter (fun c => Str.truthy (strip c)) (split_char "," raw)) in
  match channels with
  | [] => Raise (ValueError "список каналов пуст=(")
  | _ => Ok channels
  end.

End Config.

(** ** reporting.py: posts with links *)

Module PostsWithLinks.

Import Extractors Db Json Reporting.

Record PostWithLinks : Type := {
  channel_title : string;
  channel_username : option string;
  message_id : Z;
  post_url : option string;
  post_datetime : string;
  message_text : option string;
  latest_reactions : Z;
  latest_views : option Z;
  latest_forwards : option Z;
  github_links : list string;
  research_links : list string;
  article_links : list string
}.

(** [datetime.now(timezone.utc) - timedelta(days=max(1, lookback_days))] *)
Definition start_dt (now lookback_days : Z) : Z :=
  now - Service.timedelta_days (Z.max 1 lookback_days).

(** ORDER BY: a row goes before the first row that [before] lets it
    precede; rows that tie keep the order of the table. *)
Fixpoint insert_before {A} (before : A -> A -> bool) (x : A) (l : list A) : list A :=
  match l with
  | [] => [x]
  | y :: l' => if before x y then x :: l else y :: insert_before before x l'
  end.

Definition order_by {A} (before : A -> A -> bool) (l : list A) : list A :=
  fold_right (insert_before before) [] l.

(** [a >= b] on text columns. *)
Definition text_geb (a b : string) : bool :=
  match String.compare a b with Lt => false | _ => true end.

(** [ORDER BY s.snapshot_date DESC] *)
Definition later_snapshot (a b : snapshot_row) : bool :=
  s_snapshot_date b <=? s_snapshot_date a.

(** The scalar subqueries [SELECT ... FROM snapshots s WHERE s.post_id =
    p.id ORDER BY s.snapshot_date DESC LIMIT 1] all read one row. *)
Definition latest_snapshot (c : conn) (post_id : Z) : option snapshot_row :=
  head (order_by later_snapshot
          (List.filter (fun s => s_post_id s =? post_id) (snapshots c))).

(** [ORDER BY p.post_datetime DESC] *)
Definition later_post (a b : post_row) : bool :=
  text_geb (p_post_datetime a) (p_post_datetime b).

(** [FROM posts p WHERE p.post_datetime >= ? ORDER BY p.post_datetime DESC] *)
Definition recent_posts (c : conn) (start : string) : list post_row :=
  order_by later_post
    (List.filter (fun p => text_geb (p_post_datetime p) start) (posts c)).

Definition post_passes (c : conn) (f : link_filters) (p : post_row) : bool :=
  let '(github_links, research_links, article_links) :=
    _split_links (links_of_post c (p_id p)) in
  _passes_link_filters github_links research_links article_links
    (require_external_links f) (research_only f) (require_github f).

Definition to_post_with_links (c : conn) (p : post_row) : PostWithLinks :=
  let '(github_links, research_links, article_links) :=
    _split_links (links_of_post c (p_id p)) in
  {| channel_title := p_channel_title p;
     channel_username := p_channel_username p;
     message_id := p_message_id p;
     post_url := p_post_url p;
     post_datetime := p_post_datetime p;
     message_text := p_message_text p;
     latest_reactions := default 0 (s_total_reactions <$> latest_snapshot c (p_id p));
     latest_views := latest_snapshot c (p_id p) ≫= s_views;
     latest_forwards := latest_snapshot c (p_id p) ≫= s_forwards;
     github_links := github_links;
     research_links := research_links;
     article_links := article_links |}.

(** The [for row in rows] loop, with [result] the list built so far. *)
Fixpoint collect_posts (c : conn) (f : link_filters)
    (rows : list post_row) (result : list PostWithLinks) : list PostWithLinks :=
  match rows with
  | [] => result
  | row :: rest =>
      if negb (post_passes c f row) then collect_posts c f rest result
      else collect_posts c f rest (result ++ [to_post_with_links c row])%list
  end.

(** [now] is the reading of [datetime.now(timezone.utc)]. *)
Definition get_posts_with_links (c : conn) (now lookback_days : Z) (f : link_filters)
    : list PostWithLinks :=
  let start := Service.isoformat (start_dt now lookback_days) in
  collect_posts c f (recent_posts c start) [].

Definition _post_links_to_dict (post : PostWithLinks) : json :=
  JDict
    [ ("channel_title", JStr (channel_title post));
      ("channel_username", json_of_option_str (channel_username post));
      ("message_id", JInt (message_id post));
      ("post_url", json_of_option_str (post_url post));
      ("post_datetime", JStr (post_datetime post));
      ("message_text", json_of_option_str (message_text post));
      ("latest_reactions", JInt (latest_reactions post));
      ("latest_views", json_of_option_int (latest_views post));
      ("latest_forwards", json_of_option_int (latest_forwards post));
      ("github_links", json_of_strs (github_links post));
      ("research_links", json_of_strs (research_links post));
      ("article_links", json_of_strs (article_links post)) ].

(** [export_posts_with_links_json]: the text written to [output_path]. *)
Definition export_posts_with_links_json (posts : list PostWithLinks) : string :=
  Json.dumps (JList (map _post_links_to_dict posts)).

(** Reading an export back, field by field. *)
Definition post_with_links_of_dict (d : json) : option PostWithLinks :=
  channel_title ← dict_get "channel_title" d ≫= as_str;
  channel_username ← dict_get "channel_username" d ≫= as_option_str;
  message_id ← dict_get "message_id" d ≫= as_int;
  post_url ← dict_get "post_url" d ≫= as_option_str;
  post_datetime ← dict_get "post_datetime" d ≫= as_str;
  message_text ← dict_get "message_text" d ≫= as_option_str;
  latest_reactions ← dict_get "latest_reactions" d ≫= as_int;
  latest_views ← dict_get "latest_views" d ≫= as_option_int;
  latest_forwards ← dict_get "latest_forwards" d ≫= as_option_int;
  github_links ← dict_get "github_links" d ≫= as_strs;
  research_links ← dict_get "research_links" d ≫= as_strs;
  article_links ← dict_get "article_links" d ≫= as_strs;
  Some {| channel_title := channel_title;
          channel_username := channel_username;
          message_id := message_id;
          post_url := post_url;
          post_datetime := post_datetime;
          message_text := message_text;
          latest_reactions := latest_reactions;
          latest_views := latest_views;
          latest_forwards := latest_forwards;
          github_links := github_links;
          research_links := research_links;
          article_links := article_links |}.

Definition read_posts_with_links (text : string) : option (list PostWithLinks) :=
  match Json.loads text with
  | Some (JList records) => read_all post_with_links_of_dict records
  | _ => None
  end.

End PostsWithLinks.

(** ** reporting.py: the Markdown report *)

Module Markdown.

Import Reporting Text.

Definition line_feed : ascii := "010"%char.

(** The text shown for a post: line feeds become spaces, the text is
    stripped and a text of more than 280 characters is cut to 277 and
    three dots. *)
Definition snippet_of (message_text : string) : string :=
  let snippet := strip (replace_char line_feed " " message_text) in
  if (280 <? len snippet)%nat then take 277 snippet +:+ "..." else snippet.

(** [x or 0] *)
Definition or_zero (x : option Z) : Z := default 0 x.

(** [post.post_url or 'N/A'] *)
Definition or_na (url : option string) : string :=
  match url with
  | Some (String c u) => String c u
  | _ => "N/A"
  end.

(** [if urls: lines.append(title); for url in urls: lines.append(f"  - {url}")] *)
Definition link_section (title : string) (urls : list string) : list string :=
  match urls with
  | [] => []
  | _ => title :: map (fun url => "  - " +:+ url) urls
  end.

Definition heading (idx : Z) (post : TopPost) : string :=
  "## " +:+ pretty idx +:+ ". " +:+ channel_title post +:+ " / post " +:+ pretty (message_id post).

(** The lines one iteration of the loop appends. *)
Definition post_lines (idx : Z) (post : TopPost) : list string :=
  ([ heading idx post;
     "- Reactions: " +:+ pretty (latest_reactions post)
       +:+ " (growth: " +:+ pretty (reactions_growth post) +:+ ")";
     "- Views: " +:+ pretty (or_zero (latest_views post));
     "- Forwards: " +:+ pretty (or_zero (latest_forwards post));
     "- Date: " +:+ post_datetime post;
     "- URL: " +:+ or_na (post_url post) ]
   ++ link_section "- Article links:" (article_links post)
   ++ link_section "- Research links:" (research_links post)
   ++ link_section "- GitHub links:" (github_links post)
   ++ match message_text post with
      | Some (String c t) => ["- Text: " +:+ snippet_of (String c t)]
      | _ => []
      end
   ++ [EmptyString])%list.

(** [for idx, post in enumerate(top_posts, start=1)] *)
Fixpoint markdown_lines (idx : Z) (top_posts : list TopPost) (lines : list string)
    : list string :=
  match top_posts with
  | [] => lines
  | post :: rest => markdown_lines (idx + 1) rest (lines ++ post_lines idx post)%list
  end.

(** [export_top_posts_markdown]: the text written to [output_path]. *)
Definition export_top_posts_markdown (top_posts : list TopPost) : string :=
  join (String line_feed EmptyString)
       (markdown_lines 1 top_posts ["# Weekly Top ML/DS Posts"; EmptyString]).

End Markdown.

(** ** db.py: the schema

    What [ensure_db] does to a database file is told by the tables of the
    file and the names of their columns; the rows of a table are kept by
    every statement of [ensure_db].  The file is taken to hold tables only
    (no view or index is named like one of the three tables), each under
    its name in lower case, which is how SQLite resolves the names of the
    schema; the columns keep their spelling, which is what
    [PRAGMA table_info] reports. *)

Module Schema.

(** The tables of a database file, each with the names of its columns. *)
Abbreviation tables := (gmap string (list string)).










End Schema.

(** * Vocabulary of the further properties *)

Module UrlProps.

Import Extractors.

(** The punctuation [extract_urls] trims from the end of a match. *)
Definition is_trailing_punctuation (c : ascii) : bool := Str.mem_char c ".,;:!?".

(** The last character of a text. *)
Fixpoint last_char (s : string) : option ascii :=
  match s with
  | EmptyString => None
  | String c EmptyString => Some c
  | String _ s' => last_char s'
  end.

(** The URLs that the pattern finds in the message text, trimmed. *)
Definition text_urls (m : message) : list string :=
  map (Str.rstrip is_trailing_punctuation)
      (URL_REGEX_findall (default EmptyString (msg_message m))).

Definition has_http_scheme (u : string) : bool :=
  Str.startswith "http://" u || Str.startswith "https://" u.

(** [c] ends the authority of a URL. *)
Definition ends_authority (c : ascii) : bool := Str.mem_char c "/?#".

(** A host text that holds none of [/], [?] and [#]. *)
Definition plain_host (host : string) : bool :=
  Str.forallb (fun c => negb (ends_authority c)) host.

(** [sum(item.count for item in items)] *)
Definition sum_counts (items : list reaction_count) : Z :=
  fold_right Z.add 0 (map reaction_count_value items).

End UrlProps.

Module StoreProps.

Import Extractors Db DbProps.

(** The FOREIGN KEY constraints of the schema: every link and every
    snapshot belongs to a stored post. *)
Definition db_fk (c : conn) : Prop :=
  Forall (fun l => In (l_post_id l) (map p_id (posts c))) (links c)
  /\ Forall (fun s => In (s_post_id s) (map p_id (posts c))) (snapshots c).

(** The snapshots of one post. *)
Definition snapshots_of_post (c : conn) (post_id : Z) : list snapshot_row :=
  List.filter (fun s => s_post_id s =? post_id) (snapshots c).

Section PostArguments.

Variables (channel_id : Z) (channel_username : option string) (channel_title : string)
          (message_id : Z) (post_url : option string) (post_datetime : string)
          (message_text : option string) (views forwards : option Z).

(** The row carries the values of the call. *)
Definition post_carries (r : post_row) : Prop :=
  p_channel_id r = channel_id /\ p_message_id r = message_id
  /\ p_channel_username r = channel_username /\ p_channel_title r = channel_title
  /\ p_post_url r = post_url /\ p_post_datetime r = post_datetime
  /\ p_message_text r = message_text /\ p_views r = views /\ p_forwards r = forwards.

End PostArguments.

Section SnapshotArguments.

Variables (post_id snapshot_date total : Z) (reactions : gmap string Z)
          (views forwards : option Z).

Definition snapshot_carries (s : snapshot_row) : Prop :=
  s_post_id s = post_id /\ s_snapshot_date s = snapshot_date
  /\ s_total_reactions s = total /\ s_reactions_json s = reactions
  /\ s_views s = views /\ s_forwards s = forwards.

End SnapshotArguments.

(** [(url, t)] is the first pair of [ls] with the URL [url]. *)
Definition first_occurrence (ls : list (string * link_type)) (url : string) (t : link_type) : Prop :=
  exists pre post, ls = (pre ++ (url, t) :: post)%list /\ ~ In url (map fst pre).

End StoreProps.

Module RunProps.

Import Extractors Db Service ServiceProps.

(** A pull that yields a message which is not dated after [now]. *)
Definition not_after (now : Z) (r : result tg_message) : Prop :=
  exists m, r = Ok m /\ forall d, date m = Some d -> _normalize_dt d <= now.

(** No channel of the client holds a message from the future. *)
Definition no_future_messages (cl : client) (now : Z) : Prop :=
  forall name ent, get_entity cl name = Ok ent -> Forall (not_after now) (iter_messages cl ent).

(** [b] keeps the rows of [a]: every post of [a] is in [b] under the same
    id and key, and every snapshot of [a] is in [b] under the same id and
    key, unchanged unless it is dated [day]. *)
Definition keeps_rows (day : Z) (a b : Db.conn) : Prop :=
  (forall r, In r (posts a) ->
             exists r', In r' (posts b) /\ p_id r' = p_id r
                        /\ p_channel_id r' = p_channel_id r /\ p_message_id r' = p_message_id r)
  /\ (forall s, In s (snapshots a) ->
                exists s', In s' (snapshots b) /\ s_id s' = s_id s
                           /\ s_post_id s' = s_post_id s /\ s_snapshot_date s' = s_snapshot_date s
                           /\ (s_snapshot_date s <> day -> s' = s)).

End RunProps.

Module RankingProps.

Import Extractors Db Reporting.

(** A link that is neither a repository, a paper nor an article. *)
Definition is_internal_link (row : string * link_type) : bool :=
  match snd row with
  | Telegram | Other => true
  | _ => false
  end.

(** What the three flags ask of a post's links. *)
Definition filters_hold (gh rs ar : list string) (ext ro rg : bool) : Prop :=
  (rg = true -> gh <> [])
  /\ (ext = true -> gh <> [] \/ rs <> [] \/ ar <> [])
  /\ (ro = true -> rs <> []).

End RankingProps.

Module BotProps.

Import Text BotApp.

(** The length of the lines of a chunk, one more for each line. *)
Definition weight (lines : list string) : Z :=
  fold_right (fun line acc => Z.of_nat (len line) + 1 + acc) 0 lines.

(** A chunk within the limit, or a single line. *)
Definition fits (limit : Z) (lines : list string) : Prop :=
  weight lines <= limit \/ exists line, lines = [line].

End BotProps.

Module ConfigProps.

Import Text Config.

(** The pieces of the raw setting that name a channel. *)
Definition named_pieces (raw : string) : list string :=
  List.filter (fun c => Str.truthy (strip c)) (split_char "," raw).

End ConfigProps.

Module PostsWithLinksProps.

Import Db PostsWithLinks.

(** Newest first, by the text of the timestamp. *)
Definition not_older (a b : post_row) : Prop :=
  text_geb (p_post_datetime a) (p_post_datetime b) = true.

(** The snapshot of the post with the greatest date. *)
Definition newest_snapshot (c : conn) (post_id : Z) (s : snapshot_row) : Prop :=
  In s (snapshots c) /\ s_post_id s = post_id
  /\ forall s', In s' (snapshots c) -> s_post_id s' = post_id ->
                s_snapshot_date s' <= s_snapshot_date s.

End PostsWithLinksProps.

Module MarkdownProps.

Import Reporting Text Markdown.

(** A text without a line feed. *)
Definition single_line (s : string) : bool :=
  Str.forallb (fun c => negb (Ascii.eqb c line_feed)) s.

(** The headings of the posts, numbered from [idx]. *)
Fixpoint headings (idx : Z) (posts : list TopPost) : list string :=
  match posts with
  | [] => []
  | post :: rest => heading idx post :: headings (idx + 1) rest
  end.

Definition is_heading (line : string) : bool := Str.startswith "## " line.

(** A post whose title, timestamp, URL and links hold no line feed. *)
Definition on_single_lines (post : TopPost) : Prop :=
  single_line (channel_title post) = true
  /\ single_line (post_datetime post) = true
  /\ (forall url, post_url post = Some url -> single_line url = true)
  /\ Forall (fun url => single_line url = true)
            (article_links post ++ research_links post ++ github_links post).

(** The first two lines of the report. *)
Definition title_lines : list string := ["# Weekly Top ML/DS Posts"; EmptyString].

End MarkdownProps.

Module SchemaProps.

Import Schema.



End SchemaProps.


(** * Further sample data *)

Module MoreSamples.

Import Service Schema.

(** A client with one channel of one dated message, whatever the name. *)
Definition quiet_client : client :=
  {| get_entity := fun _ =>
       Ok {| ent_title := Some "ML Daily"; ent_username := Some "mldaily"; ent_id := 1001 |};
     iter_messages := fun _ => [Ok (Samples.dated (Samples.at_hour 10 9) Samples.post43)] |}.


End MoreSamples.

(** * Properties *)


(** ** Byte-wise order of strings *)

Module StrSpec.

Import StrProps.

Lemma ascii_compare_refl (a : ascii) : Ascii.compare a a = Eq.
Proof. unfold Ascii.compare. apply N.compare_refl. Qed.

Lemma ascii_compare_lt_trans (a b c : ascii) :
  Ascii.compare a b = Lt -> Ascii.compare b c = Lt -> Ascii.compare a c = Lt.
Proof.
  unfold Ascii.compare. rewrite !N.compare_lt_iff. intros; lia.
Qed.

Lemma compare_refl (s : string) : String.compare s s = Eq.
Proof. induction s as [|a s IH]; cbn; [reflexivity | now rewrite ascii_compare_refl]. Qed.

Lemma compare_lt_trans (a b c : string) :
  String.compare a b = Lt -> String.compare b c = Lt -> String.compare a c = Lt.
Proof.
  revert b c. induction a as [|x a IH]; intros [|y b] [|z c]; cbn; try congruence.
  destruct (Ascii.compare x y) eqn:Hxy; try discriminate.
  - apply Ascii.compare_eq_iff in Hxy. subst y.
    destruct (Ascii.compare x z); try congruence. apply IH.
  - destruct (Ascii.compare y z) eqn:Hyz; try discriminate.
    + apply Ascii.compare_eq_iff in Hyz. subst z. now rewrite Hxy.
    + now rewrite (ascii_compare_lt_trans x y z).
Qed.

Lemma compare_gt_lt (a b : string) : String.compare a b = Gt -> String.compare b a = Lt.
Proof. intros H. rewrite String.compare_antisym, H. reflexivity. Qed.

Lemma compare_lt_irrefl (a : string) : String.compare a a <> Lt.
Proof. rewrite compare_refl. discriminate. Qed.

Lemma str_app_nil_l (s : string) : EmptyString +:+ s = s.
Proof. reflexivity. Qed.

Lemma str_app_cons (x : ascii) (a b : string) : String x a +:+ b = String x (a +:+ b).
Proof. reflexivity. Qed.

Lemma str_app_assoc (a b c : string) : (a +:+ b) +:+ c = a +:+ (b +:+ c).
Proof. induction a as [|x a IH]; [reflexivity | now rewrite !str_app_cons, IH]. Qed.

Lemma compare_app_same (p s1 s2 : string) :
  String.compare (p +:+ s1) (p +:+ s2) = String.compare s1 s2.
Proof.
  induction p as [|c p IH]; [reflexivity|].
  rewrite !str_app_cons. cbn [String.compare].
  now rewrite ascii_compare_refl.
Qed.

Lemma insert_sorted_In (x y : string) (l : list string) :
  In y (Str.insert_sorted x l) <-> y = x \/ In y l.
Proof.
  induction l as [|z l IH]; cbn; [intuition auto|].
  destruct (String.compare x z) eqn:Hc; cbn.
  - apply String.compare_eq_iff in Hc. subst z. intuition auto.
  - intuition auto.
  - rewrite IH. intuition auto.
Qed.

Lemma insert_sorted_ascending (x : string) (l : list string) :
  ascending l -> ascending (Str.insert_sorted x l).
Proof.
  unfold ascending. induction l as [|z l IH]; cbn; intros Hs.
  - repeat constructor.
  - apply StronglySorted_inv in Hs as [Hs Hz].
    destruct (String.compare x z) eqn:Hc.
    + now constructor.
    + constructor; [now constructor|]. constructor; [exact Hc|].
      eapply List.Forall_impl; [|exact Hz]. cbn. intros w. now apply compare_lt_trans.
    + constructor; [now apply IH|].
      apply List.Forall_forall. intros w Hw. apply insert_sorted_In in Hw as [-> | Hw].
      * now apply compare_gt_lt.
      * rewrite List.Forall_forall in Hz. now apply Hz.
Qed.

Lemma sorted_set_ascending (l : list string) : ascending (Str.sorted_set l).
Proof.
  induction l as [|x l IH]; cbn; [constructor | now apply insert_sorted_ascending].
Qed.

Lemma sorted_set_In (l : list string) (y : string) : In y (Str.sorted_set l) <-> In y l.
Proof.
  induction l as [|x l IH]; cbn; [tauto|]. rewrite insert_sorted_In, IH. intuition auto.
Qed.

Lemma ascending_NoDup (l : list string) : ascending l -> NoDup l.
Proof.
  induction 1 as [|x l Hs IH Hx]; constructor; [|exact IH].
  rewrite list_elem_of_In. intros Hin. rewrite List.Forall_forall in Hx.
  apply (compare_lt_irrefl x). now apply Hx.
Qed.

Lemma sorted_set_NoDup (l : list string) : NoDup (Str.sorted_set l).
Proof. apply ascending_NoDup, sorted_set_ascending. Qed.

End StrSpec.
(** ** extractors.py *)

Module ExtractorsSpec.

Import Extractors Samples.

(** *** Link classification *)

Lemma classify_link_ok (url host : string) :
  urlparse_netloc url = Ok host ->
  classify_link url = Ok (classify_host (Str.lower host)).
Proof. unfold classify_link. intros ->. reflexivity. Qed.

(** Once the host is known the category is decided by the first test
    that succeeds, in the order github, telegram, research, article. *)
Lemma classify_host_precedence (host : string) :
  (Str.contains "github.com" host = true -> classify_host host = Github)
  /\ (Str.contains "github.com" host = false ->
      existsb (host_matches host) TELEGRAM_HOST_SUFFIXES = true ->
      classify_host host = Telegram)
  /\ (Str.contains "github.com" host = false ->
      existsb (host_matches host) TELEGRAM_HOST_SUFFIXES = false ->
      existsb (host_matches host) RESEARCH_HOST_SUFFIXES = true ->
      classify_host host = Research)
  /\ (Str.contains "github.com" host = false ->
      existsb (host_matches host) TELEGRAM_HOST_SUFFIXES = false ->
      existsb (host_matches host) RESEARCH_HOST_SUFFIXES = false ->
      host <> EmptyString ->
      classify_host host = Article)
  /\ (host = EmptyString -> classify_host host = Other).
Proof.
  unfold classify_host. repeat split.
  - intros ->. reflexivity.
  - intros -> ->. reflexivity.
  - intros -> -> ->. reflexivity.
  - intros -> -> -> Hne. destruct host; [congruence | reflexivity].
  - intros ->. reflexivity.
Qed.

(** The literal cases of the specification. *)
Lemma classify_link_literals :
  classify_link "https://github.com/org/repo" = Ok Github
  /\ classify_link "https://arxiv.org/abs/1234" = Ok Research
  /\ classify_link "https://t.me/mychannel/42" = Ok Telegram
  /\ classify_link "https://example.com/post" = Ok Article
  /\ classify_link "no host in here" = Ok Other.
Proof. repeat split; vm_compute; reflexivity. Qed.

(** C6, at the failing input: a URL whose authority opens a square
    bracket and never closes it makes host extraction raise, so
    [classify_link] returns no category at all; the URL pattern of
    [extract_urls] lets such a URL through from a message text. *)
Theorem classify_link_unmatched_bracket_raises :
  classify_link "http://[" = Raise (ValueError "Invalid IPv6 URL")
  /\ extract_urls {| msg_id := 7; msg_message := Some "see http://[ for details";
                     msg_entities := None; msg_reactions := None;
                     msg_views := None; msg_forwards := None |} = ["http://["]
  /\ links_with_types ["https://github.com/org/repo"; "http://["]
     = Raise (ValueError "Invalid IPv6 URL").
Proof. repeat split; vm_compute; reflexivity. Qed.

(** *** Reactions *)

Lemma fold_record_reaction_lookup_ne (items : list reaction_count) (m : gmap string Z) (k : string) :
  Forall (fun i => reaction_key i <> k) items ->
  fold_left record_reaction items m !! k = m !! k.
Proof.
  revert m. induction items as [|i items IH]; intros m Hall; [reflexivity|].
  apply Forall_cons in Hall as [Hi Hall]. simpl. rewrite IH by assumption.
  unfold record_reaction. apply lookup_insert_ne. exact Hi.
Qed.

Lemma fold_record_reaction_app (pre post : list reaction_count) (m : gmap string Z) :
  fold_left record_reaction (pre ++ post)%list m
  = fold_left record_reaction post (fold_left record_reaction pre m).
Proof. apply fold_left_app. Qed.

Lemma total_reactions_empty : total_reactions ∅ = 0.
Proof. unfold total_reactions. apply map_fold_empty. Qed.

Lemma total_reactions_insert (k : string) (v : Z) (m : gmap string Z) :
  m !! k = None -> total_reactions (<[k:=v]> m) = v + total_reactions m.
Proof.
  intros Hk. unfold total_reactions.
  rewrite map_fold_insert_L; [reflexivity | intros; lia | exact Hk].
Qed.

Lemma total_reactions_values (m : gmap string Z) :
  total_reactions m = foldr Z.add 0 (map snd (map_to_list m)).
Proof.
  unfold total_reactions. rewrite map_fold_foldr.
  induction (map_to_list m) as [|[k v] l IH]; simpl; [reflexivity | now rewrite IH].
Qed.

Lemma fold_record_reaction_keys (items : list reaction_count) (m : gmap string Z) (k : string) :
  is_Some (fold_left record_reaction items m !! k)
  <-> In k (map reaction_key items) \/ is_Some (m !! k).
Proof.
  revert m. induction items as [|i items IH]; intros m; cbn [fold_left map In]; [tauto|].
  rewrite IH. unfold record_reaction.
  destruct (decide (reaction_key i = k)) as [-> | Hne].
  - rewrite lookup_insert_eq. split; [auto | intros _; right; eauto].
  - rewrite lookup_insert_ne by exact Hne. tauto.
Qed.

(** The entry is recorded: when no later entry has its key, the mapping
    holds the entry's count under that key. *)
Lemma extract_reactions_records (pre post : list reaction_count) (item : reaction_count) :
  Forall (fun i => reaction_key i <> reaction_key item) post ->
  extract_reactions (with_results (pre ++ item :: post)) !! reaction_key item
  = Some (reaction_count_value item).
Proof.
  intros Hpost. unfold with_results, extract_reactions. cbn [results].
  rewrite fold_record_reaction_app. cbn [fold_left].
  rewrite fold_record_reaction_lookup_ne by exact Hpost.
  unfold record_reaction at 1. apply lookup_insert_eq.
Qed.

Lemma reaction_key_unknown (item : reaction_count) :
  reaction item = None -> reaction_key item = "unknown".
Proof. intros H. unfold reaction_key. now rewrite H. Qed.

Lemma reaction_key_emoticon (item : reaction_count) (r : reaction_obj) (c : ascii) (e : string) :
  reaction item = Some r -> emoticon r = Some (String c e) -> reaction_key item = String c e.
Proof. intros Hr He. unfold reaction_key, reaction_obj_key. now rewrite Hr, He. Qed.

Lemma reaction_key_custom (item : reaction_count) (r : reaction_obj) (id : Z) :
  reaction item = Some r -> emoticon r = None \/ emoticon r = Some EmptyString ->
  document_id r = Some id -> id <> 0 ->
  reaction_key item = "custom_" +:+ pretty id.
Proof.
  intros Hr He Hd Hid. unfold reaction_key, reaction_obj_key.
  rewrite Hr, Hd. apply Z.eqb_neq in Hid. rewrite Hid.
  destruct He as [-> | ->]; reflexivity.
Qed.

Lemma reaction_key_repr (item : reaction_count) (r : reaction_obj) :
  reaction item = Some r -> emoticon r = None \/ emoticon r = Some EmptyString ->
  document_id r = None \/ document_id r = Some 0 ->
  reaction_key item = repr r.
Proof.
  intros Hr He Hd. unfold reaction_key, reaction_obj_key. rewrite Hr.
  destruct He as [-> | ->], Hd as [-> | ->]; reflexivity.
Qed.

(** Every entry is filed under its key, and its count is what the
    mapping holds there when no later entry has the same key. *)
Lemma extract_reactions_entry (pre post : list reaction_count) (item : reaction_count) :
  is_Some (extract_reactions (with_results (pre ++ item :: post)) !! reaction_key item)
  /\ (Forall (fun i => reaction_key i <> reaction_key item) post ->
      extract_reactions (with_results (pre ++ item :: post)) !! reaction_key item
      = Some (reaction_count_value item)).
Proof.
  split; [|apply extract_reactions_records].
  unfold with_results, extract_reactions. cbn [results].
  apply fold_record_reaction_keys. left. rewrite List.map_app. apply in_app_iff.
  right. now left.
Qed.

(** C7, as the code has it: no reactions, or an empty result list, give
    the empty mapping; the keys of the mapping are the keys of the
    entries; every entry is recorded under [unknown] when it has no
    reaction object, under the non-empty emoticon of its reaction object,
    else under [custom_<id>] when the object has a non-zero document id,
    else under the object's own string form, and the mapping holds the
    entry's count there unless a later entry has the same key; and the
    total is the sum of the mapping's values. *)
Theorem extract_reactions_keys_and_total :
  (extract_reactions None = ∅
   /\ extract_reactions (Some {| results := None |}) = ∅
   /\ extract_reactions (Some {| results := Some [] |}) = ∅)
  /\ (forall items k,
        is_Some (extract_reactions (with_results items) !! k)
        <-> In k (map reaction_key items))
  /\ (forall pre item post,
        reaction item = None ->
        is_Some (extract_reactions (with_results (pre ++ item :: post)) !! "unknown")
        /\ (Forall (fun i => reaction_key i <> reaction_key item) post ->
            extract_reactions (with_results (pre ++ item :: post)) !! "unknown"
            = Some (reaction_count_value item)))
  /\ (forall pre item post r c e,
        reaction item = Some r -> emoticon r = Some (String c e) ->
        is_Some (extract_reactions (with_results (pre ++ item :: post)) !! String c e)
        /\ (Forall (fun i => reaction_key i <> reaction_key item) post ->
            extract_reactions (with_results (pre ++ item :: post)) !! String c e
            = Some (reaction_count_value item)))
  /\ (forall pre item post r id,
        reaction item = Some r ->
        emoticon r = None \/ emoticon r = Some EmptyString ->
        document_id r = Some id -> id <> 0 ->
        is_Some (extract_reactions (with_results (pre ++ item :: post))
                   !! ("custom_" +:+ pretty id))
        /\ (Forall (fun i => reaction_key i <> reaction_key item) post ->
            extract_reactions (with_results (pre ++ item :: post)) !! ("custom_" +:+ pretty id)
            = Some (reaction_count_value item)))
  /\ (forall pre item post r,
        reaction item = Some r ->
        emoticon r = None \/ emoticon r = Some EmptyString ->
        document_id r = None \/ document_id r = Some 0 ->
        is_Some (extract_reactions (with_results (pre ++ item :: post)) !! repr r)
        /\ (Forall (fun i => reaction_key i <> reaction_key item) post ->
            extract_reactions (with_results (pre ++ item :: post)) !! repr r
            = Some (reaction_count_value item)))
  /\ (forall reactions,
        total_reactions (extract_reactions reactions)
        = foldr Z.add 0 (map snd (map_to_list (extract_reactions reactions)))).
Proof.
  split; [repeat split|].
  split.
  { intros items k. unfold with_results, extract_reactions. cbn [results].
    rewrite fold_record_reaction_keys, lookup_empty.
    split; [intros [H | [x Hx]]; [exact H | discriminate] | auto]. }
  split.
  { intros pre item post Hr.
    rewrite <- (reaction_key_unknown item Hr). apply extract_reactions_entry. }
  split.
  { intros pre item post r c e Hr He.
    rewrite <- (reaction_key_emoticon item r c e Hr He). apply extract_reactions_entry. }
  split.
  { intros pre item post r id Hr He Hd Hid.
    rewrite <- (reaction_key_custom item r id Hr He Hd Hid). apply extract_reactions_entry. }
  split.
  { intros pre item post r Hr He Hd.
    rewrite <- (reaction_key_repr item r Hr He Hd). apply extract_reactions_entry. }
  intros reactions. apply total_reactions_values.
Qed.

Lemma extract_reactions_keys_and_total_witness :
  extract_reactions
    (with_results ([counted None 2; counted (Some (emoji_reaction "+")) 3]
                   ++ counted (Some (custom_reaction 5301)) 4 :: [counted (Some paid_reaction) 5]))
    !! ("custom_" +:+ pretty 5301) = Some 4
  /\ extract_reactions
       (with_results ([counted None 2; counted (Some (emoji_reaction "+")) 3;
                       counted (Some (custom_reaction 5301)) 4]
                      ++ counted (Some paid_reaction) 5 :: []))
       !! "ReactionPaid()" = Some 5
  /\ extract_reactions
       (with_results ([] ++ counted None 2 :: [counted (Some (emoji_reaction "+")) 3]))
       !! "unknown" = Some 2
  /\ extract_reactions
       (with_results ([counted None 2] ++ counted (Some (emoji_reaction "+")) 3 :: []))
       !! "+" = Some 3
  /\ is_Some (extract_reactions
                (with_results ([] ++ counted None 2 :: [counted None 7])) !! "unknown").
Proof.
  destruct extract_reactions_keys_and_total as (_ & _ & Hunk & Hemo & Hcus & Hrepr & _).
  split.
  { apply (Hcus [counted None 2; counted (Some (emoji_reaction "+")) 3]
             (counted (Some (custom_reaction 5301)) 4) [counted (Some paid_reaction) 5]
             (custom_reaction 5301) 5301);
      [reflexivity | left; reflexivity | reflexivity | lia
      | repeat constructor; vm_compute; discriminate]. }
  split.
  { apply (Hrepr [counted None 2; counted (Some (emoji_reaction "+")) 3;
                  counted (Some (custom_reaction 5301)) 4]
             (counted (Some paid_reaction) 5) [] paid_reaction);
      [reflexivity | left; reflexivity | left; reflexivity | constructor]. }
  split.
  { apply (Hunk [] (counted None 2) [counted (Some (emoji_reaction "+")) 3]);
      [reflexivity | repeat constructor; vm_compute; discriminate]. }
  split.
  { apply (Hemo [counted None 2] (counted (Some (emoji_reaction "+")) 3) [] (emoji_reaction "+")
             "+"%char EmptyString); [reflexivity | reflexivity | constructor]. }
  apply (Hunk [] (counted None 2) [counted None 7]). reflexivity.
Defined.

(** C7 as worded fails on two kinds of entries: a reaction object that is
    neither an emoji nor a custom emoji is not filed under [unknown], and
    a custom reaction whose document id is 0 is not filed under
    [custom_0]; both go under the object's string form. *)
Lemma extract_reactions_unknown_counterexample :
  extract_reactions (with_results [counted (Some paid_reaction) 3])
    = {[ "ReactionPaid()" := 3 ]}
  /\ extract_reactions (with_results [counted (Some paid_reaction) 3]) !! "unknown" = None
  /\ extract_reactions (with_results [counted (Some (custom_reaction 0)) 4])
    = {[ "ReactionCustomEmoji(document_id=0)" := 4 ]}
  /\ extract_reactions (with_results [counted (Some (custom_reaction 0)) 4]) !! "custom_0" = None.
Proof. repeat split; vm_compute; reflexivity. Qed.

(** C10: the count stored under a key is the count of the last entry
    that maps to it, whatever the earlier entries with that key carried;
    with two entries of unidentified kind, or two custom reactions of one
    document id, the total is smaller than the sum of the counts. *)
Theorem extract_reactions_last_entry_wins :
  (forall (pre post : list reaction_count) (item : reaction_count),
     Forall (fun i => reaction_key i <> reaction_key item) post ->
     extract_reactions (with_results (pre ++ item :: post)) !! reaction_key item
     = Some (reaction_count_value item))
  /\ (extract_reactions (with_results [counted None 3; counted None 5]) = {[ "unknown" := 5 ]}
      /\ total_reactions (extract_reactions (with_results [counted None 3; counted None 5])) = 5
      /\ 5 < 3 + 5)
  /\ (extract_reactions (with_results [counted (Some (custom_reaction 77)) 4;
                                       counted (Some (custom_reaction 77)) 1])
        = {[ "custom_77" := 1 ]}
      /\ total_reactions (extract_reactions
           (with_results [counted (Some (custom_reaction 77)) 4;
                          counted (Some (custom_reaction 77)) 1])) = 1
      /\ 1 < 4 + 1).
Proof.
  split; [|repeat split; vm_compute; reflexivity].
  intros pre post item Hpost. unfold with_results, extract_reactions. simpl.
  rewrite fold_record_reaction_app. simpl.
  rewrite fold_record_reaction_lookup_ne by exact Hpost.
  unfold record_reaction at 1. apply lookup_insert_eq.
Qed.

Lemma extract_reactions_last_entry_wins_witness :
  extract_reactions
    (with_results ([counted None 3] ++ counted None 5 :: [counted (Some (emoji_reaction "+")) 9]))
    !! "unknown" = Some 5.
Proof.
  apply (proj1 extract_reactions_last_entry_wins [counted None 3]
           [counted (Some (emoji_reaction "+")) 9] (counted None 5)).
  repeat constructor. vm_compute. discriminate.
Defined.

End ExtractorsSpec.

(** ** db.py *)

Module DbSpec.

Import Extractors Db DbProps.

(** *** Rows selected by a unique key *)

Section UniqueKey.

Context {A K : Type} (key : A -> K) (has_key : A -> bool) (k : K).
Hypothesis has_key_spec : forall x, has_key x = true <-> key x = k.

Lemma filter_key_absent (l : list A) :
  ~ In k (map key l) -> List.filter has_key l = [].
Proof.
  induction l as [|x l IH]; simpl; intros Hnin; [reflexivity|].
  destruct (has_key x) eqn:Hx.
  - exfalso. apply Hnin. left. now apply has_key_spec.
  - apply IH. intros Hin. apply Hnin. now right.
Qed.

Lemma filter_key_unique (l : list A) :
  NoDup (map key l) -> existsb has_key l = true ->
  List.length (List.filter has_key l) = 1%nat.
Proof.
  induction l as [|x l IH]; simpl; intros Hnd Hex; [discriminate|].
  apply NoDup_cons in Hnd as [Hnin Hnd]. rewrite list_elem_of_In in Hnin.
  destruct (has_key x) eqn:Hx; simpl.
  - apply has_key_spec in Hx. rewrite filter_key_absent; [reflexivity | now rewrite <- Hx].
  - simpl in Hex. now apply IH.
Qed.

Lemma existsb_key (l : list A) :
  existsb has_key l = true <-> In k (map key l).
Proof.
  rewrite existsb_exists, in_map_iff. split.
  - intros (x & Hin & Hx). exists x. split; [now apply has_key_spec | exact Hin].
  - intros (x & Hx & Hin). exists x. split; [exact Hin | now apply has_key_spec].
Qed.

Lemma existsb_key_false (l : list A) :
  existsb has_key l = false -> ~ In k (map key l).
Proof.
  intros Hex Hin. apply existsb_key in Hin. congruence.
Qed.

End UniqueKey.

Lemma NoDup_snoc {K : Type} (l : list K) (x : K) :
  NoDup l -> ~ In x l -> NoDup (l ++ [x]).
Proof.
  intros Hnd Hnin. apply NoDup_app; repeat split.
  - exact Hnd.
  - intros y Hy Hy'. apply list_elem_of_In in Hy, Hy'.
    destruct Hy' as [<- | []]. contradiction.
  - apply NoDup_singleton.
Qed.

Lemma post_has_key_spec (ch mid : Z) (r : post_row) :
  post_has_key ch mid r = true <-> post_key r = (ch, mid).
Proof.
  unfold post_has_key, post_key. rewrite andb_true_iff, !Z.eqb_eq.
  split; [intros [-> ->]; reflexivity | intros [= -> ->]; auto].
Qed.

Lemma link_has_key_spec (pid : Z) (url : string) (r : link_row) :
  link_has_key pid url r = true <-> link_key r = (pid, url).
Proof.
  unfold link_has_key, link_key. rewrite andb_true_iff, Z.eqb_eq, String.eqb_eq.
  split; [intros [-> ->]; reflexivity | intros [= -> ->]; auto].
Qed.

Lemma snapshot_has_key_spec (pid day : Z) (r : snapshot_row) :
  snapshot_has_key pid day r = true <-> snapshot_key r = (pid, day).
Proof.
  unfold snapshot_has_key, snapshot_key. rewrite andb_true_iff, !Z.eqb_eq.
  split; [intros [-> ->]; reflexivity | intros [= -> ->]; auto].
Qed.

(** *** [upsert_post] *)

Section UpsertPost.

Variables (channel_id : Z) (channel_username : option string) (channel_title : string)
          (message_id : Z) (post_url : option string) (post_datetime : string)
          (message_text : option string) (views forwards : option Z).

Local Abbreviation refreshed_post :=
  (DbProps.refreshed_post channel_username channel_title post_url post_datetime
     message_text views forwards).
Local Abbreviation post_is_fresh :=
  (DbProps.post_is_fresh channel_id channel_username channel_title message_id post_url
     post_datetime message_text views forwards).
Local Abbreviation upsert c :=
  (upsert_post c channel_id channel_username channel_title message_id post_url
     post_datetime message_text views forwards).

Lemma find_some_of_existsb {A} (p : A -> bool) (l : list A) :
  existsb p l = true -> exists x, find p l = Some x /\ p x = true.
Proof.
  induction l as [|y l IH]; simpl; [discriminate|].
  destruct (p y) eqn:Hy; [eauto | exact IH].
Qed.

Lemma upsert_post_returns (c : conn) :
  exists c' id,
    upsert c = Ok (c', id)
    /\ links c' = links c /\ links_seq c' = links_seq c
    /\ snapshots c' = snapshots c /\ snapshots_seq c' = snapshots_seq c
    /\ (exists row, find (post_has_key channel_id message_id) (posts c') = Some row
                    /\ p_id row = id)
    /\ existsb (post_has_key channel_id message_id) (posts c') = true
    /\ Forall post_is_fresh (posts c').
Proof.
  unfold upsert_post.
  destruct (existsb (post_has_key channel_id message_id) (posts c)) eqn:Hex.
  - cbn [posts].
    assert (Hex' : existsb (post_has_key channel_id message_id)
              (map (fun r => if post_has_key channel_id message_id r
                             then refreshed_post r else r) (posts c)) = true).
    { apply existsb_exists in Hex as (x & Hin & Hx). apply existsb_exists.
      exists (refreshed_post x). split; [|exact Hx].
      apply in_map_iff. exists x. now rewrite Hx. }
    destruct (find_some_of_existsb _ _ Hex') as (row & Hfind & _).
    unfold DbProps.refreshed_post in Hfind. rewrite Hfind.
    do 2 eexists. split; [reflexivity|]. cbn.
    repeat split; try reflexivity; [eauto | exact Hex' |].
    apply Forall_forall. intros r Hr. apply list_elem_of_In, in_map_iff in Hr as (r0 & <- & _).
    unfold DbProps.post_is_fresh.
    destruct (post_has_key channel_id message_id r0) eqn:H0; [reflexivity|].
    intros Hk. congruence.
  - cbn [posts].
    set (new := {| p_id := posts_seq c + 1 |}).
    assert (Hnew : post_has_key channel_id message_id new = true).
    { unfold post_has_key, new. cbn. now rewrite !Z.eqb_refl. }
    assert (Hex' : existsb (post_has_key channel_id message_id) (posts c ++ [new]) = true).
    { rewrite existsb_app. cbn. rewrite Hnew. now rewrite orb_true_r. }
    destruct (find_some_of_existsb _ _ Hex') as (row & Hfind & _). rewrite Hfind.
    do 2 eexists. split; [reflexivity|]. cbn.
    repeat split; try reflexivity; [eauto | exact Hex' |].
    apply Forall_app. split.
    + apply Forall_forall. intros r Hr Hk. exfalso.
      assert (existsb (post_has_key channel_id message_id) (posts c) = true); [|congruence].
      apply existsb_exists. exists r. split; [now apply list_elem_of_In | exact Hk].
    + repeat constructor.
Qed.

(** Upserting the same values again changes nothing at all. *)
Lemma upsert_post_again (c : conn) (id : Z) :
  existsb (post_has_key channel_id message_id) (posts c) = true ->
  Forall post_is_fresh (posts c) ->
  (exists row, find (post_has_key channel_id message_id) (posts c) = Some row /\ p_id row = id) ->
  upsert c = Ok (c, id).
Proof.
  intros Hex Hfresh (row & Hfind & Hid). unfold upsert_post. rewrite Hex.
  cbn [posts].
  assert (Hmap : map (fun r => if post_has_key channel_id message_id r
                               then refreshed_post r else r) (posts c) = posts c).
  { rewrite <- (map_id (posts c)) at 2. apply map_ext_in. intros r Hr.
    rewrite Forall_forall in Hfresh. specialize (Hfresh r).
    rewrite list_elem_of_In in Hfresh. specialize (Hfresh Hr). unfold DbProps.post_is_fresh in Hfresh.
    destruct (post_has_key channel_id message_id r); [now apply Hfresh | reflexivity]. }
  unfold DbProps.refreshed_post in Hmap. rewrite Hmap, Hfind, Hid. destruct c; reflexivity.
Qed.

(** A post that is already stored keeps its id. *)
Lemma upsert_post_existing (c : conn) (row : post_row) :
  find (post_has_key channel_id message_id) (posts c) = Some row ->
  exists c', upsert c = Ok (c', p_id row) /\ snapshots c' = snapshots c.
Proof.
  intros Hfind. unfold upsert_post.
  assert (Hex : existsb (post_has_key channel_id message_id) (posts c) = true).
  { apply find_some in Hfind as [Hin Hk]. apply existsb_exists. eauto. }
  rewrite Hex. cbn [posts].
  assert (Hfind' : find (post_has_key channel_id message_id)
             (map (fun r => if post_has_key channel_id message_id r
                            then refreshed_post r else r) (posts c))
           = Some (refreshed_post row)).
  { clear Hex. revert Hfind. induction (posts c) as [|r l IH]; cbn; [discriminate|].
    destruct (post_has_key channel_id message_id r) eqn:Hr.
    - intros [= ->]. change (post_has_key channel_id message_id (refreshed_post row))
        with (post_has_key channel_id message_id row). now rewrite Hr.
    - rewrite Hr. exact IH. }
  unfold DbProps.refreshed_post in Hfind'. rewrite Hfind'. cbn. eauto.
Qed.

Lemma upsert_post_wf (c c' : conn) (id : Z) :
  db_wf c -> upsert c = Ok (c', id) -> db_wf c'.
Proof.
  intros [Hk Hi Hs Hl Hsn]. unfold upsert_post.
  destruct (existsb (post_has_key channel_id message_id) (posts c)) eqn:Hex; cbn [posts];
    destruct (find _ _); intros [= <- _].
  - constructor; cbn; try assumption.
    + rewrite map_map. erewrite map_ext; [exact Hk|].
      intros r. now destruct (post_has_key channel_id message_id r).
    + rewrite map_map. erewrite map_ext; [exact Hi|].
      intros r. now destruct (post_has_key channel_id message_id r).
    + apply Forall_forall. intros r Hr.
      apply list_elem_of_In, in_map_iff in Hr as (r0 & <- & Hr0).
      rewrite Forall_forall in Hs. specialize (Hs r0). rewrite list_elem_of_In in Hs.
      specialize (Hs Hr0). now destruct (post_has_key channel_id message_id r0).
  - constructor; cbn; try assumption.
    + rewrite map_app. cbn. apply NoDup_snoc; [exact Hk|].
      apply (existsb_key_false post_key (post_has_key channel_id message_id)
               (channel_id, message_id)); [apply post_has_key_spec | exact Hex].
    + rewrite map_app. cbn. apply NoDup_snoc; [exact Hi|].
      intros Hin. apply in_map_iff in Hin as (r & Hr & Hin).
      rewrite Forall_forall in Hs. specialize (Hs r). rewrite list_elem_of_In in Hs.
      specialize (Hs Hin). lia.
    + apply Forall_app. split; [|repeat constructor; cbn; lia].
      eapply Forall_impl; [exact Hs|]. cbn. intros; lia.
Qed.

End UpsertPost.

(** *** [upsert_snapshot] *)

Section UpsertSnapshot.

Variables (post_id snapshot_date total : Z) (reactions : gmap string Z)
          (views forwards : option Z).

Local Abbreviation refreshed_snapshot :=
  (DbProps.refreshed_snapshot total reactions views forwards).
Local Abbreviation snapshot_is_fresh :=
  (DbProps.snapshot_is_fresh post_id snapshot_date total reactions views forwards).
Local Abbreviation upsert c :=
  (upsert_snapshot c post_id snapshot_date total reactions views forwards).

Lemma upsert_snapshot_frame (c : conn) :
  posts (upsert c) = posts c /\ posts_seq (upsert c) = posts_seq c
  /\ links (upsert c) = links c /\ links_seq (upsert c) = links_seq c.
Proof.
  unfold upsert_snapshot.
  destruct (existsb _ (snapshots c)); cbn; auto.
Qed.

Lemma upsert_snapshot_present (c : conn) :
  existsb (snapshot_has_key post_id snapshot_date) (snapshots (upsert c)) = true
  /\ Forall snapshot_is_fresh (snapshots (upsert c)).
Proof.
  unfold upsert_snapshot.
  destruct (existsb (snapshot_has_key post_id snapshot_date) (snapshots c)) eqn:Hex; cbn.
  - split.
    + apply existsb_exists in Hex as (x & Hin & Hx). apply existsb_exists.
      exists (refreshed_snapshot x). split; [|exact Hx].
      apply in_map_iff. exists x. now rewrite Hx.
    + apply Forall_forall. intros r Hr.
      apply list_elem_of_In, in_map_iff in Hr as (r0 & <- & _). unfold DbProps.snapshot_is_fresh.
      destruct (snapshot_has_key post_id snapshot_date r0) eqn:H0; [reflexivity|].
      intros Hk. congruence.
  - split.
    + rewrite existsb_app. cbn. unfold snapshot_has_key at 2. cbn.
      rewrite !Z.eqb_refl. cbn. now rewrite orb_true_r.
    + apply Forall_app. split; [|repeat constructor].
      apply Forall_forall. intros r Hr Hk. exfalso.
      assert (existsb (snapshot_has_key post_id snapshot_date) (snapshots c) = true);
        [|congruence].
      apply existsb_exists. exists r. split; [now apply list_elem_of_In | exact Hk].
Qed.

(** Writing the same snapshot again changes nothing at all. *)
Lemma upsert_snapshot_again (c : conn) :
  existsb (snapshot_has_key post_id snapshot_date) (snapshots c) = true ->
  Forall snapshot_is_fresh (snapshots c) ->
  upsert c = c.
Proof.
  intros Hex Hfresh. unfold upsert_snapshot. rewrite Hex.
  assert (Hmap : map (fun r => if snapshot_has_key post_id snapshot_date r
                               then refreshed_snapshot r else r) (snapshots c) = snapshots c).
  { rewrite <- (map_id (snapshots c)) at 2. apply map_ext_in. intros r Hr.
    rewrite Forall_forall in Hfresh. specialize (Hfresh r).
    rewrite list_elem_of_In in Hfresh. specialize (Hfresh Hr). unfold DbProps.snapshot_is_fresh in Hfresh.
    destruct (snapshot_has_key post_id snapshot_date r); [now apply Hfresh | reflexivity]. }
  unfold DbProps.refreshed_snapshot in Hmap. rewrite Hmap. destruct c; reflexivity.
Qed.

(** A day that has no snapshot yet gets a new row; the rows already
    there stay as they are. *)
Lemma upsert_snapshot_new_day (c : conn) :
  existsb (snapshot_has_key post_id snapshot_date) (snapshots c) = false ->
  snapshots (upsert c)
  = (snapshots c ++
     [ {| s_id := snapshots_seq c + 1; s_post_id := post_id;
          s_snapshot_date := snapshot_date; s_total_reactions := total;
          s_reactions_json := reactions; s_views := views; s_forwards := forwards |} ])%list.
Proof. intros Hex. unfold upsert_snapshot. now rewrite Hex. Qed.

Lemma upsert_snapshot_wf (c : conn) : db_wf c -> db_wf (upsert c).
Proof.
  intros [Hk Hi Hs Hl Hsn]. unfold upsert_snapshot.
  destruct (existsb (snapshot_has_key post_id snapshot_date) (snapshots c)) eqn:Hex;
    constructor; cbn; try assumption.
  - rewrite map_map. erewrite map_ext; [exact Hsn|].
    intros r. now destruct (snapshot_has_key post_id snapshot_date r).
  - rewrite map_app. cbn. apply NoDup_snoc; [exact Hsn|].
    apply (existsb_key_false snapshot_key (snapshot_has_key post_id snapshot_date)
             (post_id, snapshot_date)); [apply snapshot_has_key_spec | exact Hex].
Qed.

Lemma upsert_snapshot_one_row (c : conn) :
  db_wf c ->
  List.length (List.filter (snapshot_has_key post_id snapshot_date) (snapshots (upsert c))) = 1%nat.
Proof.
  intros Hwf. apply upsert_snapshot_wf in Hwf as [_ _ _ _ Hsn].
  apply (filter_key_unique snapshot_key _ (post_id, snapshot_date)).
  - apply snapshot_has_key_spec.
  - exact Hsn.
  - apply upsert_snapshot_present.
Qed.

End UpsertSnapshot.

(** *** [replace_links] *)

Lemma fresh_links_nodup (ls : list (string * link_type)) :
  NoDup (map fst ls) -> fresh_links [] ls = ls.
Proof.
  enough (H : forall have, NoDup (have ++ map fst ls) -> fresh_links have ls = ls).
  { intros Hnd. now apply (H []). }
  induction ls as [|[url t] ls IH]; intros have Hnd; [reflexivity|]. cbn in *.
  apply NoDup_app in Hnd as (Hh & Hdisj & Hls).
  destruct (existsb (String.eqb url) have) eqn:Hex.
  - exfalso. apply existsb_exists in Hex as (u & Hin & Hu). apply String.eqb_eq in Hu. subst u.
    apply (Hdisj url); [now apply list_elem_of_In | left].
  - f_equal. apply IH. rewrite <- app_assoc. cbn.
    apply NoDup_app. repeat split; [exact Hh | | exact Hls]. exact Hdisj.
Qed.

Lemma fresh_links_urls_nodup (have : list string) (ls : list (string * link_type)) :
  NoDup have -> NoDup (have ++ map fst (fresh_links have ls)).
Proof.
  revert have. induction ls as [|[url t] ls IH]; intros have Hnd; cbn.
  - now rewrite app_nil_r.
  - destruct (existsb (String.eqb url) have) eqn:Hex; [now apply IH|]. cbn.
    replace (have ++ url :: map fst (fresh_links (have ++ [url]) ls))%list
      with ((have ++ [url]) ++ map fst (fresh_links (have ++ [url]) ls))%list
      by now rewrite <- app_assoc.
    apply IH. apply NoDup_snoc; [exact Hnd|].
    intros Hin. assert (existsb (String.eqb url) have = true); [|congruence].
    apply existsb_exists. exists url. split; [exact Hin | apply String.eqb_refl].
Qed.

Lemma fresh_links_incl (have : list string) (ls : list (string * link_type)) (x : string * link_type) :
  In x (fresh_links have ls) -> In x ls.
Proof.
  revert have. induction ls as [|[url t] ls IH]; intros have; cbn; [tauto|].
  destruct (existsb (String.eqb url) have); cbn; [eauto|].
  intros [<- | Hin]; eauto.
Qed.

Lemma existsb_link_key (c : conn) (pid : Z) (url : string) :
  existsb (link_has_key pid url) (links c)
  = existsb (String.eqb url) (map fst (links_of_post c pid)).
Proof.
  unfold links_of_post. induction (links c) as [|r l IH]; [reflexivity|]. cbn.
  unfold link_has_key at 1. destruct (l_post_id r =? pid); cbn.
  - rewrite IH. now rewrite (String.eqb_sym url).
  - exact IH.
Qed.

Lemma insert_link_of_post (pid : Z) (url : string) (t : link_type) (c : conn) :
  links_of_post (insert_link_or_ignore pid c (url, t)) pid
  = if existsb (String.eqb url) (map fst (links_of_post c pid))
    then links_of_post c pid
    else (links_of_post c pid ++ [(url, t)])%list.
Proof.
  unfold insert_link_or_ignore. rewrite (existsb_link_key c pid url).
  destruct (existsb (String.eqb url) (map fst (links_of_post c pid))); [reflexivity|].
  unfold links_of_post. cbn [links]. rewrite List.filter_app. cbn.
  rewrite Z.eqb_refl. now rewrite map_app.
Qed.

Lemma insert_links_of_post (pid : Z) (ls : list (string * link_type)) (c : conn) :
  links_of_post (fold_left (insert_link_or_ignore pid) ls c) pid
  = (links_of_post c pid ++ fresh_links (map fst (links_of_post c pid)) ls)%list.
Proof.
  revert c. induction ls as [|[url t] ls IH]; intros c; cbn [fold_left fresh_links].
  - now rewrite app_nil_r.
  - rewrite IH, insert_link_of_post.
    destruct (existsb (String.eqb url) (map fst (links_of_post c pid))); [reflexivity|].
    rewrite map_app, <- app_assoc. reflexivity.
Qed.

Lemma insert_links_other_post (pid pid' : Z) (ls : list (string * link_type)) (c : conn) :
  pid' <> pid ->
  links_of_post (fold_left (insert_link_or_ignore pid) ls c) pid' = links_of_post c pid'.
Proof.
  intros Hne. revert c. induction ls as [|[url t] ls IH]; intros c; cbn [fold_left]; [reflexivity|].
  rewrite IH. unfold insert_link_or_ignore.
  destruct (existsb (link_has_key pid url) (links c)); [reflexivity|].
  unfold links_of_post. cbn [links]. rewrite List.filter_app. cbn.
  apply Z.eqb_neq in Hne. rewrite Z.eqb_sym in Hne. rewrite Hne.
  cbn. now rewrite app_nil_r.
Qed.

Lemma insert_links_frame (pid : Z) (ls : list (string * link_type)) (c : conn) :
  posts (fold_left (insert_link_or_ignore pid) ls c) = posts c
  /\ posts_seq (fold_left (insert_link_or_ignore pid) ls c) = posts_seq c
  /\ snapshots (fold_left (insert_link_or_ignore pid) ls c) = snapshots c
  /\ snapshots_seq (fold_left (insert_link_or_ignore pid) ls c) = snapshots_seq c.
Proof.
  revert c. induction ls as [|[url t] ls IH]; intros c; cbn [fold_left]; [auto|].
  destruct (IH (insert_link_or_ignore pid c (url, t))) as (-> & -> & -> & ->).
  unfold insert_link_or_ignore. destruct (existsb _ (links c)); cbn; auto.
Qed.

Lemma insert_links_key_nodup (pid : Z) (ls : list (string * link_type)) (c : conn) :
  NoDup (map link_key (links c)) ->
  NoDup (map link_key (links (fold_left (insert_link_or_ignore pid) ls c))).
Proof.
  revert c. induction ls as [|[url t] ls IH]; intros c Hnd; cbn [fold_left]; [exact Hnd|].
  apply IH. unfold insert_link_or_ignore.
  destruct (existsb (link_has_key pid url) (links c)) eqn:Hex; [exact Hnd|].
  cbn. rewrite map_app. cbn. apply NoDup_snoc; [exact Hnd|].
  apply (existsb_key_false link_key (link_has_key pid url) (pid, url));
    [apply link_has_key_spec | exact Hex].
Qed.

Lemma filter_key_nodup {A K} (key : A -> K) (p : A -> bool) (l : list A) :
  NoDup (map key l) -> NoDup (map key (List.filter p l)).
Proof.
  induction l as [|x l IH]; cbn; intros Hnd; [constructor|].
  apply NoDup_cons in Hnd as [Hnin Hnd].
  destruct (p x); cbn; [|now apply IH].
  apply NoDup_cons. split; [|now apply IH].
  intros Hin. apply Hnin. apply list_elem_of_In in Hin. apply list_elem_of_In.
  apply in_map_iff in Hin as (y & Hy & Hin). apply in_map_iff. exists y. split; [exact Hy|].
  apply filter_In in Hin. tauto.
Qed.

Lemma replace_links_frame (c : conn) (pid : Z) (ls : list (string * link_type)) :
  posts (replace_links c pid ls) = posts c
  /\ posts_seq (replace_links c pid ls) = posts_seq c
  /\ snapshots (replace_links c pid ls) = snapshots c
  /\ snapshots_seq (replace_links c pid ls) = snapshots_seq c.
Proof.
  unfold replace_links. destruct ls as [|l ls]; [cbn; auto|].
  match goal with
  | |- context [fold_left _ _ ?c0] =>
      destruct (insert_links_frame pid (l :: ls) c0) as (H1 & H2 & H3 & H4)
  end.
  rewrite H1, H2, H3, H4. cbn. auto.
Qed.

(** After [replace_links] the post has the given links and no others:
    every URL once, in the order given. *)
Lemma replace_links_exact (c : conn) (pid : Z) (ls : list (string * link_type)) :
  links_of_post (replace_links c pid ls) pid = fresh_links [] ls.
Proof.
  assert (Hdel : forall l, List.filter (fun r => l_post_id r =? pid)
                   (List.filter (fun r => negb (l_post_id r =? pid)) l) = []).
  { induction l as [|r l IH]; [reflexivity|]. cbn.
    destruct (l_post_id r =? pid) eqn:Hr; cbn; [exact IH|]. now rewrite Hr. }
  unfold replace_links. destruct ls as [|l ls].
  - unfold links_of_post. cbn. now rewrite Hdel.
  - rewrite insert_links_of_post. unfold links_of_post at 1 2. cbn [links].
    rewrite Hdel. reflexivity.
Qed.

Lemma replace_links_other_post (c : conn) (pid pid' : Z) (ls : list (string * link_type)) :
  pid' <> pid -> links_of_post (replace_links c pid ls) pid' = links_of_post c pid'.
Proof.
  intros Hne.
  assert (Hdel : links_of_post
            {| posts := posts c; posts_seq := posts_seq c;
               links := List.filter (fun r => negb (l_post_id r =? pid)) (links c);
               links_seq := links_seq c;
               snapshots := snapshots c; snapshots_seq := snapshots_seq c |} pid'
          = links_of_post c pid').
  { unfold links_of_post. cbn [links]. f_equal.
    induction (links c) as [|r l IH]; [reflexivity|]. cbn.
    destruct (l_post_id r =? pid) eqn:Hr; cbn.
    - apply Z.eqb_eq in Hr. rewrite Hr. apply Z.eqb_neq in Hne. rewrite Z.eqb_sym in Hne.
      rewrite Hne. exact IH.
    - destruct (l_post_id r =? pid'); [now rewrite IH | exact IH]. }
  unfold replace_links. destruct ls as [|l ls]; [exact Hdel|].
  rewrite insert_links_other_post by exact Hne. exact Hdel.
Qed.

Lemma replace_links_wf (c : conn) (pid : Z) (ls : list (string * link_type)) :
  db_wf c -> db_wf (replace_links c pid ls).
Proof.
  intros [Hk Hi Hs Hl Hsn].
  destruct (replace_links_frame c pid ls) as (Hp & Hps & Hsnap & _).
  constructor; rewrite ?Hp, ?Hps, ?Hsnap; try assumption.
  unfold replace_links.
  assert (Hdel : NoDup (map link_key (List.filter (fun r => negb (l_post_id r =? pid)) (links c))))
    by now apply filter_key_nodup.
  destruct ls as [|l ls]; [exact Hdel|].
  now apply insert_links_key_nodup.
Qed.

Lemma db_wf_empty : db_wf empty_db.
Proof. constructor; cbn; constructor. Qed.

End DbSpec.

(** ** service.py *)

Module ServiceSpec.

Import Extractors Db Service DbProps ServiceProps Samples DbSpec StrSpec.

Lemma map_result_fst (urls : list string) (typed : list (string * link_type)) :
  links_with_types urls = Ok typed -> map fst typed = urls.
Proof.
  unfold links_with_types. revert typed.
  induction urls as [|u urls IH]; cbn; intros typed.
  - now intros [= <-].
  - destruct (classify_link u) as [t|e]; cbn; [|discriminate].
    destruct (map_result _ urls) as [ys|e]; cbn; [|discriminate].
    intros [= <-]. cbn. f_equal. now apply IH.
Qed.

Lemma links_with_types_classified (urls : list string) (typed : list (string * link_type)) :
  links_with_types urls = Ok typed ->
  forall u t, In (u, t) typed -> classify_link u = Ok t.
Proof.
  unfold links_with_types. revert typed.
  induction urls as [|u0 urls IH]; cbn; intros typed.
  - intros [= <-] u t [].
  - destruct (classify_link u0) as [t0|e] eqn:Hc; cbn; [|discriminate].
    destruct (map_result _ urls) as [ys|e]; cbn; [|discriminate].
    intros [= <-] u t [[= <- <-] | Hin]; [exact Hc | now apply (IH ys)].
Qed.

(** [store_message] spelled out: the three writes in a row, and failure
    exactly when a discovered URL cannot be classified. *)
Lemma store_message_ok (c c1 : Db.conn) (ch : channel_info) (day dt : Z) (m : message) :
  store_message c ch day dt m = Ok c1 ->
  exists c' pid typed,
    upsert_post c (channel_id ch) (channel_username ch) (channel_title ch) (msg_id m)
      (post_url_of ch m) (isoformat dt) (msg_message m) (msg_views m) (msg_forwards m)
      = Ok (c', pid)
    /\ links_with_types (extract_urls m) = Ok typed
    /\ c1 = upsert_snapshot (replace_links c' pid typed) pid day
              (total_reactions (extract_reactions (msg_reactions m)))
              (extract_reactions (msg_reactions m)) (msg_views m) (msg_forwards m).
Proof.
  unfold store_message. fold (post_url_of ch m).
  destruct (upsert_post _ _ _ _ _ _ _ _ _ _) as [[c' pid]|e]; cbn; [|discriminate].
  destruct (links_with_types (extract_urls m)) as [typed|e]; cbn; [|discriminate].
  intros [= <-]. now exists c', pid, typed.
Qed.

Lemma store_message_succeeds (c : Db.conn) (ch : channel_info) (day dt : Z) (m : message)
    (typed : list (string * link_type)) :
  links_with_types (extract_urls m) = Ok typed ->
  exists c1, store_message c ch day dt m = Ok c1.
Proof.
  intros Ht. unfold store_message. fold (post_url_of ch m).
  destruct (upsert_post_returns (channel_id ch) (channel_username ch) (channel_title ch)
              (msg_id m) (post_url_of ch m) (isoformat dt) (msg_message m)
              (msg_views m) (msg_forwards m) c) as (c' & pid & -> & _).
  cbn. rewrite Ht. cbn. eauto.
Qed.

Lemma store_message_wf (c c1 : Db.conn) (ch : channel_info) (day dt : Z) (m : message) :
  db_wf c -> store_message c ch day dt m = Ok c1 -> db_wf c1.
Proof.
  intros Hwf H. apply store_message_ok in H as (c' & pid & typed & Hup & _ & ->).
  apply upsert_snapshot_wf, replace_links_wf. eapply upsert_post_wf; eauto.
Qed.

(** C2: ingesting a message that is already stored for the day leaves
    the posts and snapshots tables exactly as they were, with one post row
    for the message's [(channel_id, message_id)] and one snapshot row for
    the post and the day; the post's links are the freshly derived ones,
    each URL once, whatever links the post had before.  Ingesting the post
    on a day later than all its snapshots appends one snapshot row and
    leaves every existing row as it was. *)
Theorem ingestion_is_idempotent_per_day
    (db db1 : Db.conn) (ch : channel_info) (day dt : Z) (m : message) :
  db_wf db ->
  store_message db ch day dt m = Ok db1 ->
  exists pid typed,
    links_with_types (extract_urls m) = Ok typed
    /\ (exists db2,
          store_message db1 ch day dt m = Ok db2
          /\ posts db2 = posts db1
          /\ snapshots db2 = snapshots db1
          /\ List.length (List.filter (post_has_key (channel_id ch) (msg_id m)) (posts db2)) = 1%nat
          /\ (exists row, find (post_has_key (channel_id ch) (msg_id m)) (posts db2) = Some row
                          /\ p_id row = pid)
          /\ List.length (List.filter (snapshot_has_key pid day) (snapshots db2)) = 1%nat
          /\ links_of_post db1 pid = typed
          /\ links_of_post db2 pid = typed
          /\ NoDup (map fst (links_of_post db2 pid))
          /\ db_wf db2)
    /\ (forall (day' dt' : Z) (m' : message) (db3 : Db.conn),
          msg_id m' = msg_id m ->
          Forall (fun s => s_post_id s = pid -> s_snapshot_date s < day') (snapshots db1) ->
          store_message db1 ch day' dt' m' = Ok db3 ->
          exists new,
            snapshots db3 = (snapshots db1 ++ [new])%list
            /\ s_post_id new = pid /\ s_snapshot_date new = day'
            /\ s_total_reactions new = total_reactions (extract_reactions (msg_reactions m'))).
Proof.
  intros Hwf H1.
  pose proof (store_message_wf _ _ _ _ _ _ Hwf H1) as Hwf1.
  apply store_message_ok in H1 as (c' & pid & typed & Hup & Hty & Hdb1).
  exists pid, typed. split; [exact Hty|].
  set (u := channel_username ch) in *. set (t := channel_title ch) in *.
  destruct (upsert_post_returns (channel_id ch) u t (msg_id m) (post_url_of ch m)
              (isoformat dt) (msg_message m) (msg_views m) (msg_forwards m) db)
    as (c0 & pid0 & Hup0 & Hl & Hls & Hs & Hss & Hrow & Hex & Hfresh).
  rewrite Hup in Hup0. injection Hup0 as <- <-.
  pose proof (upsert_post_wf _ _ _ _ _ _ _ _ _ _ _ _ Hwf Hup) as Hwf'.
  set (tot := total_reactions (extract_reactions (msg_reactions m))) in *.
  set (rx := extract_reactions (msg_reactions m)) in *.
  assert (Hnd : NoDup (map fst typed)).
  { rewrite (map_result_fst _ _ Hty). apply sorted_set_NoDup. }
  (* the state after the first ingestion *)
  destruct (upsert_snapshot_frame pid day tot rx (msg_views m) (msg_forwards m)
              (replace_links c' pid typed)) as (Hp1 & Hps1 & Hl1 & Hls1).
  destruct (replace_links_frame c' pid typed) as (Hp1' & Hps1' & Hs1' & Hss1').
  rewrite <- Hdb1 in Hp1, Hps1, Hl1, Hls1.
  assert (Hposts1 : posts db1 = posts c') by congruence.
  assert (Hlinks1 : links_of_post db1 pid = typed).
  { unfold links_of_post. rewrite Hl1. fold (links_of_post (replace_links c' pid typed) pid).
    rewrite replace_links_exact. now apply fresh_links_nodup. }
  destruct (upsert_snapshot_present pid day tot rx (msg_views m) (msg_forwards m)
              (replace_links c' pid typed)) as (Hsex & Hsfresh).
  rewrite <- Hdb1 in Hsex, Hsfresh.
  (* the second ingestion *)
  assert (Hup2 : upsert_post db1 (channel_id ch) u t (msg_id m) (post_url_of ch m)
                   (isoformat dt) (msg_message m) (msg_views m) (msg_forwards m)
                 = Ok (db1, pid)).
  { apply upsert_post_again; rewrite Hposts1; assumption. }
  split.
  - exists (upsert_snapshot (replace_links db1 pid typed) pid day tot rx
              (msg_views m) (msg_forwards m)).
    destruct (upsert_snapshot_frame pid day tot rx (msg_views m) (msg_forwards m)
                (replace_links db1 pid typed)) as (Hp2 & Hps2 & Hl2 & Hls2).
    destruct (replace_links_frame db1 pid typed) as (Hp2' & Hps2' & Hs2' & Hss2').
    assert (Hsnap2 : snapshots (upsert_snapshot (replace_links db1 pid typed) pid day tot rx
                                 (msg_views m) (msg_forwards m)) = snapshots db1).
    { rewrite upsert_snapshot_again; [exact Hs2' | now rewrite Hs2' | now rewrite Hs2']. }
    assert (Hwf2 : db_wf (upsert_snapshot (replace_links db1 pid typed) pid day tot rx
                            (msg_views m) (msg_forwards m))).
    { now apply upsert_snapshot_wf, replace_links_wf. }
    assert (Hlinks2 : links_of_post (upsert_snapshot (replace_links db1 pid typed) pid day tot rx
                                       (msg_views m) (msg_forwards m)) pid = typed).
    { unfold links_of_post. rewrite Hl2. fold (links_of_post (replace_links db1 pid typed) pid).
      rewrite replace_links_exact. now apply fresh_links_nodup. }
    split.
    { unfold store_message. fold (post_url_of ch m). fold u t. rewrite Hup2. cbn.
      rewrite Hty. reflexivity. }
    split; [congruence|]. split; [exact Hsnap2|].
    split.
    { rewrite Hp2, Hp2', Hposts1.
      apply (filter_key_unique post_key _ (channel_id ch, msg_id m));
        [apply post_has_key_spec | apply Hwf' | exact Hex]. }
    split; [rewrite Hp2, Hp2', Hposts1; exact Hrow|].
    split.
    { rewrite Hsnap2.
      apply (filter_key_unique snapshot_key _ (pid, day));
        [apply snapshot_has_key_spec | apply Hwf1 | exact Hsex]. }
    split; [exact Hlinks1|]. split; [exact Hlinks2|].
    split; [now rewrite Hlinks2 | exact Hwf2].
  - intros day' dt' m' db3 Hid Hlater H3.
    apply store_message_ok in H3 as (c3 & pid3 & typed3 & Hup3 & _ & ->).
    destruct Hrow as (row & Hfind & Hrid). rewrite <- Hposts1 in Hfind.
    rewrite <- Hid in Hfind.
    destruct (upsert_post_existing (channel_id ch) u t (msg_id m') (post_url_of ch m')
                (isoformat dt') (msg_message m') (msg_views m') (msg_forwards m') db1 row Hfind)
      as (c4 & Hup4 & Hs4).
    fold u t in Hup3. rewrite Hup3 in Hup4. injection Hup4 as <- Hpid3.
    rewrite Hrid in Hpid3. subst pid3.
    eexists. split.
    + rewrite upsert_snapshot_new_day.
      * destruct (replace_links_frame c3 pid typed3) as (_ & _ & -> & ->).
        rewrite Hs4. reflexivity.
      * destruct (replace_links_frame c3 pid typed3) as (_ & _ & -> & _). rewrite Hs4.
        apply not_true_is_false. intros Hex3.
        apply existsb_exists in Hex3 as (s & Hin & Hk).
        apply snapshot_has_key_spec in Hk. injection Hk as Hk1 Hk2.
        rewrite Forall_forall in Hlater. specialize (Hlater s).
        rewrite list_elem_of_In in Hlater. specialize (Hlater Hin Hk1). lia.
    + cbn. auto.
Qed.


Lemma db_stale_wf : db_wf db_stale.
Proof.
  apply (store_message_wf empty_db db_stale ml_channel 10 (at_hour 9 13) post42_old);
    [apply db_wf_empty | vm_compute; reflexivity].
Qed.

Lemma ingestion_is_idempotent_per_day_witness :
  store_message db_stale ml_channel 10 (at_hour 9 13) post42 = Ok db_day10
  /\ links_of_post db_stale 1 = [("https://example.com/old", Article)]
  /\ exists db2,
       store_message db_day10 ml_channel 10 (at_hour 9 13) post42 = Ok db2
       /\ posts db2 = posts db_day10
       /\ snapshots db2 = snapshots db_day10
       /\ links_of_post db2 1
          = [("https://arxiv.org/abs/1234", Research); ("https://github.com/org/repo", Github)].
Proof.
  assert (H1 : store_message db_stale ml_channel 10 (at_hour 9 13) post42 = Ok db_day10)
    by (vm_compute; reflexivity).
  split; [exact H1|]. split; [vm_compute; reflexivity|].
  destruct (ingestion_is_idempotent_per_day db_stale db_day10 ml_channel 10 (at_hour 9 13)
              post42 db_stale_wf H1)
    as (pid & typed & Hty & (db2 & H2 & Hp & Hs & _ & _ & _ & Hl1 & Hl2 & _) & _).
  exists db2. split; [exact H2|]. split; [exact Hp|]. split; [exact Hs|].
  assert (Hpid : pid = 1 /\ typed = [("https://arxiv.org/abs/1234", Research);
                                     ("https://github.com/org/repo", Github)]).
  { assert (Htyped : links_with_types (extract_urls post42)
                     = Ok [("https://arxiv.org/abs/1234", Research);
                           ("https://github.com/org/repo", Github)])
      by (vm_compute; reflexivity).
    rewrite Htyped in Hty. injection Hty as <-. split; [|reflexivity].
    destruct (Z.eq_dec pid 1) as [-> | Hne]; [reflexivity|]. exfalso.
    assert (Hnil : links_of_post db_day10 pid = []).
    { unfold links_of_post.
      change (links db_day10) with
        [ {| l_id := 2; l_post_id := 1; l_url := "https://arxiv.org/abs/1234";
             l_link_type := Research |};
          {| l_id := 3; l_post_id := 1; l_url := "https://github.com/org/repo";
             l_link_type := Github |} ].
      cbn [List.filter l_post_id]. apply Z.eqb_neq in Hne.
      rewrite (Z.eqb_sym 1 pid), Hne. reflexivity. }
    rewrite Hnil in Hl1. discriminate Hl1. }
  destruct Hpid as [-> ->]. exact Hl2.
Defined.

(** *** The message loop *)

Lemma dated_count_cons (m : tg_message) (msgs : list tg_message) :
  dated_count (m :: msgs)
  = (match date m with Some _ => 1 | None => 0 end) + dated_count msgs.
Proof.
  unfold dated_count. cbn. destruct (date m); cbn; lia.
Qed.

Lemma scrape_messages_all_fresh (since day : Z) (ch : channel_info)
    (msgs : list tg_message) (c : Db.conn) (n : Z) :
  Forall (fresh since) msgs -> Forall storable msgs ->
  exists c', scrape_messages since day ch (map Ok msgs) c n = Ok (c', n + dated_count msgs, []).
Proof.
  revert c n. induction msgs as [|m msgs IH]; intros c n Hf Hs; cbn.
  - exists c. unfold dated_count. cbn. do 3 f_equal. lia.
  - apply Forall_cons in Hf as [Hm Hf]. apply Forall_cons in Hs as [Hsm Hs].
    rewrite dated_count_cons. unfold fresh in Hm. destruct (date m) as [d|].
    + apply Z.ltb_ge in Hm. rewrite Hm. destruct Hsm as (typed & Hty).
      destruct (store_message_succeeds c ch day (_normalize_dt d) (content m) typed Hty)
        as (c1 & ->). cbn.
      destruct (IH c1 (n + 1) Hf Hs) as (c' & ->). exists c'. do 3 f_equal. lia.
    + destruct (IH c n Hf Hs) as (c' & ->). exists c'. do 3 f_equal.
Qed.

Lemma scrape_messages_stop (since day : Z) (ch : channel_info)
    (kept : list tg_message) (old : tg_message) (later : list (result tg_message))
    (c : Db.conn) (n : Z) :
  Forall (fresh since) kept -> older since old ->
  scrape_messages since day ch (map Ok kept ++ Ok old :: later) c n
  = match scrape_messages since day ch (map Ok kept) c n with
    | Ok (c', k, _) => Ok (c', k, later)
    | Raise e => Raise e
    end.
Proof.
  intros Hf (d0 & Hd0 & Hold). revert c n.
  induction kept as [|m kept IH]; intros c n; cbn.
  - rewrite Hd0. apply Z.ltb_lt in Hold. now rewrite Hold.
  - apply Forall_cons in Hf as [Hm Hf]. unfold fresh in Hm. destruct (date m) as [d|].
    + apply Z.ltb_ge in Hm. rewrite Hm.
      destruct (store_message c ch day (_normalize_dt d) (content m)) as [c1|e]; cbn;
        [now apply IH | reflexivity].
    + now apply IH.
Qed.

(** Every stream of messages either holds fresh messages only or splits
    at its first message older than the cutoff. *)
Lemma stream_split (since : Z) (msgs : list tg_message) :
  Forall (fresh since) msgs
  \/ exists kept old later,
       msgs = (kept ++ old :: later)%list /\ Forall (fresh since) kept /\ older since old.
Proof.
  induction msgs as [|m msgs IH]; [left; constructor|].
  destruct (date m) as [d|] eqn:Hd.
  - destruct (Z_lt_ge_dec (_normalize_dt d) since) as [Hlt | Hge].
    + right. exists [], m, msgs. repeat split; [constructor|]. now exists d.
    + destruct IH as [Hall | (kept & old & later & -> & Hk & Ho)].
      * left. constructor; [|exact Hall]. unfold fresh. rewrite Hd. lia.
      * right. exists (m :: kept), old, later. repeat split; [|exact Ho].
        constructor; [|exact Hk]. unfold fresh. rewrite Hd. lia.
  - destruct IH as [Hall | (kept & old & later & -> & Hk & Ho)].
    + left. constructor; [|exact Hall]. unfold fresh. now rewrite Hd.
    + right. exists (m :: kept), old, later. repeat split; [|exact Ho].
      constructor; [|exact Hk]. unfold fresh. now rewrite Hd.
Qed.

Lemma utc_date_shift (t d : Z) : utc_date (t - timedelta_days d) = utc_date t - d.
Proof.
  unfold utc_date, timedelta_days, MICROSECONDS_PER_DAY.
  replace (t - d * 86400000000) with (t + (- d) * 86400000000) by lia.
  rewrite Z.div_add by lia. lia.
Qed.

Lemma utc_date_mono (a b : Z) : a <= b -> utc_date a <= utc_date b.
Proof. unfold utc_date, MICROSECONDS_PER_DAY. intros H. apply Z.div_le_mono; lia. Qed.

(** C8, as the code has it: the loop keeps the newest-first stream up
    to its end or up to the first message whose UTC-normalized timestamp
    is strictly older than the cutoff, and whatever follows that message
    is left unread; the cutoff is the instant [d] whole days before the
    clock reading, so a kept message is dated [today - d] at the
    earliest. *)
Theorem scrape_messages_stops_at_cutoff
    (settings : Settings) (now : Z) (lookback : option Z) (day : Z) (ch : channel_info)
    (kept : list tg_message) (c : Db.conn) :
  Forall (fresh (since_dt settings now lookback)) kept ->
  Forall storable kept ->
  since_dt settings now lookback
    = now - effective_lookback settings lookback * MICROSECONDS_PER_DAY
  /\ (exists c',
        scrape_messages (since_dt settings now lookback) day ch (map Ok kept) c 0
          = Ok (c', dated_count kept, [])
        /\ forall old later,
             older (since_dt settings now lookback) old ->
             scrape_messages (since_dt settings now lookback) day ch
               (map Ok kept ++ Ok old :: later) c 0
             = Ok (c', dated_count kept, later))
  /\ Forall (fun m => forall t, date m = Some t ->
                                utc_date now - effective_lookback settings lookback
                                <= utc_date (_normalize_dt t)) kept.
Proof.
  intros Hf Hs. split; [reflexivity|]. split.
  - destruct (scrape_messages_all_fresh _ day ch kept c 0 Hf Hs) as (c' & Hc').
    exists c'. rewrite Z.add_0_l in Hc'. split; [exact Hc'|].
    intros old later Hold. rewrite (scrape_messages_stop _ day ch kept old later c 0 Hf Hold).
    now rewrite Hc'.
  - eapply Forall_impl; [exact Hf|]. cbn. intros m Hm t Ht. unfold fresh in Hm.
    rewrite Ht in Hm. rewrite <- (utc_date_shift now (effective_lookback settings lookback)).
    apply utc_date_mono. exact Hm.
Qed.

Lemma scrape_messages_stops_at_cutoff_witness :
  exists c',
    scrape_messages (since_dt (settings_of []) (at_hour 10 12) (Some 1)) 10 ml_channel
      [ Ok (dated (at_hour 10 9) post43);
        Ok {| date := None; content := post44 |};
        Ok {| date := Some (naive (at_hour 9 13)); content := post42 |} ] empty_db 0
    = Ok (c', 2, [])
    /\ scrape_messages (since_dt (settings_of []) (at_hour 10 12) (Some 1)) 10 ml_channel
         healthy_stream empty_db 0
       = Ok (c', 2, [Raise (OtherError "never pulled")]).
Proof.
  destruct (scrape_messages_stops_at_cutoff (settings_of []) (at_hour 10 12) (Some 1) 10
              ml_channel
              [ dated (at_hour 10 9) post43;
                {| date := None; content := post44 |};
                {| date := Some (naive (at_hour 9 13)); content := post42 |} ] empty_db)
    as (_ & (c' & Hall & Hstop) & _).
  - repeat constructor; vm_compute; congruence.
  - repeat constructor; eexists; vm_compute; reflexivity.
  - exists c'. split; [exact Hall|].
    apply (Hstop (dated (at_hour 9 11) post42_old) [Raise (OtherError "never pulled")]).
    exists (utc (at_hour 9 11)). split; [reflexivity | vm_compute; reflexivity].
Defined.

(** C8 as worded fails on the bound: with a lookback of one day and the
    clock at noon of day 10, a message of 13:00 on day 9 is not older than
    the cutoff and is stored, although day 9 lies outside
    [today - (d - 1), today] = [10, 10]. *)
Lemma lookback_reaches_previous_day_counterexample :
  since_dt (settings_of []) (at_hour 10 12) (Some 1) = at_hour 9 12
  /\ (exists c',
        scrape_messages (since_dt (settings_of []) (at_hour 10 12) (Some 1)) 10 ml_channel
          [Ok (dated (at_hour 9 13) post42)] empty_db 0 = Ok (c', 1, []))
  /\ utc_date (_normalize_dt (utc (at_hour 9 13))) = 9
  /\ utc_date (at_hour 10 12) - (1 - 1) = 10.
Proof.
  split; [vm_compute; reflexivity|]. split; [|split; vm_compute; reflexivity].
  eexists. vm_compute. reflexivity.
Qed.

(** *** The channel loop *)

Lemma count_where_cons {A} (p : A -> bool) (x : A) (l : list A) :
  count_where p (x :: l) = (if p x then 1 else 0) + count_where p l.
Proof. unfold count_where. cbn. destruct (p x); cbn; lia. Qed.

Lemma scrape_messages_clean (since day : Z) (ch : channel_info)
    (stream : list (result tg_message)) (c : Db.conn) (n : Z) :
  stream_clean since stream = true ->
  exists c' rest,
    scrape_messages since day ch stream c n = Ok (c', n + stored_count since stream, rest).
Proof.
  revert c n. induction stream as [|[m|e] stream IH]; intros c n Hc; cbn in *.
  - exists c, []. do 3 f_equal. lia.
  - destruct (date m) as [d|]; [|now apply IH].
    destruct (_normalize_dt d <? since).
    + exists c, stream. do 3 f_equal. lia.
    + apply andb_true_iff in Hc as [Hl Hc].
      destruct (links_with_types (extract_urls (content m))) as [typed|] eqn:Hty;
        [|discriminate].
      destruct (store_message_succeeds c ch day (_normalize_dt d) (content m) typed Hty)
        as (c1 & ->). cbn.
      destruct (IH c1 (n + 1) Hc) as (c' & rest & ->). exists c', rest. do 3 f_equal. lia.
  - discriminate.
Qed.

Lemma store_message_raises (c : Db.conn) (ch : channel_info) (day dt : Z) (m : message) :
  is_ok (links_with_types (extract_urls m)) = false ->
  exists e, store_message c ch day dt m = Raise e.
Proof.
  intros Hl. unfold store_message. fold (post_url_of ch m).
  destruct (upsert_post_returns (channel_id ch) (channel_username ch) (channel_title ch)
              (msg_id m) (post_url_of ch m) (isoformat dt) (msg_message m)
              (msg_views m) (msg_forwards m) c) as (c' & pid & -> & _).
  cbn. destruct (links_with_types (extract_urls m)) as [|e]; [discriminate|]. cbn. eauto.
Qed.

Lemma scrape_messages_unclean (since day : Z) (ch : channel_info)
    (stream : list (result tg_message)) (c : Db.conn) (n : Z) :
  stream_clean since stream = false ->
  exists e, scrape_messages since day ch stream c n = Raise e.
Proof.
  revert c n. induction stream as [|[m|e] stream IH]; intros c n Hc; cbn in *.
  - discriminate.
  - destruct (date m) as [d|]; [|now apply IH].
    destruct (_normalize_dt d <? since); [discriminate|].
    destruct (is_ok (links_with_types (extract_urls (content m)))) eqn:Hl.
    + destruct (links_with_types (extract_urls (content m))) as [typed|] eqn:Hty;
        [|discriminate].
      destruct (store_message_succeeds c ch day (_normalize_dt d) (content m) typed Hty)
        as (c1 & ->). cbn. now apply IH.
    + destruct (store_message_raises c ch day (_normalize_dt d) (content m) Hl) as (e & ->).
      cbn. eauto.
  - eauto.
Qed.

Lemma scrape_channel_clean (cl : client) (since day : Z) (raw : string) (st : run_state) :
  channel_clean cl since raw = true ->
  exists st',
    scrape_channel cl since day st raw = Ok st'
    /\ channels_total (stats st') = channels_total (stats st)
    /\ channels_failed (stats st')
       = channels_failed (stats st) + (if channel_failed cl raw then 1 else 0)
    /\ channels_ok (stats st')
       = channels_ok (stats st) + (if negb (channel_failed cl raw) then 1 else 0)
    /\ posts_processed (stats st') = posts_processed (stats st) + channel_posts cl since raw
    /\ List.filter is_failure_record (log st')
       = (List.filter is_failure_record (log st) ++ failure_record cl raw)%list.
Proof.
  unfold channel_clean, channel_failed, channel_posts, failure_record, scrape_channel.
  fold (channel_name raw).
  destruct (get_entity cl (channel_name raw)) as [ent|e]; cbn [is_ok negb]; intros Hraw.
  - destruct (scrape_messages_clean since day
                {| channel_title := default (channel_name raw) (ent_title ent);
                   channel_username := ent_username ent;
                   channel_id := ent_id ent |}
                (iter_messages cl ent) (conn st) 0 Hraw) as (c' & rest & ->).
    cbn. eexists. split; [reflexivity|]. cbn.
    rewrite List.filter_app. cbn. rewrite !app_nil_r. repeat split; lia.
  - destruct (is_resolution_error e); eexists; (split; [reflexivity|]); cbn;
      rewrite List.filter_app; cbn; repeat split; lia.
Qed.

Lemma scrape_channels_clean (cl : client) (since day : Z) (chans : list string) (st : run_state) :
  forallb (channel_clean cl since) chans = true ->
  exists st',
    scrape_channels cl since day st chans = Ok st'
    /\ channels_total (stats st') = channels_total (stats st)
    /\ channels_failed (stats st')
       = channels_failed (stats st) + count_where (channel_failed cl) chans
    /\ channels_ok (stats st')
       = channels_ok (stats st) + count_where (fun ch => negb (channel_failed cl ch)) chans
    /\ posts_processed (stats st')
       = posts_processed (stats st) + sum_Z (map (channel_posts cl since) chans)
    /\ List.filter is_failure_record (log st')
       = (List.filter is_failure_record (log st) ++ flat_map (failure_record cl) chans)%list.
Proof.
  revert st. induction chans as [|raw chans IH]; intros st Hc; cbn [scrape_channels].
  - exists st. unfold count_where. cbn. rewrite app_nil_r. repeat split; lia.
  - cbn in Hc. apply andb_true_iff in Hc as [Hraw Hc].
    destruct (scrape_channel_clean cl since day raw st Hraw)
      as (st1 & -> & Ht1 & Hf1 & Ho1 & Hp1 & Hl1).
    cbn. destruct (IH st1 Hc) as (st' & -> & Ht & Hf & Ho & Hp & Hl).
    exists st'. split; [reflexivity|].
    rewrite !count_where_cons. cbn [map sum_Z fold_right flat_map].
    rewrite Ht, Hf, Ho, Hp, Hl, Ht1, Hf1, Ho1, Hp1, Hl1, <- app_assoc.
    fold (sum_Z (map (channel_posts cl since) chans)).
    repeat split; lia.
Qed.

Lemma scrape_channels_unclean (cl : client) (since day : Z) (chans : list string) (st : run_state) :
  forallb (channel_clean cl since) chans = false ->
  exists e, scrape_channels cl since day st chans = Raise e.
Proof.
  revert st. induction chans as [|raw chans IH]; intros st Hc; cbn [scrape_channels];
    [discriminate|].
  cbn in Hc. unfold scrape_channel. fold (channel_name raw).
  unfold channel_clean in Hc at 1.
  destruct (get_entity cl (channel_name raw)) as [ent|e].
  - destruct (stream_clean since (iter_messages cl ent)) eqn:Hs.
    + destruct (scrape_messages_clean since day
                  {| channel_title := default (channel_name raw) (ent_title ent);
                     channel_username := ent_username ent;
                     channel_id := ent_id ent |}
                  (iter_messages cl ent) (conn st) 0 Hs) as (c' & rest & ->).
      cbn. now apply IH.
    + destruct (scrape_messages_unclean since day
                  {| channel_title := default (channel_name raw) (ent_title ent);
                     channel_username := ent_username ent;
                     channel_id := ent_id ent |}
                  (iter_messages cl ent) (conn st) 0 Hs) as (e & ->).
      cbn. eauto.
  - destruct (is_resolution_error e); cbn; now apply IH.
Qed.

Lemma count_where_split {A} (p : A -> bool) (l : list A) :
  count_where p l + count_where (fun x => negb (p x)) l = Z.of_nat (List.length l).
Proof.
  induction l as [|x l IH]; [reflexivity|]. rewrite !count_where_cons. cbn [List.length].
  destruct (p x); cbn; lia.
Qed.

(** What a run does by the kind of its channels: an error raised while a
    channel is being resolved, whatever its kind, is caught, logged and
    counted as a failed channel, and the run goes on; when no error is
    raised while the messages of the resolved channels are read and stored,
    the run returns statistics with the channels attempted, succeeded and
    failed and the posts processed.  An error raised while a resolved
    channel's messages are read or stored ends the run with that error and
    nothing is committed.  The cutoff has to be an instant [datetime] can
    hold. *)
Lemma scrape_lookback_counts_resolution_failures
    (settings : Settings) (cl : client) (now now' : Z) (lookback : option Z) (db : Db.conn) :
  valid_instant (since_dt settings now lookback) ->
  (forallb (channel_clean cl (since_dt settings now lookback)) (channels settings) = true ->
   exists st log db',
     scrape_lookback settings cl now now' lookback db = (Ok (st, log), db')
     /\ channels_total st = Z.of_nat (List.length (channels settings))
     /\ channels_failed st = count_where (channel_failed cl) (channels settings)
     /\ channels_ok st = count_where (fun ch => negb (channel_failed cl ch)) (channels settings)
     /\ channels_ok st + channels_failed st = channels_total st
     /\ posts_processed st
        = sum_Z (map (channel_posts cl (since_dt settings now lookback)) (channels settings))
     /\ List.filter is_failure_record log = flat_map (failure_record cl) (channels settings))
  /\ (forallb (channel_clean cl (since_dt settings now lookback)) (channels settings) = false ->
      exists e, scrape_lookback settings cl now now' lookback db = (Raise e, db)).
Proof.
  intros _. split; intros Hc; unfold scrape_lookback.
  - destruct (scrape_channels_clean cl (since_dt settings now lookback) (utc_date now')
                (channels settings)
                {| stats := {| channels_total := Z.of_nat (List.length (channels settings));
                               channels_ok := 0; channels_failed := 0; posts_processed := 0 |};
                   conn := db; log := [LogInfo "Telegram client started."] |} Hc)
      as (st' & -> & Ht & Hf & Ho & Hp & Hl).
    cbn in *. exists (stats st'), (log st'), (conn st'). split; [reflexivity|].
    pose proof (count_where_split (channel_failed cl) (channels settings)).
    repeat split; try lia. exact Hl.
  - destruct (scrape_channels_unclean cl (since_dt settings now lookback) (utc_date now')
                (channels settings)
                {| stats := {| channels_total := Z.of_nat (List.length (channels settings));
                               channels_ok := 0; channels_failed := 0; posts_processed := 0 |};
                   conn := db; log := [LogInfo "Telegram client started."] |} Hc) as (e & ->).
    eauto.
Qed.

Lemma scrape_lookback_counts_resolution_failures_sample :
  (exists st log db',
     scrape_lookback (settings_of ["@mldaily"; "private"; "timeout"; "nobody"]) sample_client
       (at_hour 10 12) (at_hour 10 12) (Some 1) empty_db = (Ok (st, log), db')
     /\ channels_total st = 4 /\ channels_failed st = 3 /\ channels_ok st = 1
     /\ posts_processed st = 2
     /\ List.filter is_failure_record log
        = [ LogWarning "private" ChannelPrivateError;
            LogException "timeout" (OtherError "timed out");
            LogWarning "nobody" UsernameNotOccupiedError ])
  /\ (exists e,
        scrape_lookback (settings_of ["brackets"; "mldaily"]) sample_client
          (at_hour 10 12) (at_hour 10 12) (Some 1) empty_db = (Raise e, empty_db)).
Proof.
  assert (Hcut : forall chans,
             valid_instant (since_dt (settings_of chans) (at_hour 10 12) (Some 1)))
    by (intros chans; vm_compute; split; [discriminate | reflexivity]).
  split.
  - destruct (proj1 (scrape_lookback_counts_resolution_failures
                       (settings_of ["@mldaily"; "private"; "timeout"; "nobody"]) sample_client
                       (at_hour 10 12) (at_hour 10 12) (Some 1) empty_db (Hcut _)))
      as (st & log & db' & Hrun & Ht & Hf & Ho & _ & Hp & Hl);
      [vm_compute; reflexivity|].
    exists st, log, db'. split; [exact Hrun|].
    split; [exact Ht|]. split; [exact Hf|]. split; [exact Ho|]. split; [exact Hp | exact Hl].
  - apply (proj2 (scrape_lookback_counts_resolution_failures
                    (settings_of ["brackets"; "mldaily"]) sample_client
                    (at_hour 10 12) (at_hour 10 12) (Some 1) empty_db (Hcut _))).
    vm_compute. reflexivity.
Defined.

(** C1, at the failing input: an error of the message iterator is raised
    outside the [try] that guards channel resolution, so it is neither
    logged nor counted: it ends the run.  With the channel [flaky], whose
    iterator fails after its first message, the run returns no statistics,
    the channel that follows is never visited, and nothing is committed,
    not even the posts of a channel that was processed in full before;
    the same kind of error raised by [get_entity] is caught and counted,
    and without [flaky] the run returns statistics. *)
Theorem scrape_lookback_iterator_error_aborts_run :
  scrape_lookback (settings_of ["flaky"; "mldaily"]) sample_client
    (at_hour 10 12) (at_hour 10 12) (Some 1) empty_db
  = (Raise (OtherError "connection reset"), empty_db)
  /\ scrape_lookback (settings_of ["mldaily"; "flaky"]) sample_client
       (at_hour 10 12) (at_hour 10 12) (Some 1) empty_db
     = (Raise (OtherError "connection reset"), empty_db)
  /\ (exists st log db',
        scrape_lookback (settings_of ["timeout"; "mldaily"]) sample_client
          (at_hour 10 12) (at_hour 10 12) (Some 1) empty_db = (Ok (st, log), db')
        /\ channels_total st = 2 /\ channels_failed st = 1 /\ channels_ok st = 1
        /\ posts_processed st = 2
        /\ List.filter is_failure_record log = [LogException "timeout" (OtherError "timed out")]
        /\ List.length (posts db') = 2%nat)
  /\ (exists st log db',
        scrape_lookback (settings_of ["mldaily"]) sample_client
          (at_hour 10 12) (at_hour 10 12) (Some 1) empty_db = (Ok (st, log), db')
        /\ channels_failed st = 0 /\ posts_processed st = 2).
Proof.
  split; [vm_compute; reflexivity|]. split; [vm_compute; reflexivity|]. split.
  - do 3 eexists. split; [vm_compute; reflexivity|]. repeat split.
  - do 3 eexists. split; [vm_compute; reflexivity|]. repeat split.
Qed.

(** *** The text order of ISO dates and timestamps *)

Lemma digit_char_lt (a b : Z) :
  0 <= a -> a < b -> b <= 9 -> Ascii.compare (digit_char a) (digit_char b) = Lt.
Proof.
  intros Ha Hab Hb.
  assert (Ha' : a = 0 \/ a = 1 \/ a = 2 \/ a = 3 \/ a = 4 \/ a = 5 \/ a = 6 \/ a = 7 \/ a = 8)
    by lia.
  assert (Hb' : b = 1 \/ b = 2 \/ b = 3 \/ b = 4 \/ b = 5 \/ b = 6 \/ b = 7 \/ b = 8 \/ b = 9)
    by lia.
  repeat (destruct Ha' as [-> | Ha']); try subst a;
    repeat (destruct Hb' as [-> | Hb']); try subst b; try lia; reflexivity.
Qed.

(** Zero-padded numbers of one width compare as their values do. *)
Lemma digits_lt (w : nat) (a b : Z) (s1 s2 : string) :
  0 <= a -> a < b -> b < 10 ^ Z.of_nat w ->
  String.compare (digits w a +:+ s1) (digits w b +:+ s2) = Lt.
Proof.
  revert a b s1 s2. induction w as [|w IH]; intros a b s1 s2 Ha Hab Hb.
  - cbn in Hb. lia.
  - cbn [digits]. rewrite !str_app_assoc.
    assert (Hpow : 10 ^ Z.of_nat (S w) = 10 * 10 ^ Z.of_nat w).
    { rewrite Nat2Z.inj_succ, Z.pow_succ_r by lia. reflexivity. }
    rewrite Hpow in Hb.
    destruct (Z.eq_dec (a / 10) (b / 10)) as [Heq | Hne].
    + rewrite Heq, compare_app_same.
      change (String ?c EmptyString +:+ ?s) with (String c s). cbn [String.compare].
      rewrite digit_char_lt; [reflexivity | | |]; Z.div_mod_to_equations; lia.
    + apply IH; Z.div_mod_to_equations; lia.
Qed.

Lemma digits_same (w : nat) (a : Z) (s1 s2 : string) :
  String.compare (digits w a +:+ s1) (digits w a +:+ s2) = String.compare s1 s2.
Proof. apply compare_app_same. Qed.

(** *** The civil date *)

Lemma yoe_range (doe : Z) : 0 <= doe <= 146096 -> 0 <= yoe_of doe <= 399.
Proof. unfold yoe_of. intros. Z.div_mod_to_equations. lia. Qed.

Lemma doy_range (doe : Z) : 0 <= doe <= 146096 -> 0 <= doy_of doe <= 365.
Proof. unfold doy_of, yoe_of. intros. Z.div_mod_to_equations. lia. Qed.

Lemma yoe_mono (a b : Z) : 0 <= a <= b -> b <= 146096 -> yoe_of a <= yoe_of b.
Proof. unfold yoe_of. intros. Z.div_mod_to_equations. lia. Qed.

Lemma doy_mono (a b : Z) : a < b -> yoe_of a = yoe_of b -> doy_of a < doy_of b.
Proof. unfold doy_of. intros H ->. lia. Qed.

Lemma mp_range (doy : Z) : 0 <= doy <= 365 -> 0 <= mp_of doy <= 11.
Proof. unfold mp_of. intros. Z.div_mod_to_equations. lia. Qed.

Lemma dom_range (doy : Z) : 0 <= doy <= 365 -> 1 <= dom_of doy <= 31.
Proof. unfold dom_of, mp_of. intros. Z.div_mod_to_equations. lia. Qed.

Lemma mp_mono (a b : Z) : a <= b -> mp_of a <= mp_of b.
Proof. unfold mp_of. intros. Z.div_mod_to_equations. lia. Qed.

Lemma dom_mono (a b : Z) : a < b -> mp_of a = mp_of b -> dom_of a < dom_of b.
Proof. unfold dom_of. intros H ->. lia. Qed.

Lemma doe_range (z : Z) : 0 <= z - z / 146097 * 146097 <= 146096.
Proof. Z.div_mod_to_equations. lia. Qed.

Lemma civil_from_days_mono (d1 d2 : Z) :
  d1 < d2 -> civil_lt (civil_from_days d1) (civil_from_days d2).
Proof.
  intros Hd. unfold civil_lt, civil_from_days. cbv zeta. cbn [fst snd].
  set (z1 := d1 + 719468). set (z2 := d2 + 719468).
  assert (Hz : z1 < z2) by (subst z1 z2; lia).
  set (e1 := z1 / 146097). set (e2 := z2 / 146097).
  set (doe1 := z1 - e1 * 146097). set (doe2 := z2 - e2 * 146097).
  pose proof (doe_range z1) as Hr1. pose proof (doe_range z2) as Hr2.
  fold e1 doe1 in Hr1. fold e2 doe2 in Hr2.
  pose proof (yoe_range doe1 Hr1) as Hy1. pose proof (yoe_range doe2 Hr2) as Hy2.
  pose proof (doy_range doe1 Hr1) as Hdy1. pose proof (doy_range doe2 Hr2) as Hdy2.
  pose proof (mp_range _ Hdy1) as Hm1. pose proof (mp_range _ Hdy2) as Hm2.
  assert (He : e1 <= e2) by (subst e1 e2; apply Z.div_le_mono; lia).
  (* the year of the era-year pair and the day of that year grow together *)
  assert (Hlex : yoe_of doe1 + e1 * 400 < yoe_of doe2 + e2 * 400
                 \/ (yoe_of doe1 + e1 * 400 = yoe_of doe2 + e2 * 400
                     /\ doy_of doe1 < doy_of doe2)).
  { destruct (Z.eq_dec e1 e2) as [Heq | Hne]; [|left; lia].
    assert (Hdoe : doe1 < doe2) by (subst doe1 doe2; rewrite Heq; lia).
    pose proof (yoe_mono doe1 doe2 ltac:(lia) ltac:(lia)) as Hmono.
    destruct (Z.eq_dec (yoe_of doe1) (yoe_of doe2)) as [Hyeq | Hyne]; [|left; lia].
    right. split; [lia|]. now apply doy_mono. }
  generalize dependent (yoe_of doe1 + e1 * 400). intros Y1.
  generalize dependent (yoe_of doe2 + e2 * 400). intros Y2.
  intros Hlex.
  assert (Hmd : Y1 < Y2 \/ (Y1 = Y2
                /\ (mp_of (doy_of doe1) < mp_of (doy_of doe2)
                    \/ (mp_of (doy_of doe1) = mp_of (doy_of doe2)
                        /\ dom_of (doy_of doe1) < dom_of (doy_of doe2))))).
  { destruct Hlex as [H | [H Hdoy]]; [now left|]. right. split; [exact H|].
    pose proof (mp_mono _ _ (Z.lt_le_incl _ _ Hdoy)) as Hmp.
    destruct (Z.eq_dec (mp_of (doy_of doe1)) (mp_of (doy_of doe2))) as [Hmeq | Hmne];
      [|left; lia].
    right. split; [exact Hmeq|]. now apply dom_mono. }
  clear Hlex.
  generalize dependent (dom_of (doy_of doe1)). intros D1.
  generalize dependent (dom_of (doy_of doe2)). intros D2.
  generalize dependent (mp_of (doy_of doe1)). intros M1 HM1.
  generalize dependent (mp_of (doy_of doe2)). intros M2 HM2.
  intros Hmd.
  destruct (Z.ltb_spec M1 10), (Z.ltb_spec M2 10);
    repeat match goal with |- context [?a <=? ?b] => destruct (Z.leb_spec a b) end; lia.
Qed.

Lemma civil_from_days_bounds (d : Z) :
  valid_day d ->
  1 <= (civil_from_days d).1.1 <= 9999
  /\ 1 <= (civil_from_days d).1.2 <= 12
  /\ 1 <= (civil_from_days d).2 <= 31.
Proof.
  unfold valid_day, MIN_DAY, MAX_DAY. intros Hd.
  unfold civil_from_days. cbv zeta. cbn [fst snd].
  set (z := d + 719468). assert (Hz : 306 <= z <= 3652364) by (subst z; lia).
  set (e := z / 146097). set (doe := z - e * 146097).
  pose proof (doe_range z) as Hr. fold e doe in Hr.
  pose proof (yoe_range doe Hr) as Hy. pose proof (doy_range doe Hr) as Hdy.
  pose proof (mp_range _ Hdy) as Hm. pose proof (dom_range _ Hdy) as Hdm.
  assert (He : 0 <= e <= 24) by (subst e; Z.div_mod_to_equations; lia).
  (* the first and the last year of the range are cut at 1 January *)
  assert (Hlow : e = 0 -> yoe_of doe = 0 -> 10 <= mp_of (doy_of doe)).
  { intros He0 Hy0. assert (Hdoe : 306 <= doe) by (subst doe; rewrite He0; lia).
    unfold doy_of, mp_of. rewrite Hy0. Z.div_mod_to_equations. lia. }
  assert (Hhigh : e = 24 -> yoe_of doe = 399 -> mp_of (doy_of doe) < 10).
  { intros He24 Hy399. assert (Hdoe : doe <= 146036) by (subst doe; rewrite He24; lia).
    unfold doy_of, mp_of. rewrite Hy399. Z.div_mod_to_equations. lia. }
  generalize dependent (dom_of (doy_of doe)). intros D HD.
  generalize dependent (mp_of (doy_of doe)). intros M HM Hlow Hhigh.
  destruct (Z.ltb_spec M 10);
    repeat match goal with |- context [?a <=? ?b] => destruct (Z.leb_spec a b) end; lia.
Qed.

(** Steps over a separator that both texts share. *)
Ltac same_separator :=
  rewrite ?str_app_assoc, ?str_app_cons, ?str_app_nil_l;
  cbn [String.compare]; rewrite ascii_compare_refl.

Lemma date_isoformat_lt (d1 d2 : Z) (s1 s2 : string) :
  valid_day d1 -> valid_day d2 -> d1 < d2 ->
  String.compare (date_isoformat d1 +:+ s1) (date_isoformat d2 +:+ s2) = Lt.
Proof.
  intros H1 H2 Hd. unfold date_isoformat.
  pose proof (civil_from_days_bounds d1 H1) as (Hy1 & Hm1 & Hdd1).
  pose proof (civil_from_days_bounds d2 H2) as (Hy2 & Hm2 & Hdd2).
  pose proof (civil_from_days_mono d1 d2 Hd) as Hlt. unfold civil_lt in Hlt.
  destruct (civil_from_days d1) as [[y1 m1] dd1]. destruct (civil_from_days d2) as [[y2 m2] dd2].
  cbn [fst snd] in *. rewrite !str_app_assoc.
  destruct Hlt as [Hy | [-> [Hm | [-> Hdd]]]].
  - apply digits_lt; cbn; lia.
  - rewrite digits_same. same_separator. apply digits_lt; cbn; lia.
  - rewrite digits_same. same_separator. rewrite digits_same. same_separator.
    apply digits_lt; cbn; lia.
Qed.

(** The text order of [date.isoformat()] is the order of the dates. *)
Lemma date_isoformat_compare (d1 d2 : Z) :
  valid_day d1 -> valid_day d2 ->
  String.compare (date_isoformat d1) (date_isoformat d2) = (d1 ?= d2).
Proof.
  intros H1 H2.
  assert (Hnil : forall s, s +:+ EmptyString = s).
  { induction s as [|c s IH]; [reflexivity | now rewrite str_app_cons, IH]. }
  destruct (Z.compare_spec d1 d2) as [-> | Hlt | Hgt].
  - apply compare_refl.
  - rewrite <- (Hnil (date_isoformat d1)), <- (Hnil (date_isoformat d2)).
    now apply date_isoformat_lt.
  - rewrite String.compare_antisym.
    rewrite <- (Hnil (date_isoformat d1)), <- (Hnil (date_isoformat d2)).
    now rewrite date_isoformat_lt.
Qed.

(** *** Timestamps *)

Lemma time_isoformat_lt (u1 u2 : Z) :
  0 <= u1 -> u1 < u2 -> u2 < MICROSECONDS_PER_DAY ->
  String.compare (time_isoformat u1 +:+ "+00:00") (time_isoformat u2 +:+ "+00:00") = Lt.
Proof.
  unfold MICROSECONDS_PER_DAY, time_isoformat. intros H0 Hlt Hmax. cbv zeta.
  set (c1 := u1 / 1000000). set (c2 := u2 / 1000000).
  set (f1 := u1 mod 1000000). set (f2 := u2 mod 1000000).
  assert (Hc : 0 <= c1 <= c2 /\ c2 < 86400) by (subst c1 c2; Z.div_mod_to_equations; lia).
  assert (Hf : 0 <= f1 < 1000000 /\ 0 <= f2 < 1000000)
    by (subst f1 f2; Z.div_mod_to_equations; lia).
  assert (Hsame : c1 = c2 -> f1 < f2) by (subst c1 c2 f1 f2; Z.div_mod_to_equations; lia).
  clearbody c1 c2 f1 f2. clear H0 Hlt Hmax. rewrite !str_app_assoc.
  destruct (Z.eq_dec (c1 / 3600) (c2 / 3600)) as [Hh | Hh];
    [rewrite Hh, digits_same; same_separator
    | apply digits_lt; [| |cbn]; Z.div_mod_to_equations; lia].
  destruct (Z.eq_dec (c1 / 60 mod 60) (c2 / 60 mod 60)) as [Hm | Hm];
    [rewrite Hm, digits_same; same_separator
    | apply digits_lt; [| |cbn]; Z.div_mod_to_equations; lia].
  destruct (Z.eq_dec (c1 mod 60) (c2 mod 60)) as [Hs | Hs];
    [rewrite Hs, digits_same
    | apply digits_lt; [| |cbn]; Z.div_mod_to_equations; lia].
  assert (Hceq : c1 = c2) by (Z.div_mod_to_equations; lia).
  specialize (Hsame Hceq).
  destruct (Z.eqb_spec f2 0) as [Hf2 | Hf2]; [lia|].
  destruct (Z.eqb_spec f1 0) as [Hf1 | Hf1]; [reflexivity|].
  same_separator. apply digits_lt; cbn; lia.
Qed.

Lemma isoformat_lt (t1 t2 : Z) :
  valid_instant t1 -> valid_instant t2 -> t1 < t2 ->
  String.compare (isoformat t1) (isoformat t2) = Lt.
Proof.
  unfold valid_instant, isoformat, utc_date. intros H1 H2 Hlt.
  assert (Hd1 : valid_day (t1 / MICROSECONDS_PER_DAY)).
  { unfold valid_day, MICROSECONDS_PER_DAY in *. Z.div_mod_to_equations. lia. }
  assert (Hd2 : valid_day (t2 / MICROSECONDS_PER_DAY)).
  { unfold valid_day, MICROSECONDS_PER_DAY in *. Z.div_mod_to_equations. lia. }
  destruct (Z.eq_dec (t1 / MICROSECONDS_PER_DAY) (t2 / MICROSECONDS_PER_DAY)) as [Heq | Hne].
  - rewrite Heq, compare_app_same. same_separator.
    apply time_isoformat_lt; unfold MICROSECONDS_PER_DAY in *; Z.div_mod_to_equations; lia.
  - apply date_isoformat_lt; [exact Hd1 | exact Hd2 |].
    unfold MICROSECONDS_PER_DAY in *. Z.div_mod_to_equations. lia.
Qed.

(** The text order of [datetime.isoformat()] on UTC timestamps is the
    order of time. *)
Lemma isoformat_compare (t1 t2 : Z) :
  valid_instant t1 -> valid_instant t2 ->
  String.compare (isoformat t1) (isoformat t2) = (t1 ?= t2).
Proof.
  intros H1 H2. destruct (Z.compare_spec t1 t2) as [-> | Hlt | Hgt].
  - apply compare_refl.
  - now apply isoformat_lt.
  - rewrite String.compare_antisym. now rewrite isoformat_lt.
Qed.

(** The texts of some timestamps, the first and the last one that
    [datetime] has among them. *)
Lemma isoformat_samples :
  isoformat 1709251199000001 = "2024-02-29T23:59:59.000001+00:00"
  /\ isoformat (-62135596800000000) = "0001-01-01T00:00:00+00:00"
  /\ isoformat 253402300799999999 = "9999-12-31T23:59:59.999999+00:00"
  /\ isoformat 951868800000000 = "2000-03-01T00:00:00+00:00"
  /\ isoformat (-2203932594880000) = "1900-02-28T12:30:05.120000+00:00"
  /\ date_isoformat 19782 = "2024-02-29"
  /\ date_isoformat MIN_DAY = "0001-01-01"
  /\ date_isoformat (MAX_DAY - 1) = "9999-12-31".
Proof. repeat split; vm_compute; reflexivity. Qed.

End ServiceSpec.

(** ** The structured export *)

Module JsonSpec.

Import Json JsonProps StrSpec.

(** *** Strings *)

Lemma str_app_length (a b : string) :
  String.length (a +:+ b) = (String.length a + String.length b)%nat.
Proof.
  induction a as [|x a IH]; [reflexivity | rewrite str_app_cons; cbn [String.length]; now rewrite IH].
Qed.

Lemma scan_escape_char (c : ascii) (r : string) :
  scan_string (escape_char c +:+ r) = cons_char c (scan_string r).
Proof.
  destruct c as [[] [] [] [] [] [] [] []]; reflexivity.
Qed.

Lemma scan_escape (s rest : string) :
  scan_string (escape s +:+ String dq rest) = Some (s, rest).
Proof.
  induction s as [|c s IH]; [reflexivity|].
  cbn [escape]. rewrite str_app_assoc, scan_escape_char, IH. reflexivity.
Qed.

Lemma scan_encode_string (s rest : string) :
  exists r, encode_string s +:+ rest = String dq r /\ scan_string r = Some (s, rest).
Proof.
  exists (escape s +:+ String dq rest). split; [|apply scan_escape].
  unfold encode_string. rewrite str_app_cons, str_app_assoc. reflexivity.
Qed.

(** *** Integers *)

Lemma pretty_N_char_digit (d : N) :
  (d < 10)%N ->
  Str.is_digit (pretty_N_char d) = true /\ digit_value (pretty_N_char d) = Z.of_N d
  /\ (d <> 0%N -> Ascii.eqb (pretty_N_char d) "0" = false).
Proof.
  intros Hd.
  assert (H : (d = 0 \/ d = 1 \/ d = 2 \/ d = 3 \/ d = 4 \/ d = 5 \/ d = 6 \/ d = 7
               \/ d = 8 \/ d = 9)%N) by lia.
  repeat (destruct H as [-> | H]); try subst d; repeat split; try reflexivity; intros; congruence.
Qed.

Lemma scan_digits_pretty (x : N) :
  exists k, forall s acc,
    scan_digits (pretty_N_go x s) acc = scan_digits s (acc * k + Z.of_N x).
Proof.
  induction x as [x IH] using (well_founded_induction N.lt_wf_0).
  destruct (N.eq_dec x 0%N) as [-> | Hx].
  - exists 1. intros s acc. rewrite pretty_N_go_0. f_equal. lia.
  - assert (Hpos : (0 < x)%N) by lia.
    destruct (IH (x / 10)%N) as (k & Hk); [apply N.div_lt; lia|].
    exists (10 * k). intros s acc. rewrite pretty_N_go_step by exact Hpos.
    rewrite Hk. cbn [scan_digits].
    destruct (pretty_N_char_digit (x mod 10)) as (Hd & Hv & _); [apply N.mod_lt; lia|].
    rewrite Hd, Hv. f_equal.
    rewrite (N.div_mod x 10) at 3 by lia. rewrite N2Z.inj_add, N2Z.inj_mul. cbn. lia.
Qed.

Lemma pretty_N_go_head (x : N) (s : string) :
  (0 < x)%N ->
  exists c r, pretty_N_go x s = String c r
              /\ Str.is_digit c = true /\ Ascii.eqb c "0" = false.
Proof.
  revert s. induction x as [x IH] using (well_founded_induction N.lt_wf_0). intros s Hpos.
  rewrite pretty_N_go_step by exact Hpos.
  destruct (N.eq_dec (x / 10)%N 0%N) as [Hq | Hq].
  - rewrite Hq, pretty_N_go_0.
    destruct (pretty_N_char_digit (x mod 10)) as (Hd & _ & Hnz); [apply N.mod_lt; lia|].
    do 2 eexists. split; [reflexivity|]. split; [exact Hd|]. apply Hnz.
    intros Hm. pose proof (N.div_mod x 10%N ltac:(lia)) as Hdm. rewrite Hq, Hm in Hdm. lia.
  - apply IH; [apply N.div_lt; lia | now apply N.neq_0_lt_0].
Qed.

Lemma pretty_N_go_app (x : N) (s : string) : pretty_N_go x s = pretty_N_go x EmptyString +:+ s.
Proof.
  revert s. induction x as [x IH] using (well_founded_induction N.lt_wf_0). intros s.
  destruct (N.eq_dec x 0%N) as [-> | Hx]; [now rewrite !pretty_N_go_0|].
  rewrite (pretty_N_go_step x s), (pretty_N_go_step x EmptyString) by lia.
  assert (Hlt : (x / 10 < x)%N) by (apply N.div_lt; lia).
  rewrite (IH (x / 10)%N Hlt (String (pretty_N_char (x mod 10)) s)).
  rewrite (IH (x / 10)%N Hlt (String (pretty_N_char (x mod 10)) EmptyString)).
  now rewrite str_app_assoc.
Qed.

Lemma scan_digits_stop (rest : string) (acc : Z) :
  number_stop rest = true -> scan_digits rest acc = (acc, rest).
Proof.
  destruct rest as [|c r]; [reflexivity|]. cbn. intros H.
  apply andb_true_iff in H as [H _]. apply negb_true_iff in H. now rewrite H.
Qed.

Lemma number_stop_ends_integer (rest : string) :
  number_stop rest = true -> ends_integer rest = true.
Proof.
  destruct rest as [|c r]; [reflexivity|]. cbn. intros H.
  now apply andb_true_iff in H as [_ H].
Qed.

Lemma scan_natural_pretty (p : positive) (rest : string) :
  number_stop rest = true ->
  scan_natural (pretty (N.pos p) +:+ rest) = Some (Z.pos p, rest).
Proof.
  intros Hstop. unfold pretty, pretty_N. cbn [decide]. 
  destruct (decide (N.pos p = 0%N)) as [H | _]; [discriminate|].
  rewrite <- pretty_N_go_app.
  destruct (pretty_N_go_head (N.pos p) rest) as (c & r & Heq & Hd & Hnz); [lia|].
  unfold scan_natural. rewrite Heq, Hnz, Hd, <- Heq.
  destruct (scan_digits_pretty (N.pos p)) as (k & Hk). rewrite Hk.
  rewrite scan_digits_stop by exact Hstop. do 2 f_equal.
Qed.

Lemma scan_int_digit (c : ascii) (r : string) :
  Str.is_digit c = true ->
  scan_int (String c r)
  = match scan_natural (String c r) with
    | Some (n, rest) => if ends_integer rest then Some (n, rest) else None
    | None => None
    end.
Proof. destruct c as [[] [] [] [] [] [] [] []]; intros H; try discriminate H; reflexivity. Qed.

Lemma pretty_pos_head (p : positive) (rest : string) :
  exists c r, pretty (N.pos p) +:+ rest = String c r /\ Str.is_digit c = true.
Proof.
  unfold pretty, pretty_N. destruct (decide (N.pos p = 0%N)); [discriminate|].
  rewrite <- pretty_N_go_app.
  destruct (pretty_N_go_head (N.pos p) rest) as (c & r & Heq & Hd & _); [lia|]. eauto.
Qed.

Lemma scan_int_pretty (z : Z) (rest : string) :
  number_stop rest = true ->
  scan_int (pretty z +:+ rest) = Some (z, rest)
  /\ exists c r, pretty z +:+ rest = String c r /\ (c = "-"%char \/ Str.is_digit c = true).
Proof.
  intros Hstop. pose proof (number_stop_ends_integer rest Hstop) as Hend.
  destruct z as [|p|p].
  - change (pretty 0 +:+ rest) with (String "0" rest).
    split; [|do 2 eexists; split; [reflexivity | right; reflexivity]].
    unfold scan_int. cbn -[ends_integer]. now rewrite Hend.
  - change (pretty (Z.pos p)) with (pretty (N.pos p)).
    destruct (pretty_pos_head p rest) as (c & r & Heq & Hd).
    split; [|exists c, r; auto].
    rewrite Heq, (scan_int_digit c r Hd), <- Heq, scan_natural_pretty by exact Hstop.
    now rewrite Hend.
  - change (pretty (Z.neg p) +:+ rest) with (String "-" (pretty (N.pos p) +:+ rest)).
    split; [|do 2 eexists; split; [reflexivity | left; reflexivity]].
    unfold scan_int. rewrite scan_natural_pretty by exact Hstop.
    now rewrite Hend.
Qed.

(** *** Values *)

Lemma json_nested_ind (P : json -> Prop) :
  P JNull -> (forall n, P (JInt n)) -> (forall s, P (JStr s)) ->
  (forall l, List.Forall P l -> P (JList l)) ->
  (forall l, List.Forall (fun kv => P (snd kv)) l -> P (JDict l)) ->
  forall v, P v.
Proof.
  intros Hnull Hint Hstr Hlist Hdict. fix IH 1. intros [| n | s | l | l].
  - exact Hnull.
  - apply Hint.
  - apply Hstr.
  - apply Hlist. induction l as [|x l IHl]; constructor; [apply IH | exact IHl].
  - apply Hdict. induction l as [|[k x] l IHl]; constructor; [apply IH | exact IHl].
Qed.

Lemma dumps_head (v : json) (level : nat) (rest : string) :
  exists c r, dumps_at level v +:+ rest = String c r /\ is_value_start c = true.
Proof.
  destruct v as [| n | s | [|x l] | [|[k x] l]]; try (do 2 eexists; split; [reflexivity|reflexivity]).
  destruct (scan_int_pretty n EmptyString eq_refl) as (_ & c & r & Heq & Hc). cbn [dumps_at].
  revert Heq. destruct (pretty n) as [|c' r'] eqn:Hp; [discriminate|].
  rewrite !str_app_cons. intros [= <- _]. do 2 eexists. split; [reflexivity|].
  unfold is_value_start. destruct Hc as [-> | ->]; [reflexivity | now rewrite !orb_true_r].
Qed.

Lemma skip_ws_start (c : ascii) (r : string) :
  is_value_start c = true -> skip_ws (String c r) = String c r.
Proof. destruct c as [[] [] [] [] [] [] [] []]; intros H; try discriminate H; reflexivity. Qed.

Lemma skip_ws_spaces (n : nat) (s : string) : skip_ws (spaces n +:+ s) = skip_ws s.
Proof. induction n as [|n IH]; [reflexivity | exact IH]. Qed.

Lemma skip_ws_newline_indent (level : nat) (s : string) :
  skip_ws (newline_indent level +:+ s) = skip_ws s.
Proof. unfold newline_indent. rewrite str_app_cons. cbn [skip_ws]. apply skip_ws_spaces. Qed.

Lemma skip_ws_dumps (v : json) (level : nat) (rest : string) :
  skip_ws (dumps_at level v +:+ rest) = dumps_at level v +:+ rest.
Proof.
  destruct (dumps_head v level rest) as (c & r & -> & Hc). now apply skip_ws_start.
Qed.

Lemma scan_value_number (fuel : nat) (c : ascii) (r : string) :
  c = "-"%char \/ Str.is_digit c = true ->
  scan_value (S fuel) (String c r)
  = match scan_int (String c r) with
    | Some (n, rest) => Some (JInt n, rest)
    | None => None
    end.
Proof.
  destruct c as [[] [] [] [] [] [] [] []]; intros [H | H]; try discriminate H; reflexivity.
Qed.

Lemma scan_value_list (fuel : nat) (r : string) (c : ascii) (r0 : string) :
  skip_ws r = String c r0 -> is_value_start c = true ->
  scan_value (S fuel) (String "[" r)
  = match scan_items fuel (String c r0) with
    | Some (items, rest) => Some (JList items, rest)
    | None => None
    end.
Proof.
  intros Hr Hc. cbn [scan_value]. change (Ascii.eqb "[" dq) with false.
  change (Ascii.eqb "[" "[") with true. cbv iota. rewrite Hr.
  destruct c as [[] [] [] [] [] [] [] []]; try discriminate Hc; reflexivity.
Qed.

Lemma scan_value_dict (fuel : nat) (r : string) (r0 : string) :
  skip_ws r = String dq r0 ->
  scan_value (S fuel) (String "{" r)
  = match scan_fields fuel (String dq r0) with
    | Some (fields, rest) => Some (JDict fields, rest)
    | None => None
    end.
Proof.
  intros Hr. cbn [scan_value]. change (Ascii.eqb "{" dq) with false.
  change (Ascii.eqb "{" "[") with false. change (Ascii.eqb "{" "{") with true.
  cbv iota. rewrite Hr. reflexivity.
Qed.

Lemma number_stop_newline (level : nat) (s : string) :
  number_stop (newline_indent level +:+ s) = true.
Proof. reflexivity. Qed.

Lemma number_stop_comma (s : string) : number_stop ("," +:+ s) = true.
Proof. reflexivity. Qed.

Lemma scan_items_dumps (xs : list json) :
  List.Forall reads_back xs ->
  forall x level rest fuel,
    reads_back x -> number_stop rest = true ->
    (list_sum (map (fun y => S (size y)) (x :: xs)) <= fuel)%nat ->
    scan_items fuel
      (dumps_at (S level) x +:+ dumps_items (dumps_at (S level)) level xs +:+ rest)
    = Some (x :: xs, rest).
Proof.
  induction 1 as [|y ys Hy Hys IH]; intros x level rest fuel Hx Hstop Hfuel;
    cbn [list_sum map fold_right] in Hfuel; (destruct fuel as [|fuel]; [lia|]); cbn [scan_items dumps_items].
  - rewrite !str_app_assoc.
    rewrite (Hx (S level) _ fuel (number_stop_newline level _)) by lia.
    rewrite skip_ws_newline_indent. reflexivity.
  - rewrite !str_app_assoc.
    rewrite (Hx (S level) _ fuel (number_stop_comma _)) by lia.
    change (skip_ws ("," +:+ ?s)) with (String "," s). cbv iota.
    rewrite skip_ws_newline_indent, skip_ws_dumps.
    rewrite (IH y level rest fuel Hy Hstop) by (cbn [list_sum map fold_right]; lia).
    reflexivity.
Qed.

Lemma scan_fields_key (fuel : nat) (k : string) (tail : string) :
  scan_fields (S fuel) (encode_string k +:+ ": " +:+ tail)
  = match scan_value fuel (skip_ws tail) with
    | None => None
    | Some (v, rest'') =>
        match skip_ws rest'' with
        | String "}" rest3 => Some ([(k, v)], rest3)
        | String "," rest3 =>
            match scan_fields fuel (skip_ws rest3) with
            | Some (fs, rest4) => Some ((k, v) :: fs, rest4)
            | None => None
            end
        | _ => None
        end
    end.
Proof.
  destruct (scan_encode_string k (": " +:+ tail)) as (r & Heq & Hscan).
  rewrite Heq. cbn [scan_fields]. change (Ascii.eqb dq dq) with true. cbv iota.
  rewrite Hscan. reflexivity.
Qed.

Lemma skip_ws_encode_string (k : string) (tail : string) :
  skip_ws (encode_string k +:+ tail) = encode_string k +:+ tail.
Proof. reflexivity. Qed.

Lemma scan_fields_dumps (xs : list (string * json)) :
  List.Forall (fun kv => reads_back (snd kv)) xs ->
  forall k x level rest fuel,
    reads_back x -> number_stop rest = true ->
    (list_sum (map (fun kv => S (size (snd kv))) ((k, x) :: xs)) <= fuel)%nat ->
    scan_fields fuel
      (encode_string k +:+ ": " +:+ dumps_at (S level) x
       +:+ dumps_fields (dumps_at (S level)) level xs +:+ rest)
    = Some ((k, x) :: xs, rest).
Proof.
  induction 1 as [|[k' y] ys Hy Hys IH]; intros k x level rest fuel Hx Hstop Hfuel;
    cbn [list_sum map fold_right snd] in Hfuel; (destruct fuel as [|fuel]; [lia|]);
    rewrite scan_fields_key, skip_ws_dumps; cbn [dumps_fields]; rewrite !str_app_assoc.
  - rewrite (Hx (S level) _ fuel (number_stop_newline level _)) by lia.
    rewrite skip_ws_newline_indent. reflexivity.
  - rewrite (Hx (S level) _ fuel (number_stop_comma _)) by lia.
    change (skip_ws ("," +:+ ?s)) with (String "," s). cbv iota.
    rewrite skip_ws_newline_indent, skip_ws_encode_string.
    cbn [snd] in Hy.
    rewrite (IH k' y level rest fuel Hy Hstop) by (cbn [list_sum map fold_right snd]; lia).
    reflexivity.
Qed.

Lemma scan_dumps (v : json) : reads_back v.
Proof.
  induction v as [| n | s | l IH | l IH] using json_nested_ind;
    intros level rest fuel Hstop Hfuel.
  - destruct fuel as [|fuel]; [cbn in Hfuel; lia | reflexivity].
  - destruct fuel as [|fuel]; [cbn in Hfuel; lia|]. cbn [dumps_at].
    destruct (scan_int_pretty n rest Hstop) as (Hscan & c & r & Heq & Hc).
    rewrite Heq, (scan_value_number fuel c r Hc), <- Heq, Hscan. reflexivity.
  - destruct fuel as [|fuel]; [cbn in Hfuel; lia|]. cbn [dumps_at].
    destruct (scan_encode_string s rest) as (r & Heq & Hscan).
    rewrite Heq. cbn [scan_value]. change (Ascii.eqb dq dq) with true. cbv iota.
    now rewrite Hscan.
  - destruct fuel as [|fuel]; [cbn in Hfuel; lia|].
    destruct l as [|x xs]; [reflexivity|].
    apply Forall_cons in IH as [Hx Hxs]. cbn [dumps_at]. rewrite !str_app_assoc.
    destruct (dumps_head x (S level) (dumps_items (dumps_at (S level)) level xs +:+ rest))
      as (c & r & Heq & Hc).
    rewrite str_app_cons. change (EmptyString +:+ ?s) with s.
    rewrite (scan_value_list fuel _ c r); [| |exact Hc].
    + rewrite <- Heq. rewrite (scan_items_dumps xs Hxs x level rest fuel Hx Hstop);
        [reflexivity|]. cbn [size] in Hfuel. lia.
    + rewrite skip_ws_newline_indent, skip_ws_dumps. exact Heq.
  - destruct fuel as [|fuel]; [cbn in Hfuel; lia|].
    destruct l as [|[k x] xs]; [reflexivity|].
    apply Forall_cons in IH as [Hx Hxs]. cbn [snd] in Hx. cbn [dumps_at]. rewrite !str_app_assoc.
    rewrite str_app_cons. change (EmptyString +:+ ?s) with s.
    destruct (scan_encode_string k (": " +:+ dumps_at (S level) x
                +:+ dumps_fields (dumps_at (S level)) level xs +:+ rest))
      as (r & Heq & _).
    rewrite (scan_value_dict fuel _ r).
    + rewrite <- Heq. rewrite (scan_fields_dumps xs Hxs k x level rest fuel Hx Hstop);
        [reflexivity|]. cbn [size] in Hfuel. lia.
    + rewrite skip_ws_newline_indent, skip_ws_encode_string. exact Heq.
Qed.

Lemma newline_indent_length (level : nat) : (1 <= String.length (newline_indent level))%nat.
Proof. unfold newline_indent. cbn [String.length]. lia. Qed.

Lemma size_le_length (v : json) (level : nat) :
  (size v <= String.length (dumps_at level v))%nat.
Proof.
  revert level. induction v as [| n | s | l IH | l IH] using json_nested_ind; intros level.
  - cbn. lia.
  - destruct (dumps_head (JInt n) level EmptyString) as (c & r & Heq & _).
    cbn [dumps_at] in *. assert (Hlen := f_equal String.length Heq).
    rewrite str_app_length in Hlen. cbn in Hlen. cbn [size]. lia.
  - cbn. lia.
  - destruct l as [|x xs]; [cbn; lia|].
    apply Forall_cons in IH as [Hx Hxs]. cbn [dumps_at size map list_sum fold_right].
    rewrite !str_app_length. specialize (Hx (S level)).
    assert (Hrest : (list_sum (map (fun y => S (size y)) xs)
                     <= String.length (dumps_items (dumps_at (S level)) level xs))%nat).
    { clear Hx. induction Hxs as [|y ys Hy Hys IHys]; cbn [map list_sum fold_right dumps_items].
      - lia.
      - rewrite !str_app_length. specialize (Hy (S level)). cbn [String.length].
        pose proof (newline_indent_length (S level)). unfold list_sum in IHys. lia. }
    cbn [String.length]. pose proof (newline_indent_length (S level)).
    unfold list_sum in Hrest. lia.
  - destruct l as [|[k x] xs]; [cbn; lia|].
    apply Forall_cons in IH as [Hx Hxs]. cbn [snd] in Hx.
    cbn [dumps_at size map list_sum fold_right snd].
    rewrite !str_app_length. specialize (Hx (S level)).
    assert (Hrest : (list_sum (map (fun kv => S (size (snd kv))) xs)
                     <= String.length (dumps_fields (dumps_at (S level)) level xs))%nat).
    { clear Hx. induction Hxs as [|[k' y] ys Hy Hys IHys];
        cbn [map list_sum fold_right dumps_fields snd].
      - lia.
      - rewrite !str_app_length. cbn [snd] in Hy. specialize (Hy (S level)). cbn [String.length].
        pose proof (newline_indent_length (S level)). unfold list_sum in IHys. lia. }
    cbn [String.length]. pose proof (newline_indent_length (S level)).
    unfold list_sum in Hrest. lia.
Qed.

(** Reading back what [dumps] wrote gives the value that was written. *)
Lemma str_app_nil_r (s : string) : s +:+ EmptyString = s.
Proof. induction s as [|c s IH]; [reflexivity | now rewrite str_app_cons, IH]. Qed.

Lemma loads_dumps (v : json) : loads (dumps v) = Some v.
Proof.
  unfold loads, dumps.
  assert (Hskip : skip_ws (dumps_at 0 v) = dumps_at 0 v).
  { pose proof (skip_ws_dumps v 0%nat EmptyString) as H. now rewrite str_app_nil_r in H. }
  assert (Hscan : scan_value (S (String.length (dumps_at 0 v))) (dumps_at 0 v) = Some (v, EmptyString)).
  { pose proof (scan_dumps v 0%nat EmptyString (S (String.length (dumps_at 0 v))) eq_refl) as H.
    rewrite str_app_nil_r in H. apply H. pose proof (size_le_length v 0%nat). lia. }
  rewrite Hskip, Hscan. reflexivity.
Qed.

End JsonSpec.

(** ** reporting.py *)

Module ReportingSpec.

Import Extractors Db Json Reporting DbProps ReportingProps Samples DbSpec StrSpec JsonSpec.

(** *** The rank order *)

Lemma rank_leb_spec (a b : candidate) : rank_leb a b = true <-> candidate_before a b.
Proof.
  unfold rank_leb, rank_compare, candidate_before, ranks_before.
  destruct (Z.compare_spec (c_latest_reactions b) (c_latest_reactions a)) as [H1|H1|H1].
  - destruct (Z.compare_spec (c_reactions_growth b) (c_reactions_growth a)) as [H2|H2|H2].
    + destruct (String.compare (c_post_datetime b) (c_post_datetime a)) eqn:H3;
        (split; [intros ?; right; split; [lia|]; right; split; [lia|]; congruence
                | intros [?|[? [?|[? ?]]]]; try lia; congruence]).
    + split; [intros _; right; split; [lia|]; left; lia | reflexivity].
    + split; [discriminate | intros [?|[? [?|[? ?]]]]; lia].
  - split; [intros _; left; lia | reflexivity].
  - split; [discriminate | intros [?|[? [?|[? ?]]]]; lia].
Qed.

Lemma compare_not_gt_trans (a b c : string) :
  String.compare a b <> Gt -> String.compare b c <> Gt -> String.compare a c <> Gt.
Proof.
  intros Hab Hbc.
  destruct (String.compare a b) eqn:H1; [| |congruence].
  - apply String.compare_eq_iff in H1. now subst b.
  - destruct (String.compare b c) eqn:H2; [| |congruence].
    + apply String.compare_eq_iff in H2. subst c. rewrite H1. discriminate.
    + rewrite (compare_lt_trans a b c H1 H2). discriminate.
Qed.

Lemma compare_not_gt_total (a b : string) :
  String.compare a b <> Gt \/ String.compare b a <> Gt.
Proof.
  rewrite (String.compare_antisym a b).
  destruct (String.compare b a); cbn; [left | right | left]; discriminate.
Qed.

Lemma ranks_before_trans l1 g1 t1 l2 g2 t2 l3 g3 t3 :
  ranks_before l1 g1 t1 l2 g2 t2 -> ranks_before l2 g2 t2 l3 g3 t3 ->
  ranks_before l1 g1 t1 l3 g3 t3.
Proof.
  unfold ranks_before.
  intros [H1 | [H1 [H1' | [H1' H1'']]]] [H2 | [H2 [H2' | [H2' H2'']]]];
    try (left; lia); try (right; split; [lia|]; left; lia).
  right. split; [lia|]. right. split; [lia|]. eapply compare_not_gt_trans; eauto.
Qed.

Lemma ranks_before_total l1 g1 t1 l2 g2 t2 :
  ranks_before l1 g1 t1 l2 g2 t2 \/ ranks_before l2 g2 t2 l1 g1 t1.
Proof.
  unfold ranks_before.
  destruct (Z.lt_trichotomy l1 l2) as [H | [H | H]];
    [right; left; lia | | left; left; lia].
  destruct (Z.lt_trichotomy g1 g2) as [H' | [H' | H']];
    [right; right; split; [lia|]; left; lia | | left; right; split; [lia|]; left; lia].
  destruct (compare_not_gt_total t2 t1);
    [left | right]; right; (split; [lia|]); right; (split; [lia|]); assumption.
Qed.

(** *** ORDER BY *)

Lemma insert_ranked_In (x y : candidate) (l : list candidate) :
  In y (insert_ranked x l) <-> y = x \/ In y l.
Proof.
  induction l as [|z l IH]; cbn; [intuition auto|].
  destruct (rank_leb x z); cbn; [intuition auto|]. rewrite IH. intuition auto.
Qed.

Lemma insert_ranked_sorted (x : candidate) (l : list candidate) :
  StronglySorted candidate_before l -> StronglySorted candidate_before (insert_ranked x l).
Proof.
  induction l as [|z l IH]; cbn; intros Hs; [repeat constructor|].
  apply StronglySorted_inv in Hs as [Hs Hz].
  destruct (rank_leb x z) eqn:Hxz.
  - apply rank_leb_spec in Hxz. constructor; [now constructor|]. constructor; [exact Hxz|].
    eapply List.Forall_impl; [|exact Hz]. cbn. intros w Hw.
    eapply ranks_before_trans; eauto.
  - assert (Hzx : candidate_before z x).
    { destruct (ranks_before_total
                  (c_latest_reactions x) (c_reactions_growth x) (c_post_datetime x)
                  (c_latest_reactions z) (c_reactions_growth z) (c_post_datetime z))
        as [H | H]; [|exact H].
      apply rank_leb_spec in H. congruence. }
    constructor; [now apply IH|].
    apply List.Forall_forall. intros w Hw. apply insert_ranked_In in Hw as [-> | Hw];
      [exact Hzx|]. rewrite List.Forall_forall in Hz. now apply Hz.
Qed.

Lemma order_by_rank_sorted (l : list candidate) :
  StronglySorted candidate_before (order_by_rank l).
Proof.
  induction l as [|x l IH]; cbn; [constructor | now apply insert_ranked_sorted].
Qed.

Lemma order_by_rank_In (l : list candidate) (y : candidate) :
  In y (order_by_rank l) <-> In y l.
Proof.
  induction l as [|x l IH]; cbn; [tauto|]. rewrite insert_ranked_In, IH. intuition auto.
Qed.

Lemma order_by_rank_length (l : list candidate) :
  List.length (order_by_rank l) = List.length l.
Proof.
  assert (H : forall x l, List.length (insert_ranked x l) = S (List.length l)).
  { intros x l0. induction l0 as [|z l0 IH]; cbn; [reflexivity|].
    destruct (rank_leb x z); cbn; [reflexivity | now rewrite IH]. }
  induction l as [|x l IH]; cbn; [reflexivity | rewrite H; f_equal; exact IH].
Qed.

Lemma firstn_In {A} (n : nat) (l : list A) (x : A) : In x (firstn n l) -> In x l.
Proof.
  revert n. induction l as [|y l IH]; intros [|n]; cbn; try tauto.
  intros [-> | H]; [now left | right; eauto].
Qed.

Lemma StronglySorted_firstn {A} (R : A -> A -> Prop) (n : nat) (l : list A) :
  StronglySorted R l -> StronglySorted R (firstn n l).
Proof.
  revert n. induction l as [|x l IH]; intros [|n] Hs; cbn; try constructor.
  - apply IH. now apply StronglySorted_inv in Hs.
  - apply StronglySorted_inv in Hs as [_ Hx]. apply List.Forall_forall. intros y Hy.
    rewrite List.Forall_forall in Hx. apply Hx. eapply firstn_In; eauto.
Qed.

Lemma StronglySorted_filter {A} (R : A -> A -> Prop) (p : A -> bool) (l : list A) :
  StronglySorted R l -> StronglySorted R (List.filter p l).
Proof.
  induction l as [|x l IH]; intros Hs; cbn; [constructor|].
  apply StronglySorted_inv in Hs as [Hs Hx].
  destruct (p x); [|now apply IH]. constructor; [now apply IH|].
  apply List.Forall_forall. intros y Hy. apply filter_In in Hy as [Hy _].
  rewrite List.Forall_forall in Hx. now apply Hx.
Qed.

Lemma StronglySorted_map {A B} (R : A -> A -> Prop) (S : B -> B -> Prop) (f : A -> B)
    (l : list A) :
  (forall a b, R a b -> S (f a) (f b)) ->
  StronglySorted R l -> StronglySorted S (map f l).
Proof.
  intros HRS. induction 1 as [|x l Hs IH Hx]; cbn; constructor; [exact IH|].
  apply List.Forall_forall. intros y Hy. apply in_map_iff in Hy as (a & <- & Ha).
  rewrite List.Forall_forall in Hx. apply HRS. now apply Hx.
Qed.

(** A strongly sorted list, read by positions. *)
Lemma StronglySorted_nth {A} (R : A -> A -> Prop) (l : list A) (i j : nat) (a b : A) :
  StronglySorted R l -> (i < j)%nat -> nth_error l i = Some a -> nth_error l j = Some b ->
  R a b.
Proof.
  intros Hs. revert i j. induction Hs as [|x l Hs IH Hx]; intros i j Hij Ha Hb.
  - destruct i; discriminate.
  - destruct j as [|j]; [lia|]. cbn in Hb. destruct i as [|i]; cbn in Ha.
    + injection Ha as ->. rewrite List.Forall_forall in Hx. apply Hx.
      eapply nth_error_In; eauto.
    + apply (IH i j); [lia | assumption | assumption].
Qed.

(** *** The collecting loop *)

Lemma collect_spec (c : conn) (f : link_filters) (limit : Z)
    (rows : list candidate) (result : list TopPost) :
  (List.length result < take_count limit)%nat ->
  collect c f limit rows result
  = (result ++ firstn (take_count limit - List.length result)
                 (map (to_top_post c) (List.filter (candidate_passes c f) rows)))%list.
Proof.
  revert result. induction rows as [|row rows IH]; intros result Hlen;
    cbn [collect List.filter].
  - cbn. now rewrite firstn_nil, app_nil_r.
  - destruct (candidate_passes c f row); cbn [negb map]; [|now apply IH].
    rewrite length_app. cbn [List.length].
    destruct (take_count limit - List.length result)%nat as [|k] eqn:Hk; [lia|].
    cbn [firstn].
    destruct (limit <=? Z.of_nat (List.length result + 1)) eqn:Hlim.
    + apply Z.leb_le in Hlim. unfold take_count in *.
      assert (k = 0%nat) by lia. subst k. reflexivity.
    + apply Z.leb_gt in Hlim. unfold take_count in *.
      rewrite IH by (rewrite length_app; cbn [List.length]; lia).
      rewrite length_app. cbn [List.length]. rewrite <- app_assoc. cbn [app].
      do 3 f_equal. lia.
Qed.

Lemma get_top_posts_spec (c : conn) (today lookback_days limit : Z) (f : link_filters) :
  get_top_posts c today lookback_days limit f
  = firstn (take_count limit)
      (map (to_top_post c)
         (List.filter (candidate_passes c f)
            (ranked_candidates c (_window_start today lookback_days) (candidates_limit limit)))).
Proof.
  unfold get_top_posts. rewrite collect_spec; cbn; [now rewrite Nat.sub_0_r|].
  unfold take_count. lia.
Qed.

(** *** The window and the growth *)

Lemma distinct_In (l : list Z) (x : Z) : In x (distinct l) <-> In x l.
Proof.
  induction l as [|y l IH]; cbn; [tauto|].
  rewrite filter_In, IH, negb_true_iff, Z.eqb_neq.
  destruct (Z.eq_dec x y); intuition auto.
Qed.

Lemma fold_max_spec (l : list Z) (a : Z) :
  In (fold_left Z.max l a) (a :: l) /\ forall x, In x (a :: l) -> x <= fold_left Z.max l a.
Proof.
  revert a. induction l as [|y l IH]; intros a; cbn.
  - split; [now left | intros x [-> | []]; lia].
  - destruct (IH (Z.max a y)) as [Hin Hub]. split.
    + destruct Hin as [Hin | Hin]; [|now right; right].
      rewrite <- Hin. destruct (Z.max_spec a y) as [[_ ->] | [_ ->]]; auto.
    + intros x [-> | [-> | Hx]].
      * specialize (Hub (Z.max x y) (or_introl eq_refl)). lia.
      * specialize (Hub (Z.max a x) (or_introl eq_refl)). lia.
      * apply Hub. now right.
Qed.

Lemma fold_min_spec (l : list Z) (a : Z) :
  In (fold_left Z.min l a) (a :: l) /\ forall x, In x (a :: l) -> fold_left Z.min l a <= x.
Proof.
  revert a. induction l as [|y l IH]; intros a; cbn.
  - split; [now left | intros x [-> | []]; lia].
  - destruct (IH (Z.min a y)) as [Hin Hlb]. split.
    + destruct Hin as [Hin | Hin]; [|now right; right].
      rewrite <- Hin. destruct (Z.min_spec a y) as [[_ ->] | [_ ->]]; auto.
    + intros x [-> | [-> | Hx]].
      * specialize (Hlb (Z.min x y) (or_introl eq_refl)). lia.
      * specialize (Hlb (Z.min a x) (or_introl eq_refl)). lia.
      * apply Hlb. now right.
Qed.

Lemma agg_max_spec (l : list Z) (d : Z) :
  agg_max l = Some d -> In d l /\ forall x, In x l -> x <= d.
Proof. destruct l as [|a l]; cbn; [discriminate|]. intros [= <-]. apply fold_max_spec. Qed.

Lemma agg_min_spec (l : list Z) (d : Z) :
  agg_min l = Some d -> In d l /\ forall x, In x l -> d <= x.
Proof. destruct l as [|a l]; cbn; [discriminate|]. intros [= <-]. apply fold_min_spec. Qed.

Lemma agg_max_some (l : list Z) (x : Z) : In x l -> exists d, agg_max l = Some d.
Proof. destruct l; cbn; [tauto | eauto]. Qed.

Lemma agg_min_some (l : list Z) (x : Z) : In x l -> exists d, agg_min l = Some d.
Proof. destruct l; cbn; [tauto | eauto]. Qed.

Lemma dates_of_In (w : list snapshot_row) (pid d : Z) :
  In d (dates_of w pid) <-> exists s, In s w /\ s_post_id s = pid /\ s_snapshot_date s = d.
Proof.
  unfold dates_of. rewrite in_map_iff. split.
  - intros (s & Hd & Hs). apply filter_In in Hs as [Hs Hp]. apply Z.eqb_eq in Hp. eauto.
  - intros (s & Hs & Hp & Hd). exists s. split; [exact Hd|].
    apply filter_In. split; [exact Hs | now apply Z.eqb_eq].
Qed.

Lemma group_by_post_In (agg : list Z -> option Z) (w : list snapshot_row) (pid d : Z) :
  In (pid, d) (group_by_post agg w)
  <-> In pid (map s_post_id w) /\ agg (dates_of w pid) = Some d.
Proof.
  unfold group_by_post. rewrite in_flat_map. split.
  - intros (x & Hx & Hin). apply (proj1 (distinct_In _ _)) in Hx.
    destruct (agg (dates_of w x)) as [d'|] eqn:Ha; [|destruct Hin].
    destruct Hin as [[= <- <-] | []]. split; assumption.
  - intros [Hp Ha]. exists pid. split; [now apply distinct_In|]. rewrite Ha. now left.
Qed.

Lemma window_In (c : conn) (start : Z) (s : snapshot_row) :
  In s (window c start) <-> In s (snapshots c) /\ start <= s_snapshot_date s.
Proof. unfold window. now rewrite filter_In, Z.leb_le. Qed.

Lemma in_window_iff (c : conn) (start pid : Z) (s : snapshot_row) :
  in_window c start pid s <-> In s (window c start) /\ s_post_id s = pid.
Proof. unfold in_window. rewrite window_In. tauto. Qed.

Lemma latest_by_post_In (c : conn) (start pid d : Z) :
  In (pid, d) (latest_by_post (window c start)) ->
  (exists s, latest_in_window c start pid s /\ s_snapshot_date s = d)
  /\ forall s, in_window c start pid s -> s_snapshot_date s <= d.
Proof.
  intros H. apply group_by_post_In in H as [_ Ha]. apply agg_max_spec in Ha as [Hin Hub].
  assert (Hall : forall s, in_window c start pid s -> s_snapshot_date s <= d).
  { intros s Hs. apply in_window_iff in Hs as [Hs Hp]. apply Hub, dates_of_In. eauto. }
  split; [|exact Hall].
  apply dates_of_In in Hin as (s & Hs & Hp & Hd). exists s. split; [|exact Hd].
  split; [now apply in_window_iff|]. intros s' Hs'. rewrite Hd. now apply Hall.
Qed.

Lemma oldest_by_post_In (c : conn) (start pid d : Z) :
  In (pid, d) (oldest_by_post (window c start)) ->
  forall s, in_window c start pid s -> d <= s_snapshot_date s.
Proof.
  intros H. apply group_by_post_In in H as [_ Ha]. apply agg_min_spec in Ha as [Hin Hlb].
  intros s Hs. apply in_window_iff in Hs as [Hs Hp]. apply Hlb, dates_of_In. eauto.
Qed.

Lemma metrics_In (c : conn) (start : Z) (m : metrics_row) :
  In m (metrics (window c start)) ->
  exists sl so,
    latest_in_window c start (m_post_id m) sl
    /\ oldest_in_window c start (m_post_id m) so
    /\ m_latest_reactions m = s_total_reactions sl
    /\ m_oldest_reactions m = s_total_reactions so
    /\ m_latest_views m = s_views sl
    /\ m_latest_forwards m = s_forwards sl.
Proof.
  unfold metrics. rewrite in_flat_map. intros ([pid d] & Hl & H).
  apply in_flat_map in H as (wl & Hwl & H). apply in_flat_map in H as ([pid' d'] & Ho & H).
  apply in_map_iff in H as (wo & <- & Hwo). cbn in *.
  apply filter_In in Hwl as [Hwl Hkl]. apply snapshot_has_key_spec in Hkl.
  injection Hkl as Hpl Hdl.
  apply filter_In in Ho as [Ho Hpp]. cbn in Hpp. apply Z.eqb_eq in Hpp. subst pid'.
  apply filter_In in Hwo as [Hwo Hko]. apply snapshot_has_key_spec in Hko.
  injection Hko as Hpo Hdo.
  exists wl, wo. repeat split; try reflexivity.
  - now apply window_In in Hwl.
  - now apply window_In in Hwl.
  - exact Hpl.
  - intros s' Hs'. rewrite Hdl. eapply latest_by_post_In; eauto.
  - now apply window_In in Hwo.
  - now apply window_In in Hwo.
  - exact Hpo.
  - intros s' Hs'. rewrite Hdo. eapply oldest_by_post_In; eauto.
Qed.

Lemma metrics_complete (c : conn) (start pid : Z) (s : snapshot_row) :
  in_window c start pid s -> exists m, In m (metrics (window c start)) /\ m_post_id m = pid.
Proof.
  intros Hs. apply in_window_iff in Hs as [Hs Hp].
  assert (Hd : In (s_snapshot_date s) (dates_of (window c start) pid))
    by (apply dates_of_In; eauto).
  assert (Hpid : In pid (map s_post_id (window c start)))
    by (apply in_map_iff; eauto).
  destruct (agg_max_some _ _ Hd) as (dl & Hdl). destruct (agg_min_some _ _ Hd) as (do & Hdo).
  destruct (agg_max_spec _ _ Hdl) as [Hinl _]. destruct (agg_min_spec _ _ Hdo) as [Hino _].
  apply dates_of_In in Hinl as (wl & Hwl & Hpl & Hdl').
  apply dates_of_In in Hino as (wo & Hwo & Hpo & Hdo').
  exists {| m_post_id := pid;
            m_latest_reactions := s_total_reactions wl;
            m_oldest_reactions := s_total_reactions wo;
            m_latest_views := s_views wl;
            m_latest_forwards := s_forwards wl |}.
  split; [|reflexivity].
  unfold metrics. apply in_flat_map. exists (pid, dl).
  split; [apply group_by_post_In; auto|].
  apply in_flat_map. exists wl. split.
  { apply filter_In. split; [exact Hwl|].
    apply snapshot_has_key_spec. unfold snapshot_key. cbn. congruence. }
  apply in_flat_map. exists (pid, do). split.
  { apply filter_In. split; [apply group_by_post_In; auto | cbn; apply Z.eqb_refl]. }
  apply in_map_iff. exists wo. split; [reflexivity|].
  apply filter_In. split; [exact Hwo|].
  apply snapshot_has_key_spec. unfold snapshot_key. cbn. congruence.
Qed.

Lemma joined_In (c : conn) (start : Z) (r : candidate) :
  In r (joined c start) <->
  exists m p,
    In m (metrics (window c start)) /\ In p (posts c) /\ p_id p = m_post_id m
    /\ r = {| c_id := p_id p;
              c_channel_title := p_channel_title p;
              c_channel_username := p_channel_username p;
              c_message_id := p_message_id p;
              c_post_url := p_post_url p;
              c_post_datetime := p_post_datetime p;
              c_message_text := p_message_text p;
              c_latest_reactions := m_latest_reactions m;
              c_reactions_growth := m_latest_reactions m - m_oldest_reactions m;
              c_latest_views := m_latest_views m;
              c_latest_forwards := m_latest_forwards m |}.
Proof.
  unfold joined. rewrite in_flat_map. split.
  - intros (m & Hm & H). apply in_map_iff in H as (p & <- & Hp).
    apply filter_In in Hp as [Hp Hid]. apply Z.eqb_eq in Hid. exists m, p. auto.
  - intros (m & p & Hm & Hp & Hid & ->). exists m. split; [exact Hm|].
    apply in_map_iff. exists p. split; [reflexivity|].
    apply filter_In. split; [exact Hp | now apply Z.eqb_eq].
Qed.

(** Under UNIQUE(post_id, snapshot_date) a post has one snapshot per day. *)
Lemma snapshot_unique (c : conn) (s s' : snapshot_row) :
  db_wf c -> In s (snapshots c) -> In s' (snapshots c) ->
  s_post_id s = s_post_id s' -> s_snapshot_date s = s_snapshot_date s' -> s = s'.
Proof.
  intros [_ _ _ _ Hnd] Hs Hs' Hp Hd.
  assert (Hk : (fun r => (s_post_id r, s_snapshot_date r)) s
               = (fun r => (s_post_id r, s_snapshot_date r)) s') by (cbn; congruence).
  revert Hnd Hs Hs' Hk. generalize (fun r => (s_post_id r, s_snapshot_date r)) as key.
  intros key. induction (snapshots c) as [|x l IH]; cbn; [tauto|].
  intros Hnd Hs Hs' Hk. apply NoDup_cons in Hnd as [Hnin Hnd].
  rewrite list_elem_of_In in Hnin.
  destruct Hs as [<- | Hs], Hs' as [<- | Hs']; auto.
  - exfalso. apply Hnin. rewrite Hk. now apply in_map.
  - exfalso. apply Hnin. rewrite <- Hk. now apply in_map.
Qed.

Lemma get_top_posts_In (c : conn) (today d limit : Z) (f : link_filters) (tp : TopPost) :
  In tp (get_top_posts c today d limit f) ->
  exists r,
    In r (ranked_candidates c (_window_start today d) (candidates_limit limit))
    /\ candidate_passes c f r = true /\ tp = to_top_post c r.
Proof.
  rewrite get_top_posts_spec. intros H. apply firstn_In in H.
  apply in_map_iff in H as (r & <- & Hr). apply filter_In in Hr as [Hr Hp]. eauto.
Qed.

Lemma ranked_candidates_In (c : conn) (start n : Z) (r : candidate) :
  In r (ranked_candidates c start n) -> In r (joined c start).
Proof.
  unfold ranked_candidates. intros H. apply firstn_In in H.
  exact (proj1 (order_by_rank_In _ _) H).
Qed.

Lemma candidate_growth (c : conn) (start : Z) (r : candidate) :
  In r (joined c start) ->
  exists sl so,
    latest_in_window c start (c_id r) sl
    /\ oldest_in_window c start (c_id r) so
    /\ c_latest_reactions r = s_total_reactions sl
    /\ c_reactions_growth r = s_total_reactions sl - s_total_reactions so.
Proof.
  intros Hr. apply joined_In in Hr as (m & p & Hm & Hp & Hid & ->). cbn.
  apply metrics_In in Hm as (sl & so & Hl & Ho & Hlr & Hor & _). rewrite Hid.
  exists sl, so. repeat split; try apply Hl; try apply Ho; congruence.
Qed.

Lemma latest_in_window_unique (c : conn) (start pid : Z) (s s' : snapshot_row) :
  db_wf c -> latest_in_window c start pid s -> latest_in_window c start pid s' -> s = s'.
Proof.
  intros Hwf [Hs Hmax] [Hs' Hmax'].
  apply (snapshot_unique c); try assumption; try apply Hs; try apply Hs'.
  - destruct Hs as (_ & _ & ->), Hs' as (_ & _ & ->). reflexivity.
  - specialize (Hmax s' Hs'). specialize (Hmax' s Hs). lia.
Qed.

Lemma oldest_in_window_unique (c : conn) (start pid : Z) (s s' : snapshot_row) :
  db_wf c -> oldest_in_window c start pid s -> oldest_in_window c start pid s' -> s = s'.
Proof.
  intros Hwf [Hs Hmin] [Hs' Hmin'].
  apply (snapshot_unique c); try assumption; try apply Hs; try apply Hs'.
  - destruct Hs as (_ & _ & ->), Hs' as (_ & _ & ->). reflexivity.
  - specialize (Hmin s' Hs'). specialize (Hmin' s Hs). lia.
Qed.

(** C3, as the code has it: the window starts at [today - (d - 1)], with
    [d] raised to 1 when it is smaller, and holds every snapshot dated on
    or after that day; the query sets no upper bound at [today].  Every
    post with a snapshot in the window yields a candidate row, and the
    growth of a candidate is the total of its latest snapshot in the
    window minus the total of its oldest one, which is 0 when the window
    holds exactly one snapshot of the post.  Every post that
    [get_top_posts] returns is such a candidate. *)
Theorem growth_over_window (c : conn) (today d limit : Z) (f : link_filters) :
  db_wf c ->
  _window_start today d = today - (Z.max 1 d - 1)
  /\ (d < 1 -> _window_start today d = today)
  /\ (forall s, In s (window c (_window_start today d))
                <-> In s (snapshots c) /\ today - (Z.max 1 d - 1) <= s_snapshot_date s)
  /\ (forall p s, In p (posts c) -> in_window c (_window_start today d) (p_id p) s ->
                  exists r, In r (joined c (_window_start today d)) /\ c_id r = p_id p)
  /\ (forall r, In r (joined c (_window_start today d)) ->
        (exists sl so,
           latest_in_window c (_window_start today d) (c_id r) sl
           /\ oldest_in_window c (_window_start today d) (c_id r) so)
        /\ (forall sl so,
              latest_in_window c (_window_start today d) (c_id r) sl ->
              oldest_in_window c (_window_start today d) (c_id r) so ->
              c_latest_reactions r = s_total_reactions sl
              /\ c_reactions_growth r = s_total_reactions sl - s_total_reactions so)
        /\ (forall s,
              (forall s', in_window c (_window_start today d) (c_id r) s' -> s' = s) ->
              c_reactions_growth r = 0))
  /\ (forall tp, In tp (get_top_posts c today d limit f) ->
        exists r, In r (joined c (_window_start today d)) /\ tp = to_top_post c r).
Proof.
  intros Hwf. split; [reflexivity|]. split; [unfold _window_start; lia|].
  split; [intros s; apply window_In|]. split; [|split].
  - intros p s Hp Hs. destruct (metrics_complete c _ _ s Hs) as (m & Hm & Hid).
    eexists. split; [apply joined_In; exists m, p; repeat split; eauto|]. reflexivity.
  - intros r Hr. destruct (candidate_growth c _ r Hr) as (sl0 & so0 & Hl0 & Ho0 & Hlr & Hg).
    split; [eauto|]. split.
    + intros sl so Hl Ho.
      rewrite (latest_in_window_unique c _ _ sl sl0 Hwf Hl Hl0).
      rewrite (oldest_in_window_unique c _ _ so so0 Hwf Ho Ho0). auto.
    + intros s Hone. rewrite Hg.
      rewrite (Hone sl0 (proj1 Hl0)), (Hone so0 (proj1 Ho0)). lia.
  - intros tp Htp. apply get_top_posts_In in Htp as (r & Hr & _ & ->).
    exists r. split; [|reflexivity]. eapply ranked_candidates_In; eauto.
Qed.

(** On the timestamps that [store_message] writes, the third key of
    the ranking is the order of time. *)
Lemma ranks_before_isoformat (l g t l' g' t' : Z) :
  ServiceProps.valid_instant t -> ServiceProps.valid_instant t' ->
  ranks_before l g (Service.isoformat t) l' g' (Service.isoformat t')
  <-> l' < l \/ (l = l' /\ (g' < g \/ (g = g' /\ t' <= t))).
Proof.
  intros Ht Ht'. unfold ranks_before.
  rewrite (ServiceSpec.isoformat_compare t' t Ht' Ht).
  assert (Hle : (t' ?= t) <> Gt <-> t' <= t) by (unfold Z.le; tauto).
  rewrite Hle. tauto.
Qed.

(** C4: the candidates of the ranking query, and the posts
    [get_top_posts] returns, stand in the order of latest reactions
    descending, then growth descending, then post timestamp descending;
    of two returned posts with the same latest reactions and the same
    growth, the one that comes later has the smaller or equal timestamp. *)
Theorem ranking_is_ordered (c : conn) (today d limit : Z) (f : link_filters) :
  StronglySorted candidate_before
    (ranked_candidates c (_window_start today d) (candidates_limit limit))
  /\ StronglySorted post_before (get_top_posts c today d limit f)
  /\ (forall i j a b,
        (i < j)%nat ->
        nth_error (get_top_posts c today d limit f) i = Some a ->
        nth_error (get_top_posts c today d limit f) j = Some b ->
        latest_reactions a = latest_reactions b ->
        reactions_growth a = reactions_growth b ->
        String.leb (post_datetime b) (post_datetime a) = true).
Proof.
  assert (Hc : StronglySorted candidate_before
                 (ranked_candidates c (_window_start today d) (candidates_limit limit))).
  { unfold ranked_candidates. apply StronglySorted_firstn, order_by_rank_sorted. }
  assert (Hp : StronglySorted post_before (get_top_posts c today d limit f)).
  { rewrite get_top_posts_spec. apply StronglySorted_firstn.
    apply (StronglySorted_map candidate_before); [|now apply StronglySorted_filter].
    intros a b Hab. unfold post_before, to_top_post, _split_links. exact Hab. }
  split; [exact Hc|]. split; [exact Hp|].
  intros i j a b Hij Ha Hb Hl Hg.
  pose proof (StronglySorted_nth post_before _ i j a b Hp Hij Ha Hb) as H.
  unfold post_before, ranks_before in H. unfold String.leb.
  destruct H as [H | [_ [H | [_ H]]]]; try lia.
  destruct (String.compare (post_datetime b) (post_datetime a)); congruence.
Qed.

Lemma passes_requires_github (gh rs ar : list string) (ext ro : bool) :
  _passes_link_filters gh rs ar ext ro true = true -> gh <> [].
Proof. unfold _passes_link_filters. destruct gh; cbn; [discriminate | discriminate]. Qed.

(** What [get_top_posts] returns for a limit of at least 1: the passing
    candidates of the oversampled, ranked candidate set, in rank order,
    cut after [limit] of them; they all satisfy the filters, and when
    fewer than [limit] candidates pass, the passing ones are returned and
    nothing else. *)
Lemma get_top_posts_prefix (c : conn) (today d limit : Z) (f : link_filters) :
  1 <= limit ->
  get_top_posts c today d limit f
    = firstn (Z.to_nat limit)
        (map (to_top_post c)
           (List.filter (candidate_passes c f)
              (firstn (Z.to_nat (Z.max (limit * 10) 200))
                 (order_by_rank (joined c (_window_start today d))))))
  /\ (List.length (get_top_posts c today d limit f) <= Z.to_nat limit)%nat
  /\ ((List.length (List.filter (candidate_passes c f)
                      (firstn (Z.to_nat (Z.max (limit * 10) 200))
                         (order_by_rank (joined c (_window_start today d)))))
       <= Z.to_nat limit)%nat ->
      get_top_posts c today d limit f
      = map (to_top_post c)
          (List.filter (candidate_passes c f)
             (firstn (Z.to_nat (Z.max (limit * 10) 200))
                (order_by_rank (joined c (_window_start today d))))))
  /\ (forall tp, In tp (get_top_posts c today d limit f) ->
        _passes_link_filters (github_links tp) (research_links tp) (article_links tp)
          (require_external_links f) (research_only f) (require_github f) = true)
  /\ (require_github f = true ->
      forall tp, In tp (get_top_posts c today d limit f) -> github_links tp <> []).
Proof.
  intros Hl.
  assert (Hspec : get_top_posts c today d limit f
                  = firstn (Z.to_nat limit)
                      (map (to_top_post c)
                         (List.filter (candidate_passes c f)
                            (firstn (Z.to_nat (Z.max (limit * 10) 200))
                               (order_by_rank (joined c (_window_start today d))))))).
  { rewrite get_top_posts_spec. unfold take_count. now rewrite Z.max_r by lia. }
  assert (Hpass : forall tp, In tp (get_top_posts c today d limit f) ->
            _passes_link_filters (github_links tp) (research_links tp) (article_links tp)
              (require_external_links f) (research_only f) (require_github f) = true).
  { intros tp Htp. apply get_top_posts_In in Htp as (r & _ & Hp & ->). exact Hp. }
  split; [exact Hspec|]. split; [|split; [|split; [exact Hpass|]]].
  - rewrite Hspec, length_firstn. lia.
  - intros Hlen. rewrite Hspec. apply firstn_all2. rewrite length_map. lia.
  - intros Hg tp Htp. specialize (Hpass tp Htp). rewrite Hg in Hpass.
    eapply passes_requires_github; eauto.
Qed.

(** C5, at the failing input: the loop looks at the limit only after it
    has appended a row, so what it returns is cut after [max 1 limit]
    passing candidates, and a limit of 0 yields one post where none is
    asked for. *)
Theorem get_top_posts_limit_zero_returns_a_post :
  (forall c today d limit f,
     get_top_posts c today d limit f
     = firstn (Z.to_nat (Z.max 1 limit))
         (map (to_top_post c)
            (List.filter (candidate_passes c f)
               (firstn (Z.to_nat (Z.max (limit * 10) 200))
                  (order_by_rank (joined c (_window_start today d)))))))
  /\ map message_id (get_top_posts db_ties 11 7 0 github_only) = [45]
  /\ map message_id (get_top_posts db_ties 11 7 (-3) github_only) = [45]
  /\ map message_id (get_top_posts db_ties 11 7 5 github_only) = [45; 43].
Proof.
  split; [intros; apply get_top_posts_spec|].
  repeat split; vm_compute; reflexivity.
Qed.

(** *** Sample databases *)

Lemma db_day11_wf : db_wf db_day11.
Proof.
  apply (ServiceSpec.store_message_wf db_day10 db_day11 ml_channel 11 (at_hour 9 13)
           post42_later); [|vm_compute; reflexivity].
  apply (ServiceSpec.store_message_wf db_stale db_day10 ml_channel 10 (at_hour 9 13) post42);
    [apply ServiceSpec.db_stale_wf | vm_compute; reflexivity].
Qed.

Lemma growth_over_window_witness :
  _window_start 10 1 = 10 - (Z.max 1 1 - 1)
  /\ (forall tp, In tp (get_top_posts db_day11 10 1 5 no_filters) ->
        exists r, In r (joined db_day11 (_window_start 10 1)) /\ tp = to_top_post db_day11 r).
Proof.
  destruct (growth_over_window db_day11 10 1 5 no_filters db_day11_wf)
    as (Hstart & _ & _ & _ & _ & Hret).
  split; [exact Hstart | exact Hret].
Defined.

(** C3 as worded fails on the upper end of the window: a snapshot dated
    after [today] (snapshot dates are UTC dates, [today] is the local
    date) is inside the query's window.  With [today = 10] and a one-day
    window, post 42 has one snapshot dated in [10, 10], with 5
    reactions, yet the query reports 12 reactions and a growth of 7 from
    the snapshot of day 11. *)
Lemma window_has_no_upper_bound_counterexample :
  map (fun s => (s_post_id s, s_snapshot_date s, s_total_reactions s)) (snapshots db_day11)
    = [(1, 10, 5); (1, 11, 12)]
  /\ map (fun s => (s_snapshot_date s, s_total_reactions s))
       (List.filter (fun s => (10 - (1 - 1) <=? s_snapshot_date s) && (s_snapshot_date s <=? 10))
          (snapshots db_day11))
     = [(10, 5)]
  /\ map (fun p => (message_id p, latest_reactions p, reactions_growth p))
       (get_top_posts db_day11 10 1 5 no_filters)
     = [(42, 12, 7)].
Proof. repeat split; vm_compute; reflexivity. Qed.

Lemma ranking_is_ordered_witness :
  exists a b,
    nth_error (get_top_posts db_ties 11 7 5 no_filters) 0 = Some a
    /\ nth_error (get_top_posts db_ties 11 7 5 no_filters) 1 = Some b
    /\ latest_reactions a = latest_reactions b
    /\ reactions_growth a = reactions_growth b
    /\ post_datetime a = "1970-01-11T01:00:00+00:00"
    /\ post_datetime b = "1970-01-10T20:00:00+00:00"
    /\ String.leb (post_datetime b) (post_datetime a) = true.
Proof.
  do 2 eexists. split; [vm_compute; reflexivity|]. split; [vm_compute; reflexivity|].
  split; [reflexivity|]. split; [reflexivity|]. split; [reflexivity|]. split; [reflexivity|].
  eapply (proj2 (proj2 (ranking_is_ordered db_ties 11 7 5 no_filters)) 0%nat 1%nat);
    [lia | vm_compute; reflexivity | vm_compute; reflexivity | reflexivity | reflexivity].
Defined.

(** *** The export *)

Lemma read_all_as_str (l : list string) : read_all as_str (map JStr l) = Some l.
Proof. induction l as [|x l IH]; cbn; [reflexivity | now rewrite IH]. Qed.

Lemma top_post_of_dict_post_to_dict (p : TopPost) :
  top_post_of_dict (_post_to_dict p) = Some p.
Proof.
  destruct p as [t u m url dt txt lr rg lv lf gh rs ar].
  unfold top_post_of_dict, _post_to_dict. cbn.
  rewrite !read_all_as_str. destruct u, url, txt, lv, lf; reflexivity.
Qed.

Lemma read_all_post_to_dict (posts : list TopPost) :
  read_all top_post_of_dict (map _post_to_dict posts) = Some posts.
Proof.
  induction posts as [|p posts IH]; [reflexivity|]. cbn [map read_all].
  now rewrite top_post_of_dict_post_to_dict, IH.
Qed.

(** C9: the text [export_top_posts_json] writes parses back to one
    record per post, and reading the thirteen fields of every record
    gives back the posts that were exported. *)
Theorem export_round_trip (posts : list TopPost) :
  Json.loads (export_top_posts_json posts) = Some (JList (map _post_to_dict posts))
  /\ read_top_posts (export_top_posts_json posts) = Some posts.
Proof.
  unfold read_top_posts, export_top_posts_json. rewrite loads_dumps.
  split; [reflexivity | apply read_all_post_to_dict].
Qed.

End ReportingSpec.

(** ** Links and reactions of a message *)

Module UrlSpec.

Import Extractors StrProps StrSpec UrlProps.

Lemma rstrip_keep (p : ascii -> bool) (c : ascii) (s : string) :
  p c = false -> Str.rstrip p (String c s) = String c (Str.rstrip p s).
Proof.
  intros Hc. cbn [Str.rstrip]. destruct (Str.rstrip p s); [now rewrite Hc | reflexivity].
Qed.

Lemma rstrip_last (p : ascii -> bool) (s : string) (c : ascii) :
  last_char (Str.rstrip p s) = Some c -> p c = false.
Proof.
  induction s as [|a s IH]; [discriminate|].
  cbn [Str.rstrip]. destruct (Str.rstrip p s) as [|b r] eqn:Hr.
  - destruct (p a) eqn:Ha; [discriminate|]. cbn. intros [= <-]. exact Ha.
  - cbn [last_char]. exact IH.
Qed.

Lemma url_match_at_scheme (s m : string) :
  url_match_at s = Some m ->
  exists body, m = "http://" +:+ body \/ m = "https://" +:+ body.
Proof.
  unfold url_match_at. intros H.
  destruct (Str.startswith "https://" s).
  - destruct (fst (Str.span_until_p is_url_stop (Str.drop (String.length "https://") s)))
      as [|c body] eqn:Hb.
    + destruct (Str.startswith "http://" s); [|discriminate].
      destruct (fst (Str.span_until_p is_url_stop (Str.drop (String.length "http://") s)))
        as [|c' body']; [discriminate|].
      injection H as <-. eexists. left. reflexivity.
    + injection H as <-. eexists. right. reflexivity.
  - destruct (Str.startswith "http://" s); [|discriminate].
    destruct (fst (Str.span_until_p is_url_stop (Str.drop (String.length "http://") s)))
      as [|c' body']; [discriminate|].
    injection H as <-. eexists. left. reflexivity.
Qed.

Lemma url_findall_from_scheme (s : string) (skip : nat) (m : string) :
  In m (url_findall_from skip s) ->
  exists body, m = "http://" +:+ body \/ m = "https://" +:+ body.
Proof.
  revert skip. induction s as [|c s IH]; intros skip Hin; [destruct Hin|].
  cbn [url_findall_from] in Hin. destruct skip as [|k].
  - destruct (url_match_at (String c s)) as [m'|] eqn:Hm.
    + destruct Hin as [<- | Hin]; [now apply (url_match_at_scheme (String c s)) | eauto].
    + eauto.
  - eauto.
Qed.

Lemma rstrip_cons (p : ascii -> bool) (c : ascii) (s : string) :
  Str.rstrip p s <> EmptyString -> Str.rstrip p (String c s) = String c (Str.rstrip p s).
Proof.
  intros Hne. cbn [Str.rstrip]. destruct (Str.rstrip p s); [congruence | reflexivity].
Qed.

(** Trimming stops at the second slash of the scheme at the latest. *)
Lemma rstrip_slashes (body : string) :
  Str.rstrip is_trailing_punctuation (String "/" (String "/" body))
  = String "/" (String "/" (Str.rstrip is_trailing_punctuation body)).
Proof. rewrite !rstrip_keep by reflexivity. reflexivity. Qed.

Lemma rstrip_http (body : string) :
  Str.rstrip is_trailing_punctuation ("http://" +:+ body)
  = "http://" +:+ Str.rstrip is_trailing_punctuation body.
Proof.
  change ("http://" +:+ body)
    with (String "h" (String "t" (String "t" (String "p" (String ":" (String "/" (String "/" body))))))).
  rewrite !rstrip_keep by reflexivity.
  rewrite rstrip_cons by (rewrite rstrip_slashes; discriminate).
  rewrite rstrip_slashes. reflexivity.
Qed.

Lemma rstrip_https (body : string) :
  Str.rstrip is_trailing_punctuation ("https://" +:+ body)
  = "https://" +:+ Str.rstrip is_trailing_punctuation body.
Proof.
  change ("https://" +:+ body)
    with (String "h" (String "t" (String "t" (String "p" (String "s"
           (String ":" (String "/" (String "/" body)))))))).
  rewrite !rstrip_keep by reflexivity.
  rewrite rstrip_cons by (rewrite rstrip_slashes; discriminate).
  rewrite rstrip_slashes. reflexivity.
Qed.

Lemma text_urls_scheme (m : message) (u : string) :
  In u (text_urls m) -> has_http_scheme u = true.
Proof.
  unfold text_urls, URL_REGEX_findall. rewrite in_map_iff. intros (raw & <- & Hraw).
  apply url_findall_from_scheme in Hraw as (body & [-> | ->]).
  - rewrite rstrip_http. reflexivity.
  - rewrite rstrip_https. unfold has_http_scheme. apply orb_true_r.
Qed.

Lemma text_urls_trimmed (m : message) (u : string) (c : ascii) :
  In u (text_urls m) -> last_char u = Some c -> is_trailing_punctuation c = false.
Proof.
  unfold text_urls. rewrite in_map_iff. intros (raw & <- & _). apply rstrip_last.
Qed.

Lemma extract_urls_In (m : message) (u : string) :
  In u (extract_urls m)
  <-> In u (text_urls m) \/ In u (entity_urls (default [] (msg_entities m))).
Proof.
  unfold extract_urls. cbv zeta. fold is_trailing_punctuation. fold (text_urls m).
  rewrite sorted_set_In, in_app_iff. reflexivity.
Qed.

(** X1: [extract_urls] returns the URLs found in the text (trimmed) and in
    the text-link entities (stripped), each once, in ascending byte
    order. *)
Theorem extract_urls_sorted_distinct (m : message) :
  ascending (extract_urls m)
  /\ NoDup (extract_urls m)
  /\ (forall u, In u (extract_urls m)
                <-> In u (text_urls m) \/ In u (entity_urls (default [] (msg_entities m)))).
Proof.
  split; [|split].
  - unfold extract_urls. apply sorted_set_ascending.
  - unfold extract_urls. apply sorted_set_NoDup.
  - intros u. apply extract_urls_In.
Qed.

(** X2: a message without entities yields only URLs that begin with
    [http://] or [https://] and do not end in one of [.,;:!?]; a message
    with neither text nor entities yields none. *)
Theorem extract_urls_text_only (m : message) :
  msg_entities m = None \/ msg_entities m = Some [] ->
  Forall (fun u => has_http_scheme u = true
                   /\ forall c, last_char u = Some c -> is_trailing_punctuation c = false)
         (extract_urls m)
  /\ (msg_message m = None \/ msg_message m = Some EmptyString -> extract_urls m = []).
Proof.
  intros Hent.
  assert (Hnone : entity_urls (default [] (msg_entities m)) = [])
    by (destruct Hent as [-> | ->]; reflexivity).
  split.
  - apply List.Forall_forall. intros u Hu.
    apply extract_urls_In in Hu.
    rewrite Hnone in Hu. destruct Hu as [Hu | []].
    split; [now apply (text_urls_scheme m) | intros c; now apply (text_urls_trimmed m)].
  - intros Htext. unfold extract_urls. cbv zeta. rewrite Hnone.
    destruct Htext as [-> | ->]; reflexivity.
Qed.

Lemma extract_urls_text_only_witness :
  Forall (fun u => has_http_scheme u = true
                   /\ forall c, last_char u = Some c -> is_trailing_punctuation c = false)
         (extract_urls Samples.post42)
  /\ extract_urls Samples.post42
     = ["https://arxiv.org/abs/1234"; "https://github.com/org/repo"].
Proof.
  split; [|vm_compute; reflexivity].
  apply (extract_urls_text_only Samples.post42). left. reflexivity.
Defined.

(** *** The authority decides the category *)

Lemma filter_app (p : ascii -> bool) (a b : string) :
  Str.filter p (a +:+ b) = Str.filter p a +:+ Str.filter p b.
Proof.
  induction a as [|c a IH]; [reflexivity|].
  rewrite str_app_cons. cbn [Str.filter]. rewrite IH. now destruct (p c).
Qed.

Lemma forallb_filter (p q : ascii -> bool) (s : string) :
  Str.forallb q s = true -> Str.forallb q (Str.filter p s) = true.
Proof.
  induction s as [|c s IH]; [reflexivity|]. cbn [Str.forallb Str.filter].
  intros [Hc Hs]%andb_true_iff. destruct (p c); [cbn [Str.forallb]; rewrite Hc|]; auto.
Qed.

Lemma span_until_plain (stops a : string) :
  Str.forallb (fun c => negb (Str.mem_char c stops)) a = true ->
  fst (Str.span_until stops a) = a.
Proof.
  induction a as [|c a IH]; [reflexivity|]. cbn [Str.forallb Str.span_until].
  intros [Hc Ha]%andb_true_iff. apply negb_true_iff in Hc. rewrite Hc.
  specialize (IH Ha). destruct (Str.span_until stops a) as [x y]. cbn in *. now rewrite IH.
Qed.

Lemma span_until_stop (stops a : string) (sep : ascii) (b : string) :
  Str.forallb (fun c => negb (Str.mem_char c stops)) a = true ->
  Str.mem_char sep stops = true ->
  fst (Str.span_until stops (a +:+ String sep b)) = a.
Proof.
  intros Ha Hsep. induction a as [|c a IH].
  - rewrite str_app_nil_l. cbn [Str.span_until]. now rewrite Hsep.
  - rewrite str_app_cons. cbn [Str.forallb Str.span_until] in *.
    apply andb_true_iff in Ha as [Hc Ha]. apply negb_true_iff in Hc. rewrite Hc.
    specialize (IH Ha). destruct (Str.span_until stops (a +:+ String sep b)) as [x y].
    cbn in *. now rewrite IH.
Qed.

(** The netloc of [scheme://host], whatever follows the host. *)
Lemma urlparse_netloc_https (tail : string) :
  urlparse_netloc ("https://" +:+ tail)
  = let netloc := fst (Str.span_until "/?#" (Str.filter (fun c => negb (is_unsafe_byte c)) tail)) in
    if xorb (Str.mem_char "[" netloc) (Str.mem_char "]" netloc)
    then Raise (ValueError "Invalid IPv6 URL") else Ok netloc.
Proof. reflexivity. Qed.

Lemma urlparse_netloc_http (tail : string) :
  urlparse_netloc ("http://" +:+ tail)
  = let netloc := fst (Str.span_until "/?#" (Str.filter (fun c => negb (is_unsafe_byte c)) tail)) in
    if xorb (Str.mem_char "[" netloc) (Str.mem_char "]" netloc)
    then Raise (ValueError "Invalid IPv6 URL") else Ok netloc.
Proof. reflexivity. Qed.

Lemma netloc_of_tail (host : string) (sep : ascii) (rest : string) :
  plain_host host = true -> ends_authority sep = true ->
  fst (Str.span_until "/?#"
         (Str.filter (fun c => negb (is_unsafe_byte c)) (host +:+ String sep rest)))
  = fst (Str.span_until "/?#" (Str.filter (fun c => negb (is_unsafe_byte c)) host)).
Proof.
  intros Hhost Hsep. rewrite filter_app.
  assert (Hf : Str.forallb (fun c => negb (Str.mem_char c "/?#"))
                 (Str.filter (fun c => negb (is_unsafe_byte c)) host) = true)
    by (apply forallb_filter; exact Hhost).
  assert (Hkeep : Str.filter (fun c => negb (is_unsafe_byte c)) (String sep rest)
                  = String sep (Str.filter (fun c => negb (is_unsafe_byte c)) rest)).
  { cbn [Str.filter]. replace (is_unsafe_byte sep) with false; [reflexivity|].
    unfold ends_authority in Hsep. cbn in Hsep. unfold is_unsafe_byte. cbn.
    destruct sep as [[] [] [] [] [] [] [] []]; try discriminate; reflexivity. }
  rewrite Hkeep, span_until_stop, span_until_plain by assumption. reflexivity.
Qed.

(** X3: the category of an [http] or [https] link is decided by its
    authority alone: the path, query or fragment behind the host does not
    change it, nor does it change whether classification raises. *)
Theorem classify_link_ignores_path (host : string) (sep : ascii) (rest : string) :
  plain_host host = true -> ends_authority sep = true ->
  classify_link ("https://" +:+ host +:+ String sep rest) = classify_link ("https://" +:+ host)
  /\ classify_link ("http://" +:+ host +:+ String sep rest) = classify_link ("http://" +:+ host).
Proof.
  intros Hhost Hsep. unfold classify_link.
  rewrite !urlparse_netloc_https, !urlparse_netloc_http. cbv zeta.
  rewrite (netloc_of_tail host sep rest Hhost Hsep). split; reflexivity.
Qed.

Lemma classify_link_ignores_path_witness :
  classify_link ("https://" +:+ "example.com" +:+ String "/" "github.com/org/repo")
  = classify_link ("https://" +:+ "example.com")
  /\ classify_link ("https://" +:+ "example.com") = Ok Article.
Proof.
  split; [|reflexivity].
  apply (classify_link_ignores_path "example.com" "/" "github.com/org/repo"); reflexivity.
Defined.

(** *** [links_with_types] *)

Lemma links_with_types_cons (u : string) (urls : list string) :
  links_with_types (u :: urls)
  = match classify_link u with
    | Raise e => Raise e
    | Ok t => match links_with_types urls with
              | Raise e => Raise e
              | Ok typed => Ok ((u, t) :: typed)
              end
    end.
Proof.
  unfold links_with_types. cbn [map_result]. unfold mbind, result_bind.
  destruct (classify_link u); reflexivity.
Qed.

Lemma links_with_types_ok (urls : list string) (typed : list (string * link_type)) :
  links_with_types urls = Ok typed ->
  map fst typed = urls /\ Forall (fun ut => classify_link (fst ut) = Ok (snd ut)) typed.
Proof.
  revert typed. induction urls as [|u urls IH]; intros typed H.
  - injection H as <-. split; constructor.
  - rewrite links_with_types_cons in H. destruct (classify_link u) as [t|e] eqn:Hu; [|discriminate].
    destruct (links_with_types urls) as [typed'|e]; [|discriminate].
    injection H as <-. destruct (IH typed' eq_refl) as [Hfst Hall].
    split; [cbn; now rewrite Hfst | constructor; [exact Hu | exact Hall]].
Qed.

Lemma links_with_types_first_failure (pre : list string) (u : string) (post : list string) (e : exn) :
  Forall (fun v => ServiceProps.is_ok (classify_link v) = true) pre -> classify_link u = Raise e ->
  links_with_types (pre ++ u :: post) = Raise e.
Proof.
  intros Hpre Hu. induction Hpre as [|v pre Hv Hpre IH].
  - cbn [app]. rewrite links_with_types_cons, Hu. reflexivity.
  - rewrite <- app_comm_cons, links_with_types_cons.
    destruct (classify_link v); [|discriminate]. now rewrite IH.
Qed.

Lemma links_with_types_total (urls : list string) :
  Forall (fun v => ServiceProps.is_ok (classify_link v) = true) urls ->
  exists typed, links_with_types urls = Ok typed.
Proof.
  induction 1 as [|v urls Hv Hall [typed IH]]; [now exists []|].
  rewrite links_with_types_cons, IH. destruct (classify_link v) as [t|]; [|discriminate].
  now exists ((v, t) :: typed).
Qed.

(** X4: [links_with_types] is all or nothing.  When every URL classifies
    it returns the URLs in their order, each with its category; otherwise
    it raises what the first URL that does not classify raises, and no
    pair at all is returned. *)
Theorem links_with_types_all_or_nothing (urls : list string) :
  (Forall (fun v => ServiceProps.is_ok (classify_link v) = true) urls ->
   exists typed,
     links_with_types urls = Ok typed
     /\ map fst typed = urls
     /\ Forall (fun ut => classify_link (fst ut) = Ok (snd ut)) typed)
  /\ (forall pre u post e,
        urls = (pre ++ u :: post)%list ->
        Forall (fun v => ServiceProps.is_ok (classify_link v) = true) pre ->
        classify_link u = Raise e ->
        links_with_types urls = Raise e).
Proof.
  split.
  - intros Hall. destruct (links_with_types_total urls Hall) as [typed Htyped].
    exists typed. split; [exact Htyped|]. now apply links_with_types_ok.
  - intros pre u post e -> Hpre Hu. now apply links_with_types_first_failure.
Qed.

Lemma links_with_types_all_or_nothing_witness :
  (exists typed,
     links_with_types ["https://arxiv.org/abs/1"; "https://t.me/c/1"] = Ok typed
     /\ map fst typed = ["https://arxiv.org/abs/1"; "https://t.me/c/1"]
     /\ Forall (fun ut => classify_link (fst ut) = Ok (snd ut)) typed)
  /\ links_with_types (["https://arxiv.org/abs/1"] ++ "http://[" :: ["https://t.me/c/1"])
     = Raise (ValueError "Invalid IPv6 URL").
Proof.
  split.
  - apply (proj1 (links_with_types_all_or_nothing ["https://arxiv.org/abs/1"; "https://t.me/c/1"])).
    repeat constructor.
  - apply (proj2 (links_with_types_all_or_nothing
                    (["https://arxiv.org/abs/1"] ++ "http://[" :: ["https://t.me/c/1"]))
             ["https://arxiv.org/abs/1"] "http://[" ["https://t.me/c/1"]);
      [reflexivity | repeat constructor | reflexivity].
Defined.

(** *** Reactions under distinct keys *)

Lemma fold_record_reaction_snoc (items : list reaction_count) (x : reaction_count) :
  fold_left record_reaction (items ++ [x])%list ∅
  = <[reaction_key x := reaction_count_value x]> (fold_left record_reaction items ∅).
Proof. rewrite fold_left_app. reflexivity. Qed.

Lemma fold_record_reaction_fresh (items : list reaction_count) (k : string) :
  ~ In k (map reaction_key items) ->
  fold_left record_reaction items (∅ : gmap string Z) !! k = None.
Proof.
  intros Hk. rewrite ExtractorsSpec.fold_record_reaction_lookup_ne; [apply lookup_empty|].
  apply List.Forall_forall. intros i Hi Heq. apply Hk. rewrite <- Heq. now apply in_map.
Qed.

Lemma sum_counts_snoc (items : list reaction_count) (x : reaction_count) :
  sum_counts (items ++ [x])%list = sum_counts items + reaction_count_value x.
Proof.
  unfold sum_counts. induction items as [|i items IH]; cbn; [lia|].
  cbn in IH. rewrite IH. lia.
Qed.

Lemma extract_reactions_distinct_aux (items : list reaction_count) :
  List.NoDup (map reaction_key items) ->
  total_reactions (fold_left record_reaction items ∅) = sum_counts items
  /\ size (fold_left record_reaction items (∅ : gmap string Z)) = List.length items
  /\ forall item, In item items ->
       fold_left record_reaction items (∅ : gmap string Z) !! reaction_key item
       = Some (reaction_count_value item).
Proof.
  induction items as [|x items IH] using rev_ind; intros Hnd.
  - cbn. split; [apply ExtractorsSpec.total_reactions_empty|].
    split; [apply map_size_empty | intros ? []].
  - rewrite List.map_app in Hnd. cbn [map] in Hnd.
    apply List.NoDup_remove in Hnd as [Hnd Hx]. rewrite app_nil_r in Hnd, Hx.
    destruct (IH Hnd) as (Htot & Hsize & Hlook).
    pose proof (fold_record_reaction_fresh items (reaction_key x) Hx) as Hfresh.
    rewrite fold_record_reaction_snoc. split; [|split].
    + rewrite ExtractorsSpec.total_reactions_insert by exact Hfresh.
      rewrite Htot, sum_counts_snoc. lia.
    + rewrite map_size_insert_None by exact Hfresh. rewrite Hsize, length_app. cbn. lia.
    + intros item Hitem. apply in_app_iff in Hitem as [Hitem | [<- | []]].
      * rewrite lookup_insert_ne; [now apply Hlook|].
        intros Heq. apply Hx. rewrite Heq. now apply in_map.
      * apply lookup_insert_eq.
Qed.

(** X5: when the entries of a message's reactions map to pairwise
    distinct keys, nothing is overwritten: the mapping has one key per
    entry, every entry's count is stored under its key, and the total
    equals the sum of the entries' counts. *)
Theorem extract_reactions_distinct_keys (items : list reaction_count) :
  List.NoDup (map reaction_key items) ->
  total_reactions (extract_reactions (Some {| results := Some items |})) = sum_counts items
  /\ size (extract_reactions (Some {| results := Some items |})) = List.length items
  /\ forall item, In item items ->
       extract_reactions (Some {| results := Some items |}) !! reaction_key item
       = Some (reaction_count_value item).
Proof.
  intros Hnd. unfold extract_reactions. cbn [results].
  exact (extract_reactions_distinct_aux items Hnd).
Qed.

Lemma extract_reactions_distinct_keys_witness :
  total_reactions
    (extract_reactions
       (Some {| results := Some [ Samples.counted (Some (Samples.emoji_reaction "+")) 4;
                                  Samples.counted None 2;
                                  Samples.counted (Some (Samples.custom_reaction 77)) 1 ] |}))
  = sum_counts [ Samples.counted (Some (Samples.emoji_reaction "+")) 4;
                 Samples.counted None 2;
                 Samples.counted (Some (Samples.custom_reaction 77)) 1 ].
Proof.
  apply (extract_reactions_distinct_keys
           [ Samples.counted (Some (Samples.emoji_reaction "+")) 4;
             Samples.counted None 2;
             Samples.counted (Some (Samples.custom_reaction 77)) 1 ]).
  vm_compute. repeat constructor; cbn; intuition discriminate.
Defined.

End UrlSpec.


(** ** The writes of the store *)

Module StoreSpec.

Import Extractors Db DbProps DbSpec StoreProps.

(** *** [upsert_post] *)

Section UpsertPostRows.

Variables (channel_id : Z) (channel_username : option string) (channel_title : string)
          (message_id : Z) (post_url : option string) (post_datetime : string)
          (message_text : option string) (views forwards : option Z).

Local Abbreviation upsert c :=
  (upsert_post c channel_id channel_username channel_title message_id post_url
     post_datetime message_text views forwards).
Local Abbreviation has_key := (post_has_key channel_id message_id).
Local Abbreviation carries :=
  (post_carries channel_id channel_username channel_title message_id post_url
     post_datetime message_text views forwards).
Local Abbreviation refreshed :=
  (DbProps.refreshed_post channel_username channel_title post_url post_datetime
     message_text views forwards).

Lemma refreshed_carries (r : post_row) : has_key r = true -> carries (refreshed r).
Proof.
  unfold post_has_key. intros [H1 H2]%andb_true_iff.
  apply Z.eqb_eq in H1, H2. repeat split; assumption.
Qed.

Lemma find_map_refreshed (l : list post_row) (row : post_row) :
  find has_key (map (fun r => if has_key r then refreshed r else r) l) = Some row ->
  exists r0, find has_key l = Some r0 /\ row = refreshed r0.
Proof.
  induction l as [|r l IH]; cbn; [discriminate|].
  destruct (has_key r) eqn:Hr.
  - change (has_key (refreshed r)) with (has_key r). rewrite Hr. intros [= <-]. eauto.
  - rewrite Hr. exact IH.
Qed.

Lemma find_app_absent (l : list post_row) (new row : post_row) :
  existsb has_key l = false -> find has_key (l ++ [new]) = Some row -> row = new.
Proof.
  induction l as [|r l IH]; cbn.
  - intros _. destruct (has_key new); [now intros [= <-] | discriminate].
  - destruct (has_key r); [discriminate|]. exact IH.
Qed.

(** What [upsert_post] does to the table, by cases on whether the key is
    already stored. *)
Lemma upsert_post_rows (c c' : conn) (id : Z) :
  upsert c = Ok (c', id) ->
  links c' = links c /\ links_seq c' = links_seq c
  /\ snapshots c' = snapshots c /\ snapshots_seq c' = snapshots_seq c
  /\ ((existsb has_key (posts c) = true
       /\ posts c' = map (fun r => if has_key r then refreshed r else r) (posts c)
       /\ posts_seq c' = posts_seq c
       /\ exists r0, find has_key (posts c) = Some r0 /\ id = p_id r0)
      \/ (existsb has_key (posts c) = false
          /\ (exists new, posts c' = (posts c ++ [new])%list /\ carries new /\ p_id new = id)
          /\ posts_seq c' = id /\ id = posts_seq c + 1)).
Proof.
  unfold upsert_post.
  destruct (existsb has_key (posts c)) eqn:Hex; cbn [posts].
  - destruct (find _ _) as [row|] eqn:Hfind; [|discriminate]. intros [= <- <-]. cbn.
    repeat split; try reflexivity. left. repeat split; try reflexivity.
    apply find_map_refreshed in Hfind as (r0 & Hr0 & ->). eauto.
  - destruct (find _ _) as [row|] eqn:Hfind; [|discriminate]. intros [= <- <-]. cbn.
    repeat split; try reflexivity. right.
    apply find_app_absent in Hfind; [|exact Hex]. subst row. cbn.
    repeat split; try reflexivity. eexists. split; [reflexivity|].
    split; [repeat split|reflexivity].
Qed.

Lemma upsert_post_succeeds (c : conn) : exists c' id, upsert c = Ok (c', id).
Proof.
  destruct (upsert_post_returns channel_id channel_username channel_title message_id post_url
              post_datetime message_text views forwards c) as (c' & id & H & _).
  eauto.
Qed.

Lemma map_refreshed_id (l : list post_row) :
  map p_id (map (fun r => if has_key r then refreshed r else r) l) = map p_id l.
Proof. rewrite map_map. apply map_ext. intros r. now destruct (has_key r). Qed.

Lemma map_refreshed_key (l : list post_row) :
  map post_key (map (fun r => if has_key r then refreshed r else r) l) = map post_key l.
Proof. rewrite map_map. apply map_ext. intros r. now destruct (has_key r). Qed.

(** X6: on a stored state, [upsert_post] always returns an id (the
    error branch behind the SELECT is never taken).  Every row that was
    there keeps its id and its key, in the same order; the rows of other
    posts are not touched; the row with the returned id carries the values
    of the call; and a post that was not stored gets one new row, whose id
    is greater than every id in the table. *)
Theorem upsert_post_keeps_ids (c : conn) :
  db_wf c ->
  exists c' id,
    upsert c = Ok (c', id)
    /\ (exists new_ids, map p_id (posts c') = (map p_id (posts c) ++ new_ids)%list
          /\ new_ids = if existsb has_key (posts c) then [] else [id])
    /\ (exists new_keys, map post_key (posts c') = (map post_key (posts c) ++ new_keys)%list
          /\ new_keys = if existsb has_key (posts c) then [] else [(channel_id, message_id)])
    /\ (forall r, In r (posts c) -> has_key r = false -> In r (posts c'))
    /\ (exists row, In row (posts c') /\ p_id row = id /\ carries row)
    /\ (existsb has_key (posts c) = false -> Forall (fun r => p_id r < id) (posts c))
    /\ links c' = links c /\ snapshots c' = snapshots c.
Proof.
  intros Hwf. destruct (upsert_post_succeeds c) as (c' & id & Hup).
  exists c', id. split; [exact Hup|].
  destruct (upsert_post_rows c c' id Hup) as (Hl & _ & Hs & _ & Hcases).
  destruct Hcases as [(Hex & Hposts & _ & r0 & Hfind & ->)
                     | (Hex & (new & Hposts & Hnew & Hid) & _ & Hseq)];
    rewrite Hex, Hposts.
  - split; [exists []; now rewrite map_refreshed_id, app_nil_r|].
    split; [exists []; now rewrite map_refreshed_key, app_nil_r|].
    apply find_some in Hfind as [Hin Hkey].
    repeat split; try assumption; try discriminate.
    + intros r Hr Hk. apply in_map_iff. exists r. now rewrite Hk.
    + exists (refreshed r0). split; [|split; [reflexivity | now apply refreshed_carries]].
      apply in_map_iff. exists r0. now rewrite Hkey.
  - destruct Hnew as (Hch & Hmid & Hrest).
    split; [exists [id]; rewrite map_app; cbn; now rewrite Hid|].
    split; [exists [(channel_id, message_id)]; rewrite map_app; cbn; unfold post_key;
            now rewrite Hch, Hmid|].
    repeat split; try assumption.
    + intros r Hr _. apply in_app_iff. now left.
    + exists new. split; [apply in_app_iff; right; now left|]. split; [exact Hid|].
      repeat split; try assumption; apply Hrest.
    + intros _. eapply List.Forall_impl; [|exact (wf_posts_seq c Hwf)]. cbn. intros r Hr. lia.
Qed.

End UpsertPostRows.


(** *** [replace_links] *)

Lemma existsb_eqb_In (u : string) (l : list string) :
  existsb (String.eqb u) l = true <-> In u l.
Proof.
  rewrite existsb_exists. split.
  - intros (x & Hx & ->%String.eqb_eq). exact Hx.
  - intros Hin. exists u. split; [exact Hin | apply String.eqb_refl].
Qed.

Lemma fresh_links_In (have : list string) (ls : list (string * link_type))
    (u : string) (t : link_type) :
  In (u, t) (fresh_links have ls)
  <-> exists pre post, ls = (pre ++ (u, t) :: post)%list /\ ~ In u (have ++ map fst pre).
Proof.
  revert have. induction ls as [|[v s] rest IH]; intros have; cbn [fresh_links].
  - split; [intros [] | intros ([|? ?] & ? & ? & _); discriminate].
  - destruct (existsb (String.eqb v) have) eqn:Hv.
    + apply existsb_eqb_In in Hv. rewrite IH. split.
      * intros (pre & post & -> & Hu). exists ((v, s) :: pre), post. split; [reflexivity|].
        cbn [map fst]. rewrite in_app_iff in *. cbn [In]. intros [H | [<- | H]]; tauto.
      * intros ([|[v' s'] pre] & post & Heq & Hu).
        -- injection Heq as -> -> ->. exfalso. apply Hu. rewrite app_nil_r. exact Hv.
        -- injection Heq as -> -> ->. exists pre, post. split; [reflexivity|].
           cbn [map fst] in Hu. rewrite in_app_iff in *. cbn [In] in Hu. tauto.
    + assert (Hv' : ~ In v have) by (rewrite <- existsb_eqb_In; congruence).
      cbn [In]. rewrite IH. split.
      * intros [[= -> ->] | (pre & post & -> & Hu)].
        -- exists [], rest. split; [reflexivity|]. now rewrite app_nil_r.
        -- exists ((v, s) :: pre), post. split; [reflexivity|].
           cbn [map fst]. rewrite !in_app_iff in *. cbn [In] in *. tauto.
      * intros ([|[v' s'] pre] & post & Heq & Hu).
        -- injection Heq as -> -> ->. now left.
        -- injection Heq as -> -> ->. right. exists pre, post. split; [reflexivity|].
           cbn [map fst] in Hu. rewrite !in_app_iff in *. cbn [In] in *. tauto.
Qed.

(** X7: after [replace_links] the links of the post are the given
    pairs, in their order, with every URL once: of several pairs with one
    URL the first is stored and the later ones are ignored.  An empty list
    leaves the post without links, and the links of other posts are not
    touched. *)
Theorem replace_links_first_occurrence (c : conn) (pid : Z) (ls : list (string * link_type)) :
  In pid (map p_id (posts c)) ->
  NoDup (map fst (links_of_post (replace_links c pid ls) pid))
  /\ (forall url t, In (url, t) (links_of_post (replace_links c pid ls) pid)
                    <-> first_occurrence ls url t)
  /\ (NoDup (map fst ls) -> links_of_post (replace_links c pid ls) pid = ls)
  /\ (ls = [] -> links_of_post (replace_links c pid ls) pid = [])
  /\ (forall pid', pid' <> pid ->
        links_of_post (replace_links c pid ls) pid' = links_of_post c pid').
Proof.
  intros _. rewrite replace_links_exact. split; [|split; [|split; [|split]]].
  - pose proof (fresh_links_urls_nodup [] ls (NoDup_nil_2 (A:=string))) as Hnd.
    rewrite app_nil_l in Hnd. exact Hnd.
  - intros url t. rewrite fresh_links_In. unfold first_occurrence.
    split; intros (pre & post & Heq & Hu); exists pre, post; (split; [exact Heq|]);
      now rewrite ?app_nil_l in *.
  - intros Hnd. now apply fresh_links_nodup.
  - intros ->. reflexivity.
  - intros pid' Hne. now apply replace_links_other_post.
Qed.


(** *** [upsert_snapshot] *)

Section UpsertSnapshotRows.

Variables (post_id snapshot_date total : Z) (reactions : gmap string Z)
          (views forwards : option Z).

Local Abbreviation upsert c :=
  (upsert_snapshot c post_id snapshot_date total reactions views forwards).
Local Abbreviation has_key := (snapshot_has_key post_id snapshot_date).
Local Abbreviation carries :=
  (snapshot_carries post_id snapshot_date total reactions views forwards).
Local Abbreviation refreshed :=
  (DbProps.refreshed_snapshot total reactions views forwards).

Lemma refreshed_snapshot_carries (s : snapshot_row) :
  has_key s = true -> carries (refreshed s).
Proof.
  unfold snapshot_has_key. intros [H1 H2]%andb_true_iff.
  apply Z.eqb_eq in H1, H2. repeat split; assumption.
Qed.

Lemma upsert_snapshot_rows (c : conn) :
  (existsb has_key (snapshots c) = true
   /\ snapshots (upsert c) = map (fun r => if has_key r then refreshed r else r) (snapshots c))
  \/ (existsb has_key (snapshots c) = false
      /\ exists new, snapshots (upsert c) = (snapshots c ++ [new])%list
                     /\ carries new /\ has_key new = true /\ s_id new = snapshots_seq c + 1).
Proof.
  unfold upsert_snapshot. destruct (existsb has_key (snapshots c)) eqn:Hex; cbn [snapshots].
  - left. split; reflexivity.
  - right. split; [reflexivity|]. eexists. split; [reflexivity|].
    split; [repeat split|]. split; [|reflexivity].
    unfold snapshot_has_key. cbn. now rewrite !Z.eqb_refl.
Qed.

Lemma upsert_snapshot_other_rows (c : conn) (s : snapshot_row) :
  has_key s = false -> In s (snapshots (upsert c)) <-> In s (snapshots c).
Proof.
  intros Hs. destruct (upsert_snapshot_rows c) as [[_ ->] | [_ (new & -> & _ & Hnew & _)]].
  - rewrite in_map_iff. split.
    + intros (r & Hr & Hin). destruct (has_key r) eqn:Hk; [|now subst].
      subst s. change (has_key (refreshed r)) with (has_key r) in Hs. congruence.
    + intros Hin. exists s. now rewrite Hs.
  - rewrite in_app_iff. cbn [In]. split; [|tauto].
    intros [H | [<- | []]]; [exact H | congruence].
Qed.

(** X8: [upsert_snapshot] keeps one snapshot per post and day, and
    the last write wins: afterwards exactly one row has the key, it carries
    the values of the call, and a row that had the key before keeps its id.
    The snapshots of other posts and other days are neither changed nor
    removed, and the table grows by one row exactly when the key was
    new. *)
Theorem upsert_snapshot_last_write_wins (c : conn) :
  db_wf c -> In post_id (map p_id (posts c)) ->
  (exists s,
     In s (snapshots (upsert c)) /\ carries s
     /\ (forall s', In s' (snapshots (upsert c)) -> has_key s' = true -> s' = s)
     /\ (forall old, In old (snapshots c) -> has_key old = true -> s_id s = s_id old))
  /\ (forall s, has_key s = false -> In s (snapshots (upsert c)) <-> In s (snapshots c))
  /\ List.length (snapshots (upsert c))
     = (List.length (snapshots c) + if existsb has_key (snapshots c) then 0 else 1)%nat.
Proof.
  intros Hwf _.
  pose proof (upsert_snapshot_wf post_id snapshot_date total reactions views forwards c Hwf)
    as Hwf'.
  assert (Huniq : forall a b, In a (snapshots (upsert c)) -> In b (snapshots (upsert c)) ->
                              has_key a = true -> has_key b = true -> a = b).
  { intros a b Ha Hb Hka Hkb.
    apply snapshot_has_key_spec in Hka, Hkb. unfold snapshot_key in Hka, Hkb.
    injection Hka as Hap Had. injection Hkb as Hbp Hbd.
    apply (ReportingSpec.snapshot_unique (upsert c)); congruence. }
  split; [|split; [apply upsert_snapshot_other_rows|]].
  - destruct (upsert_snapshot_rows c) as [[Hex Hrows] | [Hex (new & Hrows & Hnew & Hk & _)]].
    + apply existsb_exists in Hex as (x & Hx & Hkx).
      assert (Hin : In (refreshed x) (snapshots (upsert c))).
      { rewrite Hrows. apply in_map_iff. exists x. now rewrite Hkx. }
      exists (refreshed x). split; [exact Hin|]. split; [now apply refreshed_snapshot_carries|].
      split.
      * intros s' Hs' Hks'. apply Huniq; [exact Hs' | exact Hin | exact Hks' | exact Hkx].
      * intros old Hold Hkold.
        assert (Hin' : In (refreshed old) (snapshots (upsert c))).
        { rewrite Hrows. apply in_map_iff. exists old. now rewrite Hkold. }
        change (s_id old) with (s_id (refreshed old)).
        f_equal. apply Huniq; [exact Hin | exact Hin' | exact Hkx | exact Hkold].
    + assert (Hin : In new (snapshots (upsert c))).
      { rewrite Hrows. apply in_app_iff. right. now left. }
      exists new. split; [exact Hin|]. split; [exact Hnew|]. split.
      * intros s' Hs' Hks'. now apply Huniq.
      * intros old Hold Hkold. exfalso.
        assert (existsb has_key (snapshots c) = true); [|congruence].
        apply existsb_exists. eauto.
  - destruct (upsert_snapshot_rows c) as [[-> ->] | [-> (new & -> & _)]].
    + rewrite length_map. lia.
    + rewrite length_app. reflexivity.
Qed.

End UpsertSnapshotRows.


(** *** Closed instances *)

Lemma upsert_post_keeps_ids_witness :
  exists c' id,
    upsert_post Samples.db_day11 1001 (Some "mldaily") "ML Daily" 42 None
      "1970-01-12T00:00:00+00:00" None None None = Ok (c', id)
    /\ id = 1
    /\ map p_id (posts c') = map p_id (posts Samples.db_day11)
    /\ snapshots c' = snapshots Samples.db_day11.
Proof.
  destruct (upsert_post_keeps_ids 1001 (Some "mldaily") "ML Daily" 42 None
              "1970-01-12T00:00:00+00:00" None None None Samples.db_day11
              ReportingSpec.db_day11_wf)
    as (c' & id & Hup & (ids & Hids & Hnew) & _ & _ & _ & _ & _ & Hsnap).
  exists c', id. split; [exact Hup|]. split; [|split; [|exact Hsnap]].
  - vm_compute in Hup. now injection Hup as _ <-.
  - rewrite Hids, Hnew.
    replace (existsb (post_has_key 1001 42) (posts Samples.db_day11)) with true
      by (vm_compute; reflexivity).
    apply app_nil_r.
Defined.

Lemma replace_links_first_occurrence_witness :
  links_of_post
    (replace_links Samples.db_day11 1
       [("https://a.example/x", Article); ("https://github.com/o/r", Github);
        ("https://a.example/x", Other)]) 1
  = [("https://a.example/x", Article); ("https://github.com/o/r", Github)]
  /\ forall t, In ("https://a.example/x", t)
                 (links_of_post
                    (replace_links Samples.db_day11 1
                       [("https://a.example/x", Article); ("https://github.com/o/r", Github);
                        ("https://a.example/x", Other)]) 1)
               -> first_occurrence
                    [("https://a.example/x", Article); ("https://github.com/o/r", Github);
                     ("https://a.example/x", Other)] "https://a.example/x" t.
Proof.
  assert (Hpost : In 1 (map p_id (posts Samples.db_day11))) by (vm_compute; left; reflexivity).
  split; [vm_compute; reflexivity|]. intros t Hin.
  exact (proj1 (proj1 (proj2 (replace_links_first_occurrence Samples.db_day11 1
                                [("https://a.example/x", Article); ("https://github.com/o/r", Github);
                                 ("https://a.example/x", Other)] Hpost))
                  "https://a.example/x" t) Hin).
Defined.

Lemma upsert_snapshot_last_write_wins_witness :
  exists s,
    In s (snapshots (upsert_snapshot Samples.db_day11 1 11 20 ∅ (Some 7) None))
    /\ snapshot_carries 1 11 20 ∅ (Some 7) None s
    /\ List.length (snapshots (upsert_snapshot Samples.db_day11 1 11 20 ∅ (Some 7) None))
       = List.length (snapshots Samples.db_day11).
Proof.
  assert (Hpost : In 1 (map p_id (posts Samples.db_day11))) by (vm_compute; left; reflexivity).
  destruct (upsert_snapshot_last_write_wins 1 11 20 ∅ (Some 7) None Samples.db_day11
              ReportingSpec.db_day11_wf Hpost)
    as ((s & Hin & Hs & _) & _ & Hlen).
  exists s. split; [exact Hin|]. split; [exact Hs|]. rewrite Hlen.
  replace (existsb (snapshot_has_key 1 11) (snapshots Samples.db_day11)) with true
    by (vm_compute; reflexivity).
  apply Nat.add_0_r.
Defined.

End StoreSpec.


(** ** What a scrape run keeps *)

Module RunSpec.

Import Extractors Db Service DbProps ServiceProps DbSpec ServiceSpec StoreProps StoreSpec RunProps.

(** *** One stored message *)

Lemma insert_links_post_ids (Q : Z -> Prop) (pid : Z) (ls : list (string * link_type)) (c : Db.conn) :
  Forall (fun l => Q (l_post_id l)) (links c) -> Q pid ->
  Forall (fun l => Q (l_post_id l)) (links (fold_left (insert_link_or_ignore pid) ls c)).
Proof.
  intros Hall Hpid. revert c Hall. induction ls as [|[url t] ls IH]; intros c Hall; [exact Hall|].
  cbn [fold_left]. apply IH. unfold insert_link_or_ignore.
  destruct (existsb (link_has_key pid url) (links c)); [exact Hall|]. cbn [links].
  apply Forall_app. split; [exact Hall | repeat constructor; exact Hpid].
Qed.

Lemma replace_links_post_ids (Q : Z -> Prop) (c : Db.conn) (pid : Z) (ls : list (string * link_type)) :
  Forall (fun l => Q (l_post_id l)) (links c) -> Q pid ->
  Forall (fun l => Q (l_post_id l)) (links (replace_links c pid ls)).
Proof.
  intros Hall Hpid. unfold replace_links.
  set (c' := {| posts := posts c |}).
  assert (Hc' : Forall (fun l => Q (l_post_id l)) (links c')).
  { cbn. apply List.Forall_forall. intros l [Hl _]%filter_In.
    rewrite List.Forall_forall in Hall. now apply Hall. }
  destruct ls; [exact Hc' | now apply insert_links_post_ids].
Qed.

Lemma upsert_snapshot_post_ids (Q : Z -> Prop) (c : Db.conn) (pid day total : Z)
    (reactions : gmap string Z) (views forwards : option Z) :
  Forall (fun s => Q (s_post_id s)) (snapshots c) -> Q pid ->
  Forall (fun s => Q (s_post_id s))
         (snapshots (upsert_snapshot c pid day total reactions views forwards)).
Proof.
  intros Hall Hpid.
  destruct (upsert_snapshot_rows pid day total reactions views forwards c)
    as [[_ ->] | [_ (new & -> & Hnew & _)]].
  - apply List.Forall_forall. intros s (r & <- & Hr)%in_map_iff.
    rewrite List.Forall_forall in Hall. specialize (Hall r Hr).
    now destruct (snapshot_has_key pid day r).
  - apply Forall_app. split; [exact Hall|]. repeat constructor.
    destruct Hnew as (-> & _). exact Hpid.
Qed.

Lemma snapshots_of_post_upsert (c : Db.conn) (pid day total : Z)
    (reactions : gmap string Z) (views forwards : option Z) (q : Z) :
  q <> pid ->
  snapshots_of_post (upsert_snapshot c pid day total reactions views forwards) q
  = snapshots_of_post c q.
Proof.
  intros Hq. unfold snapshots_of_post.
  destruct (upsert_snapshot_rows pid day total reactions views forwards c)
    as [[_ ->] | [_ (new & -> & Hnew & _)]].
  - induction (snapshots c) as [|r l IH]; [reflexivity|]. cbn [map List.filter].
    destruct (snapshot_has_key pid day r) eqn:Hk.
    + unfold snapshot_has_key in Hk. apply andb_true_iff in Hk as [Hp%Z.eqb_eq _].
      cbn [s_post_id DbProps.refreshed_snapshot].
      replace (s_post_id r =? q) with false by (symmetry; apply Z.eqb_neq; lia). exact IH.
    + destruct (s_post_id r =? q); [now rewrite IH | exact IH].
  - rewrite List.filter_app. cbn [List.filter]. destruct Hnew as (-> & _).
    replace (pid =? q) with false by (symmetry; apply Z.eqb_neq; lia). apply app_nil_r.
Qed.

(** The writes of one [store_message]. *)
Lemma store_message_writes (c c1 : Db.conn) (ch : channel_info) (day dt : Z) (m : message) :
  store_message c ch day dt m = Ok c1 ->
  exists c' pid typed,
    upsert_post c (channel_id ch) (channel_username ch) (channel_title ch) (msg_id m)
      (post_url_of ch m) (isoformat dt) (msg_message m) (msg_views m) (msg_forwards m)
      = Ok (c', pid)
    /\ posts c1 = posts c'
    /\ links c1 = links (replace_links c' pid typed)
    /\ snapshots c1
       = snapshots (upsert_snapshot c' pid day
                      (total_reactions (extract_reactions (msg_reactions m)))
                      (extract_reactions (msg_reactions m)) (msg_views m) (msg_forwards m))
    /\ links c' = links c /\ snapshots c' = snapshots c
    /\ In pid (map p_id (posts c'))
    /\ (exists row, In row (posts c') /\ p_id row = pid
                    /\ post_key row = (channel_id ch, msg_id m)).
Proof.
  intros Hst. apply store_message_ok in Hst as (c' & pid & typed & Hup & _ & ->).
  exists c', pid, typed. split; [exact Hup|].
  pose proof (replace_links_frame c' pid typed) as (Hp & _ & Hs & Hsq).
  pose proof (upsert_snapshot_frame pid day
                (total_reactions (extract_reactions (msg_reactions m)))
                (extract_reactions (msg_reactions m)) (msg_views m) (msg_forwards m)
                (replace_links c' pid typed)) as (Hp' & _ & Hl' & _).
  split; [now rewrite Hp', Hp|]. split; [exact Hl'|].
  assert (Hsnap : snapshots (upsert_snapshot (replace_links c' pid typed) pid day
                      (total_reactions (extract_reactions (msg_reactions m)))
                      (extract_reactions (msg_reactions m)) (msg_views m) (msg_forwards m))
                  = snapshots (upsert_snapshot c' pid day
                      (total_reactions (extract_reactions (msg_reactions m)))
                      (extract_reactions (msg_reactions m)) (msg_views m) (msg_forwards m))).
  { unfold upsert_snapshot. rewrite Hs, Hsq. now destruct (existsb _ (snapshots c')). }
  split; [exact Hsnap|].
  destruct (upsert_post_rows _ _ _ _ _ _ _ _ _ c c' pid Hup) as (Hl & _ & Hsn & _ & Hcases).
  split; [exact Hl|]. split; [exact Hsn|].
  assert (Hrow : exists row, In row (posts c') /\ p_id row = pid
                             /\ post_key row = (channel_id ch, msg_id m)).
  { destruct Hcases as [(_ & -> & _ & r0 & Hfind & ->) | (_ & (new & -> & Hnew & Hid) & _)].
    - apply find_some in Hfind as [Hin Hk].
      exists (DbProps.refreshed_post (channel_username ch) (channel_title ch) (post_url_of ch m)
                (isoformat dt) (msg_message m) (msg_views m) (msg_forwards m) r0).
      split; [apply in_map_iff; exists r0; now rewrite Hk|]. split; [reflexivity|].
      now apply post_has_key_spec in Hk.
    - exists new. split; [apply in_app_iff; right; now left|]. split; [exact Hid|].
      destruct Hnew as (H1 & H2 & _). unfold post_key. now rewrite H1, H2. }
  split; [|exact Hrow].
  destruct Hrow as (row & Hin & <- & _). now apply in_map.
Qed.

Lemma upsert_post_ids_kept (c c' : Db.conn) (pid : Z) ch_id user title mid url dt text v f :
  upsert_post c ch_id user title mid url dt text v f = Ok (c', pid) ->
  forall r, In r (posts c) ->
    exists r', In r' (posts c') /\ p_id r' = p_id r
               /\ p_channel_id r' = p_channel_id r /\ p_message_id r' = p_message_id r
               /\ (post_has_key ch_id mid r = false -> r' = r).
Proof.
  intros Hup r Hr.
  destruct (upsert_post_rows _ _ _ _ _ _ _ _ _ c c' pid Hup) as (_ & _ & _ & _ & Hcases).
  destruct Hcases as [(_ & -> & _) | (_ & (new & -> & _) & _)].
  - exists (if post_has_key ch_id mid r
            then DbProps.refreshed_post user title url dt text v f r else r).
    split; [apply in_map_iff; now exists r|].
    destruct (post_has_key ch_id mid r); repeat split; congruence.
  - exists r. split; [apply in_app_iff; now left|]. repeat split.
Qed.

Lemma NoDup_map_eq {A B} (f : A -> B) (l : list A) (a b : A) :
  NoDup (map f l) -> In a l -> In b l -> f a = f b -> a = b.
Proof.
  induction l as [|x l IH]; [intros _ []|]. cbn [map].
  intros [Hx Hnd]%NoDup_cons [<- | Ha] [<- | Hb] Heq; auto.
  - exfalso. apply Hx. apply list_elem_of_In. rewrite Heq. now apply in_map.
  - exfalso. apply Hx. apply list_elem_of_In. rewrite <- Heq. now apply in_map.
Qed.

(** X9: storing a message writes to its own post only.  The row of
    any other post, the links of that post and its snapshots are afterwards
    what they were before. *)
Theorem store_message_other_posts
    (db db1 : Db.conn) (ch : channel_info) (day dt : Z) (m : message) (r : post_row) :
  db_wf db -> store_message db ch day dt m = Ok db1 ->
  In r (posts db) -> post_key r <> (channel_id ch, msg_id m) ->
  In r (posts db1)
  /\ links_of_post db1 (p_id r) = links_of_post db (p_id r)
  /\ snapshots_of_post db1 (p_id r) = snapshots_of_post db (p_id r).
Proof.
  intros Hwf Hst Hr Hkey.
  destruct (store_message_writes db db1 ch day dt m Hst)
    as (c' & pid & typed & Hup & Hposts & Hlinks & Hsnaps & Hl & Hs & _ & row & Hrow & Hid & Hrk).
  assert (Hnk : post_has_key (channel_id ch) (msg_id m) r = false).
  { destruct (post_has_key (channel_id ch) (msg_id m) r) eqn:Hk; [|reflexivity].
    apply post_has_key_spec in Hk. contradiction. }
  destruct (upsert_post_ids_kept db c' pid _ _ _ _ _ _ _ _ _ Hup r Hr)
    as (r' & Hr' & _ & _ & _ & Hsame).
  specialize (Hsame Hnk). subst r'.
  assert (Hne : p_id r <> pid).
  { intros Heq. apply Hkey. rewrite <- Hrk. f_equal.
    apply (NoDup_map_eq p_id (posts c')); [|exact Hr' | exact Hrow | congruence].
    exact (wf_posts_id c' (upsert_post_wf _ _ _ _ _ _ _ _ _ db c' pid Hwf Hup)). }
  split; [now rewrite Hposts|]. split.
  - unfold links_of_post. rewrite Hlinks.
    change (links_of_post (replace_links c' pid typed) (p_id r) = links_of_post db (p_id r)).
    rewrite replace_links_other_post by exact Hne. unfold links_of_post. now rewrite Hl.
  - unfold snapshots_of_post. rewrite Hsnaps.
    change (snapshots_of_post
              (upsert_snapshot c' pid day (total_reactions (extract_reactions (msg_reactions m)))
                 (extract_reactions (msg_reactions m)) (msg_views m) (msg_forwards m)) (p_id r)
            = snapshots_of_post db (p_id r)).
    rewrite snapshots_of_post_upsert by exact Hne. unfold snapshots_of_post. now rewrite Hs.
Qed.

(** *** What a whole run keeps *)

Lemma store_message_fk (c c1 : Db.conn) (ch : channel_info) (day dt : Z) (m : message) :
  db_fk c -> store_message c ch day dt m = Ok c1 -> db_fk c1.
Proof.
  intros [Hfl Hfs] Hst.
  destruct (store_message_writes c c1 ch day dt m Hst)
    as (c' & pid & typed & Hup & Hposts & Hlinks & Hsnaps & Hl & Hs & Hpid & _).
  assert (Hincl : forall x, In x (map p_id (posts c)) -> In x (map p_id (posts c'))).
  { intros x (r & <- & Hr)%in_map_iff.
    destruct (upsert_post_ids_kept c c' pid _ _ _ _ _ _ _ _ _ Hup r Hr) as (r' & Hr' & <- & _).
    now apply in_map. }
  split; rewrite Hposts.
  - rewrite Hlinks. apply (replace_links_post_ids (fun x => In x (map p_id (posts c')))).
    + rewrite Hl. eapply List.Forall_impl; [|exact Hfl]. cbn. auto.
    + exact Hpid.
  - rewrite Hsnaps. apply (upsert_snapshot_post_ids (fun x => In x (map p_id (posts c')))).
    + rewrite Hs. eapply List.Forall_impl; [|exact Hfs]. cbn. auto.
    + exact Hpid.
Qed.

Lemma keeps_rows_refl (day : Z) (c : Db.conn) : keeps_rows day c c.
Proof. split; intros x Hx; exists x; repeat split; auto. Qed.

Lemma keeps_rows_trans (day : Z) (a b c : Db.conn) :
  keeps_rows day a b -> keeps_rows day b c -> keeps_rows day a c.
Proof.
  intros [Hp1 Hs1] [Hp2 Hs2]. split.
  - intros r Hr. destruct (Hp1 r Hr) as (r1 & Hr1 & E1 & E2 & E3).
    destruct (Hp2 r1 Hr1) as (r2 & Hr2 & F1 & F2 & F3).
    exists r2. repeat split; congruence.
  - intros s Hs. destruct (Hs1 s Hs) as (s1 & Hin1 & E1 & E2 & E3 & E4).
    destruct (Hs2 s1 Hin1) as (s2 & Hin2 & F1 & F2 & F3 & F4).
    exists s2. repeat split; try congruence.
    intros Hd. rewrite F4 by congruence. now apply E4.
Qed.

Lemma store_message_keeps_rows (c c1 : Db.conn) (ch : channel_info) (day dt : Z) (m : message) :
  store_message c ch day dt m = Ok c1 -> keeps_rows day c c1.
Proof.
  intros Hst.
  destruct (store_message_writes c c1 ch day dt m Hst)
    as (c' & pid & typed & Hup & Hposts & _ & Hsnaps & _ & Hs & _).
  split.
  - intros r Hr. rewrite Hposts.
    destruct (upsert_post_ids_kept c c' pid _ _ _ _ _ _ _ _ _ Hup r Hr)
      as (r' & Hr' & E1 & E2 & E3 & _).
    exists r'. repeat split; assumption.
  - intros s Hin. rewrite Hsnaps. rewrite <- Hs in Hin.
    destruct (upsert_snapshot_rows pid day (total_reactions (extract_reactions (msg_reactions m)))
                (extract_reactions (msg_reactions m)) (msg_views m) (msg_forwards m) c')
      as [[_ ->] | [_ (new & -> & _)]].
    + exists (if snapshot_has_key pid day s
              then DbProps.refreshed_snapshot
                     (total_reactions (extract_reactions (msg_reactions m)))
                     (extract_reactions (msg_reactions m)) (msg_views m) (msg_forwards m) s
              else s).
      split; [apply in_map_iff; now exists s|].
      destruct (snapshot_has_key pid day s) eqn:Hk; repeat split; try reflexivity.
      intros Hd. exfalso. apply Hd. unfold snapshot_has_key in Hk.
      apply andb_true_iff in Hk as [_ Hk]. now apply Z.eqb_eq in Hk.
    + exists s. split; [apply in_app_iff; now left|]. repeat split.
Qed.

Section RunInvariant.

Variable I : Db.conn -> Prop.
Variable day : Z.
Hypothesis I_store :
  forall c ch dt m c1, I c -> store_message c ch day dt m = Ok c1 -> I c1.

Lemma scrape_messages_inv (since : Z) (ch : channel_info) (stream : list (result tg_message))
    (c : Db.conn) (n : Z) (c' : Db.conn) (k : Z) (rest : list (result tg_message)) :
  I c -> scrape_messages since day ch stream c n = Ok (c', k, rest) -> I c'.
Proof.
  revert c n. induction stream as [|[msg|e] stream IH]; intros c n Hc; cbn [scrape_messages].
  - now intros [= <- _ _].
  - destruct (date msg) as [d|]; [|now apply IH].
    destruct (_normalize_dt d <? since); [now intros [= <- _ _]|].
    destruct (store_message c ch day (_normalize_dt d) (content msg)) as [c1|e] eqn:Hst;
      [|discriminate].
    cbn. apply IH. eapply I_store; eauto.
  - discriminate.
Qed.

Lemma scrape_channel_inv (cl : client) (since : Z) (st st' : run_state) (raw : string) :
  I (conn st) -> scrape_channel cl since day st raw = Ok st' -> I (conn st').
Proof.
  intros Hc. unfold scrape_channel. destruct (get_entity cl _) as [ent|e].
  - destruct (scrape_messages _ _ _ _ _ _) as [[[c' k] rest]|e] eqn:Hsm; [|discriminate].
    cbn. intros [= <-]. cbn. eapply scrape_messages_inv; eauto.
  - destruct (is_resolution_error e); intros [= <-]; exact Hc.
Qed.

Lemma scrape_channels_inv (cl : client) (since : Z) (chans : list string) (st st' : run_state) :
  I (conn st) -> scrape_channels cl since day st chans = Ok st' -> I (conn st').
Proof.
  revert st. induction chans as [|raw chans IH]; intros st Hc; cbn [scrape_channels].
  - now intros [= <-].
  - destruct (scrape_channel cl since day st raw) as [st1|e] eqn:H1; [|discriminate].
    cbn. apply IH. eapply scrape_channel_inv; eauto.
Qed.

End RunInvariant.

Lemma scrape_lookback_inv (I : Db.conn -> Prop) (settings : Settings) (cl : client)
    (now now' : Z) (lookback : option Z) (db db' : Db.conn)
    (r : result (ScrapeStats * list log_record)) :
  (forall c ch dt m c1, I c -> store_message c ch (utc_date now') dt m = Ok c1 -> I c1) ->
  I db -> scrape_lookback settings cl now now' lookback db = (r, db') -> I db'.
Proof.
  intros Hstore Hdb. unfold scrape_lookback.
  destruct (scrape_channels _ _ _ _ _) as [st|e] eqn:Hrun; intros [= _ <-]; [|exact Hdb].
  eapply (scrape_channels_inv I (utc_date now') Hstore); [|exact Hrun]. exact Hdb.
Qed.

(** X10: a run keeps the constraints of the schema.  From a state that
    satisfies the UNIQUE keys and the FOREIGN KEYs, the state a run leaves
    behind satisfies them too, whether the run returns statistics or ends
    with an exception. *)
Theorem scrape_lookback_keeps_constraints
    (settings : Settings) (cl : client) (now now' : Z) (lookback : option Z) (db : Db.conn) :
  db_wf db -> db_fk db ->
  db_wf (snd (scrape_lookback settings cl now now' lookback db))
  /\ db_fk (snd (scrape_lookback settings cl now now' lookback db)).
Proof.
  intros Hwf Hfk.
  apply (scrape_lookback_inv (fun c => db_wf c /\ db_fk c)
           settings cl now now' lookback db _
           (fst (scrape_lookback settings cl now now' lookback db)));
    [|now split | apply surjective_pairing].
  intros c ch dt m c1 [Hw Hf] Hst. split.
  - eapply store_message_wf; eauto.
  - eapply store_message_fk; eauto.
Qed.

(** X11: a run deletes nothing.  Every post stored before the run is
    stored after it under the same id and key, and so is every snapshot;
    a snapshot dated another day than the run's snapshot day is left
    exactly as it was. *)
Theorem scrape_lookback_keeps_history
    (settings : Settings) (cl : client) (now now' : Z) (lookback : option Z) (db : Db.conn) :
  keeps_rows (utc_date now') db (snd (scrape_lookback settings cl now now' lookback db))
  /\ forall s, In s (snapshots db) -> s_snapshot_date s <> utc_date now' ->
               In s (snapshots (snd (scrape_lookback settings cl now now' lookback db))).
Proof.
  assert (Hkeep : keeps_rows (utc_date now') db
                    (snd (scrape_lookback settings cl now now' lookback db))).
  { apply (scrape_lookback_inv (keeps_rows (utc_date now') db)
             settings cl now now' lookback db _
             (fst (scrape_lookback settings cl now now' lookback db)));
      [|apply keeps_rows_refl | apply surjective_pairing].
    intros c ch dt m c1 Hc Hst. eapply keeps_rows_trans; [exact Hc|].
    eapply store_message_keeps_rows; eauto. }
  split; [exact Hkeep|].
  intros s Hs Hd. destruct Hkeep as [_ Hsn].
  destruct (Hsn s Hs) as (s' & Hin & _ & _ & _ & Heq). now rewrite <- (Heq Hd).
Qed.

(** *** Lookback values without a window *)

Lemma scrape_messages_future_cutoff (since day now : Z) (ch : channel_info)
    (stream : list (result tg_message)) (c : Db.conn) (n : Z) :
  now < since -> Forall (not_after now) stream ->
  exists rest, scrape_messages since day ch stream c n = Ok (c, n, rest).
Proof.
  intros Hlt Hall. induction Hall as [|r stream (msg & -> & Hmsg) Hall IH]; cbn [scrape_messages].
  - now exists [].
  - destruct (date msg) as [d|]; [|exact IH].
    specialize (Hmsg d eq_refl).
    replace (_normalize_dt d <? since) with true by (symmetry; apply Z.ltb_lt; lia).
    now exists stream.
Qed.

Lemma scrape_channels_future_cutoff (cl : client) (since day now : Z)
    (chans : list string) (st : run_state) :
  now < since -> no_future_messages cl now ->
  exists st',
    scrape_channels cl since day st chans = Ok st'
    /\ conn st' = conn st
    /\ posts_processed (stats st') = posts_processed (stats st)
    /\ channels_total (stats st') = channels_total (stats st)
    /\ channels_ok (stats st') + channels_failed (stats st')
       = channels_ok (stats st) + channels_failed (stats st) + Z.of_nat (List.length chans).
Proof.
  intros Hlt Hcl. revert st. induction chans as [|raw chans IH]; intros st.
  - exists st. cbn. repeat split; lia.
  - cbn [scrape_channels].
    assert (Hone : exists st1,
               scrape_channel cl since day st raw = Ok st1
               /\ conn st1 = conn st
               /\ posts_processed (stats st1) = posts_processed (stats st)
               /\ channels_total (stats st1) = channels_total (stats st)
               /\ channels_ok (stats st1) + channels_failed (stats st1)
                  = channels_ok (stats st) + channels_failed (stats st) + 1).
    { unfold scrape_channel. destruct (get_entity cl _) as [ent|e] eqn:Hent.
      - destruct (scrape_messages_future_cutoff since day now
                    {| channel_title := default (Str.lstrip (Ascii.eqb "@") raw) (ent_title ent);
                       channel_username := ent_username ent;
                       channel_id := ent_id ent |}
                    (iter_messages cl ent) (conn st) 0 Hlt (Hcl _ _ Hent)) as [rest ->].
        cbn. eexists. split; [reflexivity|]. cbn. repeat split; lia.
      - destruct (is_resolution_error e); eexists; (split; [reflexivity|]); cbn;
          repeat split; lia. }
    destruct Hone as (st1 & -> & Hc1 & Hp1 & Ht1 & Hs1). cbn.
    destruct (IH st1) as (st' & Hrun & Hc & Hp & Ht & Hs).
    exists st'. split; [exact Hrun|]. rewrite Hc, Hp, Ht, Hs, Hc1, Hp1, Ht1.
    cbn [List.length]. repeat split; lia.
Qed.

(** X12: lookback values without a window.  A lookback of 0 stands for
    the configured one.  With a negative lookback the cutoff lies after the
    clock reading (it has to be an instant [datetime] can hold), so when
    no channel holds a message dated after that reading the run stores no
    post: it returns statistics with every channel counted and no post
    processed, and leaves the stored state as it was. *)
Theorem scrape_lookback_without_window
    (settings : Settings) (cl : client) (now now' : Z) (db : Db.conn) :
  scrape_lookback settings cl now now' (Some 0) db
    = scrape_lookback settings cl now now' None db
  /\ forall d,
       d < 0 -> valid_instant (since_dt settings now (Some d)) ->
       no_future_messages cl now ->
       exists st log,
         scrape_lookback settings cl now now' (Some d) db = (Ok (st, log), db)
         /\ posts_processed st = 0
         /\ channels_total st = Z.of_nat (List.length (channels settings))
         /\ channels_ok st + channels_failed st = channels_total st.
Proof.
  split; [reflexivity|]. intros d Hd _ Hcl. unfold scrape_lookback.
  assert (Hlt : now < since_dt settings now (Some d)).
  { unfold since_dt, effective_lookback, timedelta_days, MICROSECONDS_PER_DAY.
    replace (d =? 0) with false by (symmetry; apply Z.eqb_neq; lia). lia. }
  destruct (scrape_channels_future_cutoff cl (since_dt settings now (Some d)) (utc_date now') now
              (channels settings)
              {| stats := {| channels_total := Z.of_nat (List.length (channels settings));
                             channels_ok := 0; channels_failed := 0; posts_processed := 0 |};
                 conn := db;
                 log := [LogInfo "Telegram client started."] |} Hlt Hcl)
    as (st' & -> & Hc & Hp & Ht & Hs).
  cbn in Hc, Hp, Ht, Hs. exists (stats st'), (log st'). rewrite Hc.
  repeat split; [exact Hp | exact Ht | lia].
Qed.

(** *** Closed instances *)

Lemma stored_wf (c : Db.conn) (ch : channel_info) (day dt : Z) (m : message) :
  db_wf c -> db_wf (Samples.stored (store_message c ch day dt m)).
Proof.
  intros Hwf. destruct (store_message c ch day dt m) as [c1|e] eqn:Hst; cbn [Samples.stored].
  - exact (store_message_wf _ _ _ _ _ _ Hwf Hst).
  - apply db_wf_empty.
Qed.

Lemma db_ties_wf : db_wf Samples.db_ties.
Proof. unfold Samples.db_ties. do 3 apply stored_wf. apply db_wf_empty. Qed.

Lemma store_message_other_posts_witness :
  Forall (fun r =>
            post_key r <> (1001, 43) ->
            In r (posts (Samples.stored
                           (store_message Samples.db_ties Samples.ml_channel 12
                              (Samples.at_hour 9 8) Samples.post43)))
            /\ links_of_post (Samples.stored
                                (store_message Samples.db_ties Samples.ml_channel 12
                                   (Samples.at_hour 9 8) Samples.post43)) (p_id r)
               = links_of_post Samples.db_ties (p_id r))
         (posts Samples.db_ties)
  /\ map p_message_id (posts Samples.db_ties) = [43; 44; 45].
Proof.
  split; [|vm_compute; reflexivity].
  assert (Hrun : store_message Samples.db_ties Samples.ml_channel 12
                   (Samples.at_hour 9 8) Samples.post43
                 = Ok (Samples.stored
                         (store_message Samples.db_ties Samples.ml_channel 12
                            (Samples.at_hour 9 8) Samples.post43)))
    by (vm_compute; reflexivity).
  apply List.Forall_forall. intros r Hr Hkey.
  pose proof (store_message_other_posts Samples.db_ties _ Samples.ml_channel 12
                (Samples.at_hour 9 8) Samples.post43 r db_ties_wf Hrun Hr Hkey) as (H1 & H2 & _).
  split; [exact H1 | exact H2].
Defined.

Lemma db_fk_empty : db_fk empty_db.
Proof. split; constructor. Qed.

Lemma scrape_lookback_keeps_constraints_witness :
  db_wf (snd (scrape_lookback (Samples.settings_of ["@mldaily"; "private"])
                Samples.sample_client (Samples.at_hour 10 12) (Samples.at_hour 10 12)
                (Some 1) empty_db))
  /\ db_fk (snd (scrape_lookback (Samples.settings_of ["@mldaily"; "private"])
                   Samples.sample_client (Samples.at_hour 10 12) (Samples.at_hour 10 12)
                   (Some 1) empty_db)).
Proof.
  exact (scrape_lookback_keeps_constraints (Samples.settings_of ["@mldaily"; "private"])
           Samples.sample_client (Samples.at_hour 10 12) (Samples.at_hour 10 12)
           (Some 1) empty_db db_wf_empty db_fk_empty).
Defined.

Lemma scrape_lookback_keeps_history_witness :
  keeps_rows (utc_date (Samples.at_hour 11 12)) Samples.db_day10
    (snd (scrape_lookback (Samples.settings_of ["@mldaily"]) Samples.sample_client
            (Samples.at_hour 11 12) (Samples.at_hour 11 12) (Some 3) Samples.db_day10)).
Proof.
  exact (proj1 (scrape_lookback_keeps_history (Samples.settings_of ["@mldaily"])
                  Samples.sample_client (Samples.at_hour 11 12) (Samples.at_hour 11 12)
                  (Some 3) Samples.db_day10)).
Defined.

Lemma quiet_client_no_future :
  no_future_messages MoreSamples.quiet_client (Samples.at_hour 10 12).
Proof.
  intros name ent _. constructor; [|constructor].
  eexists. split; [reflexivity|]. intros d [= <-]. vm_compute. discriminate.
Qed.

Lemma scrape_lookback_without_window_witness :
  exists st log,
    scrape_lookback (Samples.settings_of ["a"; "b"]) MoreSamples.quiet_client
      (Samples.at_hour 10 12) (Samples.at_hour 10 12) (Some (-2)) Samples.db_day10
    = (Ok (st, log), Samples.db_day10)
    /\ posts_processed st = 0.
Proof.
  assert (Hcut : valid_instant (since_dt (Samples.settings_of ["a"; "b"])
                                  (Samples.at_hour 10 12) (Some (-2))))
    by (vm_compute; split; [discriminate | reflexivity]).
  destruct (proj2 (scrape_lookback_without_window (Samples.settings_of ["a"; "b"])
                     MoreSamples.quiet_client
                     (Samples.at_hour 10 12) (Samples.at_hour 10 12) Samples.db_day10)
              (-2) eq_refl Hcut quiet_client_no_future)
    as (st & log & Hrun & Hposts & _).
  exists st, log. split; [exact Hrun | exact Hposts].
Defined.

End RunSpec.


(** ** Link filters and the ranking *)

Module RankingSpec.

Import Extractors Db Reporting DbProps ReportingProps DbSpec ReportingSpec RankingProps.

(** *** Link lists and link filters *)

Lemma urls_of_type_In (t : link_type) (rows : list (string * link_type)) (u : string) :
  In u (urls_of_type t rows) <-> In (u, t) rows.
Proof.
  unfold urls_of_type. rewrite in_map_iff. split.
  - intros ([u' t'] & <- & [Hin Ht]%filter_In). cbn in *.
    apply bool_decide_eq_true in Ht. now subst.
  - intros Hin. exists (u, t). split; [reflexivity|]. apply filter_In. split; [exact Hin|].
    now apply bool_decide_eq_true.
Qed.

Lemma split_links_lengths (rows : list (string * link_type)) :
  (List.length (urls_of_type Github rows) + List.length (urls_of_type Research rows)
   + List.length (urls_of_type Article rows)
   + List.length (List.filter is_internal_link rows))%nat
  = List.length rows.
Proof.
  unfold urls_of_type. rewrite !length_map.
  induction rows as [|[u t] rows IH]; [reflexivity|].
  destruct t; simpl; simpl in IH; lia.
Qed.

(** X13: [_split_links] sorts the links of a post into repository,
    paper and article links and drops the rest: a URL is in one of the
    three lists exactly when the post has it with that category, every
    link is counted once, and Telegram links and links without a host are
    in none of the lists, so a post that has only such links fails
    [require_external_links]. *)
Theorem split_links_drops_internal (rows : list (string * link_type)) :
  (forall u, In u (_split_links rows).1.1 <-> In (u, Github) rows)
  /\ (forall u, In u (_split_links rows).1.2 <-> In (u, Research) rows)
  /\ (forall u, In u (_split_links rows).2 <-> In (u, Article) rows)
  /\ (List.length (_split_links rows).1.1 + List.length (_split_links rows).1.2
      + List.length (_split_links rows).2
      + List.length (List.filter is_internal_link rows))%nat = List.length rows
  /\ (forallb is_internal_link rows = true ->
      _split_links rows = ([], [], [])
      /\ forall ro rg,
           _passes_link_filters (_split_links rows).1.1 (_split_links rows).1.2
             (_split_links rows).2 true ro rg = false).
Proof.
  unfold _split_links. cbn [fst snd].
  split; [intros u; apply urls_of_type_In|].
  split; [intros u; apply urls_of_type_In|].
  split; [intros u; apply urls_of_type_In|].
  split; [apply split_links_lengths|].
  intros Hall.
  assert (Hnone : forall t, t = Github \/ t = Research \/ t = Article -> urls_of_type t rows = []).
  { intros t Ht. destruct (urls_of_type t rows) as [|u l] eqn:Hu; [reflexivity|]. exfalso.
    assert (Hin : In (u, t) rows) by (apply urls_of_type_In; rewrite Hu; now left).
    rewrite forallb_forall in Hall. specialize (Hall _ Hin).
    unfold is_internal_link in Hall. cbn in Hall.
    destruct Ht as [-> | [-> | ->]]; discriminate. }
  rewrite !Hnone by tauto. split; [reflexivity|].
  intros ro rg. unfold _passes_link_filters. cbn. now destruct rg.
Qed.

Lemma split_links_drops_internal_witness :
  _split_links [("https://t.me/c/1", Telegram); ("no host", Other)] = ([], [], [])
  /\ _passes_link_filters
       (_split_links [("https://t.me/c/1", Telegram); ("no host", Other)]).1.1
       (_split_links [("https://t.me/c/1", Telegram); ("no host", Other)]).1.2
       (_split_links [("https://t.me/c/1", Telegram); ("no host", Other)]).2
       true false false = false.
Proof.
  destruct (proj2 (proj2 (proj2 (proj2
              (split_links_drops_internal [("https://t.me/c/1", Telegram); ("no host", Other)]))))
              eq_refl) as [Hnone Hfail].
  split; [exact Hnone | exact (Hfail false false)].
Defined.

Lemma nonempty_spec {A} (l : list A) : nonempty l = true <-> l <> [].
Proof. destruct l; cbn; split; congruence. Qed.

Lemma passes_link_filters_spec (gh rs ar : list string) (ext ro rg : bool) :
  _passes_link_filters gh rs ar ext ro rg = true <-> filters_hold gh rs ar ext ro rg.
Proof.
  unfold _passes_link_filters, filters_hold.
  destruct gh as [|g gh], rs as [|r rs], ar as [|a ar], ext, ro, rg; cbn;
    intuition (try congruence); try discriminate.
Qed.

(** X14: [_passes_link_filters] holds exactly when every flag that is
    set is met: [require_github] needs a repository link,
    [require_external_links] a link in any of the three lists and
    [research_only] a paper link.  Hence no flag set lets every post
    through, and [require_external_links] adds nothing to
    [require_github] or to [research_only]. *)
Theorem passes_link_filters_characterised (gh rs ar : list string) (ext ro rg : bool) :
  (_passes_link_filters gh rs ar ext ro rg = true <-> filters_hold gh rs ar ext ro rg)
  /\ _passes_link_filters gh rs ar false false false = true
  /\ _passes_link_filters gh rs ar ext ro true = _passes_link_filters gh rs ar false ro true
  /\ _passes_link_filters gh rs ar ext true rg = _passes_link_filters gh rs ar false true rg.
Proof.
  split; [apply passes_link_filters_spec|]. split; [|split].
  - apply passes_link_filters_spec. repeat split; discriminate.
  - apply eq_true_iff_eq. rewrite !passes_link_filters_spec. unfold filters_hold.
    intuition (try discriminate).
  - apply eq_true_iff_eq. rewrite !passes_link_filters_spec. unfold filters_hold.
    intuition (try discriminate).
Qed.

(** *** Raising the limit *)

Lemma firstn_prefix {A} (n m : nat) (l : list A) :
  (n <= m)%nat -> exists more, firstn m l = (firstn n l ++ more)%list.
Proof.
  intros Hle. exists (skipn n (firstn m l)).
  rewrite <- (firstn_skipn n (firstn m l)) at 1.
  rewrite firstn_firstn. now replace (Init.Nat.min n m) with n by lia.
Qed.

Lemma firstn_app_prefix {A} (n m : nat) (a z : list A) :
  (n <= m)%nat -> exists more, firstn m (a ++ z) = (firstn n a ++ more)%list.
Proof.
  intros Hle. destruct (firstn_prefix n m (a ++ z)%list Hle) as [more ->].
  rewrite firstn_app, <- app_assoc. eauto.
Qed.

Lemma take_count_mono (l l' : Z) : l <= l' -> (take_count l <= take_count l')%nat.
Proof. unfold take_count. lia. Qed.

Lemma candidates_limit_mono (l l' : Z) :
  l <= l' -> (Z.to_nat (candidates_limit l) <= Z.to_nat (candidates_limit l'))%nat.
Proof. unfold candidates_limit. lia. Qed.

(** X15: raising the limit only adds posts at the end.  The posts
    returned for a limit are the first posts, in the same order, of what
    is returned for any larger limit. *)
Theorem get_top_posts_limit_monotone
    (c : conn) (today d limit limit' : Z) (f : link_filters) :
  limit <= limit' ->
  exists more,
    get_top_posts c today d limit' f = (get_top_posts c today d limit f ++ more)%list.
Proof.
  intros Hle. rewrite !get_top_posts_spec. unfold ranked_candidates.
  destruct (firstn_prefix (Z.to_nat (candidates_limit limit)) (Z.to_nat (candidates_limit limit'))
              (order_by_rank (joined c (_window_start today d)))
              (candidates_limit_mono _ _ Hle)) as [rows ->].
  rewrite List.filter_app, List.map_app.
  apply firstn_app_prefix, take_count_mono, Hle.
Qed.

Lemma get_top_posts_limit_monotone_witness :
  exists more,
    get_top_posts Samples.db_ties 11 7 5 Samples.github_only
    = (get_top_posts Samples.db_ties 11 7 1 Samples.github_only ++ more)%list.
Proof. apply get_top_posts_limit_monotone. lia. Defined.

(** *** One row per post *)

Lemma NoDup_distinct (l : list Z) : NoDup (distinct l).
Proof.
  induction l as [|x l IH]; cbn [distinct]; constructor.
  - rewrite list_elem_of_In, filter_In. intros [_ H]. now rewrite Z.eqb_refl in H.
  - rewrite <- (map_id (List.filter _ (distinct l))).
    apply filter_key_nodup. now rewrite map_id.
Qed.

Lemma NoDup_flat_map_key {A B K} (f : A -> list B) (key : B -> K) (tag : A -> K) (l : list A) :
  NoDup (map tag l) ->
  (forall a b, In b (f a) -> key b = tag a) ->
  (forall a, NoDup (map key (f a))) ->
  NoDup (map key (flat_map f l)).
Proof.
  intros Hnd Hkey Hone. induction l as [|a l IH]; [constructor|].
  cbn [flat_map map] in *. apply NoDup_cons in Hnd as [Ha Hnd].
  rewrite List.map_app. apply NoDup_app. split; [apply Hone|]. split; [|now apply IH].
  intros k Hk1 Hk2. apply list_elem_of_In in Hk1, Hk2.
  apply in_map_iff in Hk1 as (b & <- & Hb), Hk2 as (b' & Heq & Hb').
  apply in_flat_map in Hb' as (a' & Ha' & Hb'). apply Ha. apply list_elem_of_In.
  rewrite <- (Hkey a b Hb), <- Heq, (Hkey a' b' Hb'). now apply in_map.
Qed.

Lemma NoDup_short {K} (l : list K) : (List.length l <= 1)%nat -> NoDup l.
Proof.
  destruct l as [|x [|y l]]; cbn; intros H; [constructor | | lia].
  constructor; [apply not_elem_of_nil | constructor].
Qed.

Lemma filter_key_short {A K} (key : A -> K) (has_key : A -> bool) (k : K) (l : list A) :
  (forall x, has_key x = true <-> key x = k) ->
  NoDup (map key l) -> (List.length (List.filter has_key l) <= 1)%nat.
Proof.
  intros Hspec Hnd. destruct (existsb has_key l) eqn:Hex.
  - rewrite (filter_key_unique key has_key k Hspec l Hnd Hex). lia.
  - rewrite (filter_key_absent key has_key k Hspec l); [cbn; lia|].
    now apply (existsb_key_false key has_key k Hspec).
Qed.

Lemma flat_map_short {A B} (f : A -> list B) (l : list A) :
  (List.length l <= 1)%nat -> (forall a, (List.length (f a) <= 1)%nat) ->
  (List.length (flat_map f l) <= 1)%nat.
Proof.
  destruct l as [|a [|b l]]; cbn; intros Hl Hf; [lia | | lia].
  rewrite app_nil_r. apply Hf.
Qed.

Lemma group_by_post_keys (agg : list Z -> option Z) (w : list snapshot_row) :
  NoDup (map fst (group_by_post agg w)).
Proof.
  unfold group_by_post.
  apply (NoDup_flat_map_key _ fst (fun id => id)).
  - rewrite map_id. apply NoDup_distinct.
  - intros id b Hb. destruct (agg (dates_of w id)); [|destruct Hb].
    destruct Hb as [<- | []]. reflexivity.
  - intros id. apply NoDup_short. destruct (agg (dates_of w id)); cbn; lia.
Qed.

Lemma fst_key_spec (pid : Z) (o : Z * Z) : (fst o =? pid) = true <-> fst o = pid.
Proof. apply Z.eqb_eq. Qed.

Lemma metrics_post_ids (w : list snapshot_row) :
  NoDup (map snapshot_key w) -> NoDup (map m_post_id (metrics w)).
Proof.
  intros Hw. unfold metrics.
  apply (NoDup_flat_map_key _ m_post_id fst).
  - apply group_by_post_keys.
  - intros l m Hm. apply in_flat_map in Hm as (wl & _ & Hm).
    apply in_flat_map in Hm as (o & _ & Hm). apply in_map_iff in Hm as (wo & <- & _).
    reflexivity.
  - intros l. apply NoDup_short. rewrite length_map.
    apply flat_map_short.
    + apply (filter_key_short snapshot_key _ (fst l, snd l));
        [intros x; apply snapshot_has_key_spec | exact Hw].
    + intros wl. apply flat_map_short.
      * apply (filter_key_short fst _ (fst l)); [intros x; apply Z.eqb_eq|].
        apply group_by_post_keys.
      * intros o. rewrite length_map.
        apply (filter_key_short snapshot_key _ (fst o, snd o));
          [intros x; apply snapshot_has_key_spec | exact Hw].
Qed.

Lemma joined_ids (c : conn) (start : Z) : db_wf c -> NoDup (map c_id (joined c start)).
Proof.
  intros Hwf. unfold joined.
  apply (NoDup_flat_map_key _ c_id m_post_id).
  - apply metrics_post_ids. unfold window. apply filter_key_nodup.
    exact (wf_snapshots_key c Hwf).
  - intros m r Hr. apply in_map_iff in Hr as (p & <- & [_ Hp]%filter_In).
    cbn. now apply Z.eqb_eq.
  - intros m. apply NoDup_short. rewrite !length_map.
    apply (filter_key_short p_id _ (m_post_id m)); [intros x; apply Z.eqb_eq|].
    exact (wf_posts_id c Hwf).
Qed.

Lemma insert_ranked_perm (x : candidate) (l : list candidate) :
  Permutation (insert_ranked x l) (x :: l).
Proof.
  induction l as [|y l IH]; cbn [insert_ranked]; [reflexivity|].
  destruct (rank_leb x y); [reflexivity|].
  rewrite IH. apply perm_swap.
Qed.

Lemma order_by_rank_perm (l : list candidate) : Permutation (order_by_rank l) l.
Proof.
  induction l as [|x l IH]; [reflexivity|].
  cbn [order_by_rank fold_right]. fold (order_by_rank l).
  rewrite insert_ranked_perm. now constructor.
Qed.

Lemma firstn_key_nodup {A K} (key : A -> K) (n : nat) (l : list A) :
  NoDup (map key l) -> NoDup (map key (firstn n l)).
Proof.
  revert n. induction l as [|x l IH]; intros [|n] Hnd; cbn; try constructor.
  - cbn [map] in Hnd. apply NoDup_cons in Hnd as [Hx Hnd].
    intros Hin. apply Hx. apply list_elem_of_In. apply list_elem_of_In in Hin.
    apply in_map_iff in Hin as (y & <- & Hy). apply in_map. eapply firstn_In; eauto.
  - cbn [map] in Hnd. apply NoDup_cons in Hnd as [_ Hnd]. now apply IH.
Qed.

Lemma ranked_candidates_ids (c : conn) (start n : Z) :
  db_wf c -> NoDup (map c_id (ranked_candidates c start n)).
Proof.
  intros Hwf. unfold ranked_candidates. apply firstn_key_nodup.
  rewrite (Permutation_map c_id (order_by_rank_perm (joined c start))).
  now apply joined_ids.
Qed.

(** X16: the ranking holds every post at most once.  On a stored
    state the rows of the ranking query have pairwise distinct post ids,
    and [get_top_posts] returns the posts of a duplicate-free selection of
    these rows, each of which passes the link filters. *)
Theorem get_top_posts_no_duplicates (c : conn) (today d limit : Z) (f : link_filters) :
  db_wf c ->
  NoDup (map c_id (ranked_candidates c (_window_start today d) (candidates_limit limit)))
  /\ exists rows,
       get_top_posts c today d limit f = map (to_top_post c) rows
       /\ NoDup (map c_id rows)
       /\ forall r, In r rows ->
            In r (ranked_candidates c (_window_start today d) (candidates_limit limit))
            /\ candidate_passes c f r = true.
Proof.
  intros Hwf. split; [now apply ranked_candidates_ids|].
  exists (firstn (take_count limit)
            (List.filter (candidate_passes c f)
               (ranked_candidates c (_window_start today d) (candidates_limit limit)))).
  split; [rewrite get_top_posts_spec; apply firstn_map|]. split.
  - apply firstn_key_nodup, filter_key_nodup. now apply ranked_candidates_ids.
  - intros r Hr. apply firstn_In in Hr. now apply filter_In in Hr.
Qed.

Lemma get_top_posts_no_duplicates_witness :
  NoDup (map c_id (ranked_candidates Samples.db_day11 (_window_start 11 7) (candidates_limit 5))).
Proof.
  exact (proj1 (get_top_posts_no_duplicates Samples.db_day11 11 7 5 Samples.no_filters
                  db_day11_wf)).
Defined.

(** *** Ties and time *)

Lemma get_top_posts_sorted (c : Db.conn) (today d limit : Z) (f : link_filters) :
  StronglySorted post_before (get_top_posts c today d limit f).
Proof.
  rewrite get_top_posts_spec. apply StronglySorted_firstn.
  apply (StronglySorted_map candidate_before).
  - intros a b Hab. unfold post_before, to_top_post, _split_links. exact Hab.
  - apply StronglySorted_filter. unfold ranked_candidates.
    apply StronglySorted_firstn, order_by_rank_sorted.
Qed.

(** X17: in terms of time, the ranking breaks ties by age.  Of two
    returned posts whose stored timestamps are the ISO texts of two
    instants, the one that comes first has more reactions; or as many and
    more growth; or as many of both and is not the older one. *)
Theorem get_top_posts_ties_newest_first
    (c : Db.conn) (today d limit : Z) (f : link_filters)
    (i j : nat) (a b : TopPost) (ta tb : Z) :
  (i < j)%nat ->
  nth_error (get_top_posts c today d limit f) i = Some a ->
  nth_error (get_top_posts c today d limit f) j = Some b ->
  ServiceProps.valid_instant ta -> ServiceProps.valid_instant tb ->
  post_datetime a = Service.isoformat ta -> post_datetime b = Service.isoformat tb ->
  latest_reactions b < latest_reactions a
  \/ (latest_reactions a = latest_reactions b
      /\ (reactions_growth b < reactions_growth a
          \/ (reactions_growth a = reactions_growth b /\ tb <= ta))).
Proof.
  intros Hij Ha Hb Hta Htb Hda Hdb.
  pose proof (StronglySorted_nth post_before _ i j a b
                (get_top_posts_sorted c today d limit f) Hij Ha Hb) as Hord.
  unfold post_before in Hord. rewrite Hda, Hdb in Hord.
  now apply ranks_before_isoformat in Hord.
Qed.

Local Abbreviation ties_ranking :=
  (get_top_posts Samples.db_ties 11 7 5 Samples.no_filters).

Lemma get_top_posts_ties_newest_first_witness :
  map message_id ties_ranking = [45; 44; 43]
  /\ map latest_reactions ties_ranking = [12; 12; 12]
  /\ Samples.at_hour 9 20 <= Samples.at_hour 10 1.
Proof.
  split; [vm_compute; reflexivity|]. split; [vm_compute; reflexivity|].
  assert (Ha : nth_error ties_ranking 0 = Some (nth 0 ties_ranking Samples.sample_post))
    by (vm_compute; reflexivity).
  assert (Hb : nth_error ties_ranking 1 = Some (nth 1 ties_ranking Samples.sample_post))
    by (vm_compute; reflexivity).
  assert (Hta : ServiceProps.valid_instant (Samples.at_hour 10 1))
    by (vm_compute; split; [discriminate | reflexivity]).
  assert (Htb : ServiceProps.valid_instant (Samples.at_hour 9 20))
    by (vm_compute; split; [discriminate | reflexivity]).
  assert (Hda : post_datetime (nth 0 ties_ranking Samples.sample_post)
                = Service.isoformat (Samples.at_hour 10 1)) by (vm_compute; reflexivity).
  assert (Hdb : post_datetime (nth 1 ties_ranking Samples.sample_post)
                = Service.isoformat (Samples.at_hour 9 20)) by (vm_compute; reflexivity).
  assert (Hij : (0 < 1)%nat) by lia.
  pose proof (get_top_posts_ties_newest_first Samples.db_ties 11 7 5 Samples.no_filters
                0 1 (nth 0 ties_ranking Samples.sample_post)
                (nth 1 ties_ranking Samples.sample_post)
                (Samples.at_hour 10 1) (Samples.at_hour 9 20)
                Hij Ha Hb Hta Htb Hda Hdb) as Hord.
  assert (Hl : latest_reactions (nth 1 ties_ranking Samples.sample_post)
               = latest_reactions (nth 0 ties_ranking Samples.sample_post))
    by (vm_compute; reflexivity).
  assert (Hg : reactions_growth (nth 1 ties_ranking Samples.sample_post)
               = reactions_growth (nth 0 ties_ranking Samples.sample_post))
    by (vm_compute; reflexivity).
  rewrite Hl, Hg in Hord. lia.
Defined.

End RankingSpec.


(** ** Chunks of a bot message *)

Module BotSpec.

Import Text BotApp BotProps StrSpec.

Lemma len_app (a b : string) : len (a +:+ b) = (len a + len b)%nat.
Proof.
  induction a as [|c a IH]; [reflexivity|].
  rewrite str_app_cons. cbn [len]. rewrite IH. lia.
Qed.

Lemma len_take (n : nat) (s : string) : (len (take n s) <= n)%nat.
Proof.
  revert n. induction s as [|c s IH]; intros n; cbn [take len]; [lia|].
  destruct (is_continuation c) eqn:Hc.
  - cbn [len]. rewrite Hc. apply IH.
  - destruct n as [|n]; cbn [len]; [lia|]. rewrite Hc. specialize (IH n). lia.
Qed.

Lemma weight_app (a b : list string) : weight (a ++ b) = weight a + weight b.
Proof. unfold weight. induction a as [|x a IH]; cbn; [lia|]. cbn in IH. rewrite IH. lia. Qed.

Lemma weight_nonneg (a : list string) : 0 <= weight a.
Proof. unfold weight. induction a as [|x a IH]; cbn; lia. Qed.

Lemma len_join (lines : list string) :
  lines <> [] -> Z.of_nat (len (join newline lines)) = weight lines - 1.
Proof.
  induction lines as [|x [|y rest] IH]; intros Hne; [congruence | unfold weight; cbn; lia|].
  change (join newline (x :: y :: rest)) with (x +:+ newline +:+ join newline (y :: rest)).
  rewrite !len_app. change (weight (x :: y :: rest))
    with (Z.of_nat (len x) + 1 + weight (y :: rest)).
  rewrite !Nat2Z.inj_add, IH by discriminate. change (Z.of_nat (len newline)) with 1. lia.
Qed.

(** The loop closes chunks that fit and keeps every line in its place. *)
Lemma split_lines_spec (limit : Z) (lines chunks current : list string) :
  current = [] \/ fits limit current ->
  exists groups last,
    split_lines limit lines chunks current (weight current)
      = ((chunks ++ map (join newline) groups)%list, last)
    /\ (concat groups ++ last)%list = (current ++ lines)%list
    /\ Forall (fun g => g <> [] /\ fits limit g) groups
    /\ (last = [] \/ fits limit last)
    /\ (last = [] -> current = [] /\ lines = []).
Proof.
  revert chunks current. induction lines as [|line rest IH]; intros chunks current Hcur.
  - exists [], current. cbn [split_lines map concat app]. rewrite !app_nil_r.
    split; [reflexivity|]. split; [reflexivity|]. split; [constructor|]. split; [exact Hcur|].
    intros ->. now split.
  - cbn [split_lines]. cbv zeta.
    destruct (Reporting.nonempty current && (limit <? weight current + (Z.of_nat (len line) + 1)))
      eqn:Hfull.
    + apply andb_true_iff in Hfull as [Hne Hover].
      assert (Hcne : current <> []) by (destruct current; [discriminate | congruence]).
      destruct (IH (chunks ++ [join newline current])%list [line])
        as (groups & last & Hrun & Hcat & Hgood & Hlast & Hempty).
      { right. right. now exists line. }
      change (weight [line]) with (Z.of_nat (len line) + 1 + 0) in Hrun.
      rewrite Z.add_0_r in Hrun.
      exists (current :: groups), last. rewrite Hrun. cbn [map concat].
      rewrite <- !app_assoc. cbn [app]. split; [reflexivity|].
      split; [now rewrite Hcat|]. split; [|split; [exact Hlast|]].
      * constructor; [|exact Hgood]. split; [exact Hcne|]. destruct Hcur; [contradiction | assumption].
      * intros Hl. destruct (Hempty Hl) as [Habs _]. discriminate.
    + assert (Hfits : fits limit (current ++ [line])).
      { destruct current as [|x cur]; [right; now exists line|]. left.
        cbn [Reporting.nonempty andb] in Hfull. apply Z.ltb_ge in Hfull.
        rewrite weight_app. change (weight [line]) with (Z.of_nat (len line) + 1 + 0). lia. }
      destruct (IH chunks (current ++ [line])%list) as (groups & last & Hrun & Hcat & Hgood & Hlast & Hempty).
      { now right. }
      rewrite weight_app in Hrun. change (weight [line]) with (Z.of_nat (len line) + 1 + 0) in Hrun.
      rewrite Z.add_0_r in Hrun.
      exists groups, last. rewrite Hrun. split; [reflexivity|].
      split; [now rewrite Hcat, <- app_assoc|]. split; [exact Hgood|]. split; [exact Hlast|].
      intros Hl. destruct (Hempty Hl) as [Habs _]. now destruct current.
Qed.

Lemma split_text_groups (text : string) (limit : Z) :
  exists groups,
    _split_text text limit = map (join newline) groups
    /\ concat groups = splitlines text
    /\ Forall (fun g => g <> [] /\ fits limit g) groups.
Proof.
  unfold _split_text.
  destruct (split_lines_spec limit (splitlines text) [] []) as (groups & last & Hrun & Hcat & Hgood & Hlast & _);
    [now left|].
  change (weight []) with 0 in Hrun. rewrite Hrun. cbn [app] in *.
  destruct last as [|x last]; cbn [Reporting.nonempty].
  - exists groups. rewrite app_nil_r in Hcat. auto.
  - exists (groups ++ [x :: last])%list. rewrite List.map_app. split; [reflexivity|].
    split; [rewrite concat_app; cbn; now rewrite app_nil_r|].
    apply Forall_app. split; [exact Hgood|]. constructor; [|constructor].
    split; [discriminate|]. destruct Hlast; [discriminate | assumption].
Qed.

(** X18: [_split_text] loses no line and breaks none.  Its chunks are
    the lines of the text, in their order, cut into consecutive groups and
    joined by line feeds; no chunk is made of no line, and a chunk of
    several lines is not longer than the limit allows. *)
Theorem split_text_keeps_lines (text : string) (limit : Z) :
  exists groups,
    _split_text text limit = map (join newline) groups
    /\ concat groups = splitlines text
    /\ Forall (fun g => g <> []) groups
    /\ Forall (fun g => (exists line, g = [line])
                        \/ Z.of_nat (len (join newline g)) < limit) groups.
Proof.
  destruct (split_text_groups text limit) as (groups & Hrun & Hcat & Hgood).
  exists groups. split; [exact Hrun|]. split; [exact Hcat|].
  split; (eapply List.Forall_impl; [|exact Hgood]); cbn; intros g [Hne Hfit]; [exact Hne|].
  destruct Hfit as [Hw | Hone]; [right | now left].
  rewrite len_join by exact Hne. lia.
Qed.

(** X19: when every line of the text is shorter than the limit, every
    chunk of [_split_text] is shorter than the limit; a text without lines
    gives no chunk at all. *)
Theorem split_text_chunks_fit (text : string) (limit : Z) :
  Forall (fun line => Z.of_nat (len line) < limit) (splitlines text) ->
  Forall (fun chunk => Z.of_nat (len chunk) < limit) (_split_text text limit)
  /\ (splitlines text = [] -> _split_text text limit = []).
Proof.
  intros Hlines. destruct (split_text_groups text limit) as (groups & -> & Hcat & Hgood).
  split.
  - rewrite <- Hcat in Hlines. apply List.Forall_forall.
    intros chunk (g & <- & Hg)%in_map_iff.
    rewrite List.Forall_forall in Hgood. destruct (Hgood g Hg) as [Hne [Hw | [line ->]]].
    + rewrite len_join by exact Hne. lia.
    + cbn [join]. rewrite List.Forall_forall in Hlines. apply Hlines.
      apply in_concat. exists [line]. split; [exact Hg | now left].
  - intros Hnone. rewrite Hnone in Hcat. destruct groups as [|g groups]; [reflexivity|].
    apply List.Forall_cons_iff in Hgood as [[Hne _] _].
    destruct g; [congruence | discriminate].
Qed.

Lemma split_text_chunks_fit_witness :
  Forall (fun chunk => Z.of_nat (len chunk) < 6)
         (_split_text ("ab" +:+ newline +:+ "cd" +:+ newline +:+ "efg") 6)
  /\ _split_text ("ab" +:+ newline +:+ "cd" +:+ newline +:+ "efg") 6
     = ["ab" +:+ newline +:+ "cd"; "efg"].
Proof.
  split; [|vm_compute; reflexivity].
  assert (Hlines : Forall (fun line => Z.of_nat (len line) < 6)
                     (splitlines ("ab" +:+ newline +:+ "cd" +:+ newline +:+ "efg")))
    by (vm_compute; repeat constructor).
  exact (proj1 (split_text_chunks_fit ("ab" +:+ newline +:+ "cd" +:+ newline +:+ "efg") 6 Hlines)).
Defined.

End BotSpec.


(** ** The channel list of the settings *)

Module ConfigSpec.

Import Text Config ConfigProps Service ServiceProps.

Lemma lstrip_idempotent (p : ascii -> bool) (s : string) :
  Str.lstrip p (Str.lstrip p s) = Str.lstrip p s.
Proof.
  induction s as [|c s IH]; [reflexivity|]. cbn [Str.lstrip].
  destruct (p c) eqn:Hc; [exact IH|]. cbn [Str.lstrip]. now rewrite Hc.
Qed.

Lemma lstrip_head (p : ascii -> bool) (s : string) (c : ascii) (r : string) :
  Str.lstrip p s = String c r -> p c = false.
Proof.
  induction s as [|d s IH]; [discriminate|]. cbn [Str.lstrip].
  destruct (p d) eqn:Hd; [exact IH|]. now intros [= <- _].
Qed.

(** X20: [_parse_channels] returns one name for every piece of the
    comma-separated setting that is not blank, in the order of the pieces,
    and raises [ValueError] exactly when no piece is left.  A returned
    name never starts with [@], so the [lstrip("@")] of the scraper leaves
    it as it is; the name itself may be empty. *)
Theorem parse_channels_names (raw : string) :
  (named_pieces raw = [] ->
   _parse_channels raw = Raise (ValueError "список каналов пуст=("))
  /\ (named_pieces raw <> [] ->
      exists channels,
        _parse_channels raw = Ok channels
        /\ channels <> []
        /\ channels = map (fun c => Str.lstrip (Ascii.eqb "@") (strip c)) (named_pieces raw)
        /\ List.length channels = List.length (named_pieces raw)
        /\ Forall (fun c => Str.startswith "@" c = false) channels
        /\ Forall (fun c => channel_name c = c) channels)
  /\ _parse_channels "@" = Ok [EmptyString].
Proof.
  unfold _parse_channels. cbv zeta. fold (named_pieces raw). split; [|split].
  - intros ->. reflexivity.
  - intros Hne. destruct (named_pieces raw) as [|piece pieces] eqn:Hp; [congruence|].
    eexists. split; [reflexivity|]. split; [discriminate|]. split; [reflexivity|].
    split; [now rewrite length_map|]. split.
    + apply List.Forall_forall. intros c (x & <- & _)%in_map_iff.
      destruct (Str.lstrip (Ascii.eqb "@") (strip x)) as [|a r] eqn:Hs; [reflexivity|].
      apply lstrip_head in Hs. cbn [Str.startswith]. now rewrite Hs.
    + apply List.Forall_forall. intros c (x & <- & _)%in_map_iff.
      unfold channel_name. apply lstrip_idempotent.
  - vm_compute. reflexivity.
Qed.

Lemma parse_channels_names_witness :
  _parse_channels ", ," = Raise (ValueError "список каналов пуст=(")
  /\ exists channels,
       _parse_channels " @mldaily ,, papers,@@x" = Ok channels
       /\ channels = ["mldaily"; "papers"; "x"].
Proof.
  split.
  - apply (proj1 (parse_channels_names ", ,")). reflexivity.
  - destruct (proj1 (proj2 (parse_channels_names " @mldaily ,, papers,@@x")))
      as (channels & Hrun & _ & Heq & _); [discriminate|].
    exists channels. split; [exact Hrun|]. rewrite Heq. reflexivity.
Defined.

End ConfigSpec.


(** ** Posts with links *)

Module PostsWithLinksSpec.

Import Extractors Db Json Reporting Service ServiceProps DbSpec StrSpec ReportingSpec.
Import StoreProps PostsWithLinks PostsWithLinksProps.

(** *** ORDER BY *)

Section OrderBy.

Context {A : Type} (before : A -> A -> bool).

Lemma insert_before_In (x y : A) (l : list A) :
  In y (insert_before before x l) <-> y = x \/ In y l.
Proof.
  induction l as [|z l IH]; cbn [insert_before]; [cbn; intuition auto|].
  destruct (before x z); cbn [In]; [intuition auto|]. rewrite IH. intuition auto.
Qed.

Lemma order_by_In (l : list A) (y : A) : In y (order_by before l) <-> In y l.
Proof.
  induction l as [|x l IH]; [reflexivity|].
  cbn [order_by fold_right]. fold (order_by before l).
  rewrite insert_before_In, IH. cbn [In]. intuition auto.
Qed.

Lemma insert_before_perm (x : A) (l : list A) : Permutation (insert_before before x l) (x :: l).
Proof.
  induction l as [|y l IH]; cbn [insert_before]; [reflexivity|].
  destruct (before x y); [reflexivity|]. rewrite IH. apply perm_swap.
Qed.

Lemma order_by_perm (l : list A) : Permutation (order_by before l) l.
Proof.
  induction l as [|x l IH]; [reflexivity|].
  cbn [order_by fold_right]. fold (order_by before l).
  rewrite insert_before_perm. now constructor.
Qed.

Hypothesis before_total : forall a b, before a b = true \/ before b a = true.
Hypothesis before_trans :
  forall a b c, before a b = true -> before b c = true -> before a c = true.

Lemma insert_before_sorted (x : A) (l : list A) :
  StronglySorted (fun a b => before a b = true) l ->
  StronglySorted (fun a b => before a b = true) (insert_before before x l).
Proof.
  induction 1 as [|y l Hs IH Hy]; cbn [insert_before]; [repeat constructor|].
  destruct (before x y) eqn:Hxy.
  - constructor; [now constructor|]. constructor; [exact Hxy|].
    eapply List.Forall_impl; [|exact Hy]. cbn. intros z Hz. eapply before_trans; eauto.
  - constructor; [exact IH|]. apply List.Forall_forall. intros z Hz.
    apply insert_before_In in Hz as [-> | Hz].
    + destruct (before_total x y) as [H | H]; [congruence | exact H].
    + rewrite List.Forall_forall in Hy. now apply Hy.
Qed.

Lemma order_by_sorted (l : list A) :
  StronglySorted (fun a b => before a b = true) (order_by before l).
Proof.
  induction l as [|x l IH]; [constructor|].
  cbn [order_by fold_right]. now apply insert_before_sorted.
Qed.

End OrderBy.

Lemma text_geb_spec (a b : string) : text_geb a b = true <-> String.compare b a <> Gt.
Proof.
  unfold text_geb. rewrite (String.compare_antisym a b).
  destruct (String.compare b a); cbn; split; congruence.
Qed.

Lemma text_geb_total (a b : string) : text_geb a b = true \/ text_geb b a = true.
Proof. rewrite !text_geb_spec. destruct (compare_not_gt_total a b); auto. Qed.

Lemma text_geb_trans (a b c : string) :
  text_geb a b = true -> text_geb b c = true -> text_geb a c = true.
Proof. rewrite !text_geb_spec. intros Hab Hbc. eapply compare_not_gt_trans; eauto. Qed.

Lemma filter_perm {A} (p : A -> bool) (l l' : list A) :
  Permutation l l' -> Permutation (List.filter p l) (List.filter p l').
Proof.
  induction 1 as [|x l l' _ IH|x y l|l l' l'' _ IH1 _ IH2]; cbn [List.filter].
  - constructor.
  - destruct (p x); [now constructor | exact IH].
  - destruct (p x), (p y); try reflexivity. apply perm_swap.
  - now transitivity (List.filter p l').
Qed.

Lemma filter_both {A} (p q : A -> bool) (l : list A) :
  List.filter p (List.filter q l) = List.filter (fun x => q x && p x) l.
Proof.
  induction l as [|x l IH]; [reflexivity|]. cbn [List.filter].
  destruct (q x); cbn [List.filter andb]; [|exact IH]. destruct (p x); now rewrite IH.
Qed.

(** *** The selected posts *)

Lemma collect_posts_spec (c : Db.conn) (f : link_filters)
    (rows : list post_row) (result : list PostWithLinks) :
  collect_posts c f rows result
  = (result ++ map (to_post_with_links c) (List.filter (post_passes c f) rows))%list.
Proof.
  revert result. induction rows as [|row rows IH]; intros result; cbn [collect_posts List.filter].
  - now rewrite app_nil_r.
  - destruct (post_passes c f row); cbn [negb]; rewrite IH; [|reflexivity].
    cbn [map]. now rewrite <- app_assoc.
Qed.

Lemma get_posts_with_links_rows (c : Db.conn) (now d : Z) (f : link_filters) :
  get_posts_with_links c now d f
  = map (to_post_with_links c)
      (List.filter (post_passes c f) (recent_posts c (isoformat (start_dt now d)))).
Proof. unfold get_posts_with_links. cbv zeta. apply collect_posts_spec. Qed.

Lemma recent_posts_sorted (c : Db.conn) (start : string) :
  StronglySorted not_older (recent_posts c start).
Proof.
  unfold recent_posts. apply (order_by_sorted later_post).
  - intros a b. apply text_geb_total.
  - intros a b x. apply text_geb_trans.
Qed.

(** X21: [get_posts_with_links] returns, newest first by the stored
    timestamp text, every post whose timestamp text is not smaller than
    the text of the cutoff and whose links pass the filters; there is no
    limit, and every such row of the table is taken once. *)
Theorem get_posts_with_links_complete (c : Db.conn) (now d : Z) (f : link_filters) :
  exists rows,
    get_posts_with_links c now d f = map (to_post_with_links c) rows
    /\ (forall p, In p rows
                  <-> In p (posts c)
                      /\ text_geb (p_post_datetime p) (isoformat (start_dt now d)) = true
                      /\ post_passes c f p = true)
    /\ Permutation rows
         (List.filter (fun p => text_geb (p_post_datetime p) (isoformat (start_dt now d))
                                && post_passes c f p) (posts c))
    /\ StronglySorted not_older rows.
Proof.
  exists (List.filter (post_passes c f) (recent_posts c (isoformat (start_dt now d)))).
  split; [apply get_posts_with_links_rows|]. split; [|split].
  - intros p. unfold recent_posts. rewrite filter_In, order_by_In, filter_In. tauto.
  - unfold recent_posts. rewrite <- filter_both.
    apply filter_perm, (order_by_perm later_post).
  - apply StronglySorted_filter, recent_posts_sorted.
Qed.

Lemma text_geb_isoformat (t s : Z) :
  valid_instant t -> valid_instant s ->
  text_geb (isoformat t) (isoformat s) = true <-> s <= t.
Proof.
  intros Ht Hs. rewrite text_geb_spec, (ServiceSpec.isoformat_compare s t Hs Ht).
  unfold Z.le. tauto.
Qed.

(** X22: in terms of time, [get_posts_with_links] selects by the age
    of the post: of the posts whose stored timestamp is the ISO text of an
    instant, it returns those not older than [max(1, lookback_days)] whole
    days before the clock reading that pass the link filters, and a post
    that comes later in the result is not younger than one that comes
    before it. *)
Theorem get_posts_with_links_window (c : Db.conn) (now d : Z) (f : link_filters) :
  valid_instant (start_dt now d) ->
  exists rows,
    get_posts_with_links c now d f = map (to_post_with_links c) rows
    /\ (forall p t,
          valid_instant t -> p_post_datetime p = isoformat t ->
          In p rows <-> In p (posts c)
                        /\ now - Z.max 1 d * MICROSECONDS_PER_DAY <= t
                        /\ post_passes c f p = true)
    /\ (forall i j a b ta tb,
          (i < j)%nat -> nth_error rows i = Some a -> nth_error rows j = Some b ->
          valid_instant ta -> valid_instant tb ->
          p_post_datetime a = isoformat ta -> p_post_datetime b = isoformat tb ->
          tb <= ta).
Proof.
  intros Hstart.
  exists (List.filter (post_passes c f) (recent_posts c (isoformat (start_dt now d)))).
  split; [apply get_posts_with_links_rows|]. split.
  - intros p t Ht Hp. unfold recent_posts. rewrite filter_In, order_by_In, filter_In, Hp.
    rewrite (text_geb_isoformat t (start_dt now d) Ht Hstart).
    unfold start_dt, timedelta_days. tauto.
  - intros i j a b ta tb Hij Ha Hb Hta Htb Hda Hdb.
    pose proof (StronglySorted_nth not_older _ i j a b
                  (StronglySorted_filter _ _ _ (recent_posts_sorted c _)) Hij Ha Hb) as Hord.
    unfold not_older in Hord. rewrite Hda, Hdb in Hord.
    now apply text_geb_isoformat in Hord.
Qed.

Lemma day_11_noon_valid : valid_instant (start_dt (Samples.at_hour 11 12) 2).
Proof. vm_compute. split; [discriminate | reflexivity]. Qed.

Lemma get_posts_with_links_window_witness :
  exists rows,
    get_posts_with_links Samples.db_ties (Samples.at_hour 11 12) 2 Samples.no_filters
    = map (to_post_with_links Samples.db_ties) rows
    /\ map message_id
         (get_posts_with_links Samples.db_ties (Samples.at_hour 11 12) 2 Samples.no_filters)
       = [45; 44].
Proof.
  destruct (get_posts_with_links_window Samples.db_ties (Samples.at_hour 11 12) 2
              Samples.no_filters day_11_noon_valid) as (rows & Hrows & _).
  exists rows. split; [exact Hrows | vm_compute; reflexivity].
Defined.

(** *** The latest snapshot *)

Lemma later_snapshot_total (a b : snapshot_row) :
  later_snapshot a b = true \/ later_snapshot b a = true.
Proof. unfold later_snapshot. rewrite !Z.leb_le. lia. Qed.

Lemma later_snapshot_trans (a b x : snapshot_row) :
  later_snapshot a b = true -> later_snapshot b x = true -> later_snapshot a x = true.
Proof. unfold later_snapshot. rewrite !Z.leb_le. lia. Qed.

Lemma head_order_by_snapshots (l : list snapshot_row) :
  match head (order_by later_snapshot l) with
  | None => l = []
  | Some s => In s l /\ forall s', In s' l -> s_snapshot_date s' <= s_snapshot_date s
  end.
Proof.
  pose proof (order_by_sorted later_snapshot later_snapshot_total later_snapshot_trans l) as Hs.
  pose proof (order_by_In later_snapshot l) as Hin.
  destruct (order_by later_snapshot l) as [|s rest]; cbn [head].
  - destruct l as [|x l]; [reflexivity|]. exfalso. apply (Hin x). now left.
  - split; [apply Hin; now left|]. intros s' Hs'. apply Hin in Hs' as [<- | Hs']; [lia|].
    apply StronglySorted_inv in Hs as [_ Hall]. rewrite List.Forall_forall in Hall.
    specialize (Hall s' Hs'). unfold later_snapshot in Hall. now apply Z.leb_le in Hall.
Qed.

Lemma latest_snapshot_newest (c : Db.conn) (pid : Z) (s : snapshot_row) :
  db_wf c -> newest_snapshot c pid s -> latest_snapshot c pid = Some s.
Proof.
  intros Hwf (Hin & Hpid & Hmax). unfold latest_snapshot.
  pose proof (head_order_by_snapshots
                (List.filter (fun s => s_post_id s =? pid) (snapshots c))) as Hhead.
  destruct (head _) as [h|].
  - destruct Hhead as [[Hh Hhp%Z.eqb_eq]%filter_In Hhmax]. f_equal.
    apply (snapshot_unique c); [exact Hwf | exact Hh | exact Hin | congruence|].
    specialize (Hmax h Hh Hhp).
    specialize (Hhmax s). rewrite filter_In, Z.eqb_eq in Hhmax. specialize (Hhmax (conj Hin Hpid)).
    lia.
  - exfalso. assert (Hs : In s (List.filter (fun s => s_post_id s =? pid) (snapshots c))).
    { apply filter_In. split; [exact Hin | now apply Z.eqb_eq]. }
    rewrite Hhead in Hs. destruct Hs.
Qed.

Lemma to_post_with_links_latest (c : Db.conn) (p : post_row) :
  latest_reactions (to_post_with_links c p)
    = default 0 (s_total_reactions <$> latest_snapshot c (p_id p))
  /\ latest_views (to_post_with_links c p) = latest_snapshot c (p_id p) ≫= s_views
  /\ latest_forwards (to_post_with_links c p) = latest_snapshot c (p_id p) ≫= s_forwards.
Proof. repeat split. Qed.

(** X23: the reactions, views and forwards that [get_posts_with_links]
    reports for a post are those of its snapshot with the greatest date,
    whatever the lookback; a post without any snapshot is reported with 0
    reactions and without views and forwards. *)
Theorem post_with_links_latest_snapshot (c : Db.conn) (p : post_row) :
  db_wf c ->
  (snapshots_of_post c (p_id p) = [] ->
   latest_reactions (to_post_with_links c p) = 0
   /\ latest_views (to_post_with_links c p) = None
   /\ latest_forwards (to_post_with_links c p) = None)
  /\ (forall s, newest_snapshot c (p_id p) s ->
        latest_reactions (to_post_with_links c p) = s_total_reactions s
        /\ latest_views (to_post_with_links c p) = s_views s
        /\ latest_forwards (to_post_with_links c p) = s_forwards s)
  /\ (snapshots_of_post c (p_id p) <> [] -> exists s, newest_snapshot c (p_id p) s).
Proof.
  intros Hwf. destruct (to_post_with_links_latest c p) as (-> & -> & ->).
  split; [|split].
  - unfold snapshots_of_post, latest_snapshot. intros ->. repeat split.
  - intros s Hs. rewrite (latest_snapshot_newest c (p_id p) s Hwf Hs). repeat split.
  - intros Hne. unfold snapshots_of_post in Hne.
    pose proof (head_order_by_snapshots
                  (List.filter (fun s => s_post_id s =? p_id p) (snapshots c))) as Hhead.
    destruct (head _) as [h|]; [|contradiction].
    destruct Hhead as [[Hh Hhp%Z.eqb_eq]%filter_In Hhmax].
    exists h. split; [exact Hh|]. split; [exact Hhp|].
    intros s' Hs' Hp'. apply Hhmax. apply filter_In. split; [exact Hs' | now apply Z.eqb_eq].
Qed.

Lemma post_with_links_latest_snapshot_witness :
  Forall (fun p => exists s,
            newest_snapshot Samples.db_day11 (p_id p) s
            /\ latest_reactions (to_post_with_links Samples.db_day11 p) = s_total_reactions s)
         (posts Samples.db_day11)
  /\ map (fun p => latest_reactions (to_post_with_links Samples.db_day11 p))
         (posts Samples.db_day11) = [12].
Proof.
  split; [|vm_compute; reflexivity].
  assert (Hids : map p_id (posts Samples.db_day11) = [1]) by (vm_compute; reflexivity).
  assert (Hdays : map s_snapshot_date (snapshots_of_post Samples.db_day11 1) = [10; 11])
    by (vm_compute; reflexivity).
  apply List.Forall_forall. intros p Hp.
  assert (Hid : p_id p = 1).
  { apply (in_map p_id) in Hp. rewrite Hids in Hp. destruct Hp as [<- | []]. reflexivity. }
  destruct (post_with_links_latest_snapshot Samples.db_day11 p db_day11_wf)
    as (_ & Hnewest & Hsome).
  destruct Hsome as [s Hs].
  - rewrite Hid. intros Hnone. rewrite Hnone in Hdays. discriminate.
  - exists s. split; [exact Hs | exact (proj1 (Hnewest s Hs))].
Defined.

(** *** The text of the snapshot date *)

Lemma text_geb_date_isoformat (a b : Z) :
  valid_day a -> valid_day b ->
  text_geb (date_isoformat a) (date_isoformat b) = (b <=? a).
Proof.
  intros Ha Hb. apply eq_true_iff_eq.
  rewrite text_geb_spec, (ServiceSpec.date_isoformat_compare b a Hb Ha), Z.leb_le.
  unfold Z.le. tauto.
Qed.

(** X24: the ranking query compares snapshot dates as text.  On
    dates of the calendar the ISO text [upsert_snapshot] stores compares as
    the dates do, so the rows with [snapshot_date >= start] are the
    snapshots dated on or after the start day. *)
Theorem window_compares_dates_as_text (c : Db.conn) (start : Z) :
  valid_day start ->
  Forall (fun s => valid_day (s_snapshot_date s)) (snapshots c) ->
  List.filter (fun s => text_geb (date_isoformat (s_snapshot_date s)) (date_isoformat start))
              (snapshots c)
  = window c start.
Proof.
  intros Hstart Hall. unfold window. apply List.filter_ext_in. intros s Hs.
  rewrite List.Forall_forall in Hall. now apply text_geb_date_isoformat; [apply Hall|].
Qed.

Lemma window_compares_dates_as_text_witness :
  List.filter (fun s => text_geb (date_isoformat (s_snapshot_date s)) (date_isoformat 11))
              (snapshots Samples.db_day11)
  = window Samples.db_day11 11.
Proof.
  assert (Hstart : valid_day 11) by (vm_compute; split; [discriminate | reflexivity]).
  assert (Hdates : map s_snapshot_date (snapshots Samples.db_day11) = [10; 11])
    by (vm_compute; reflexivity).
  assert (Hall : Forall (fun s => valid_day (s_snapshot_date s)) (snapshots Samples.db_day11)).
  { apply List.Forall_map. rewrite Hdates.
    repeat constructor; vm_compute; discriminate. }
  exact (window_compares_dates_as_text Samples.db_day11 11 Hstart Hall).
Defined.

(** *** The export *)

Lemma post_with_links_of_dict_to_dict (p : PostWithLinks) :
  post_with_links_of_dict (_post_links_to_dict p) = Some p.
Proof.
  destruct p as [t u m url dt txt lr lv lf gh rs ar].
  unfold post_with_links_of_dict, _post_links_to_dict. cbn.
  rewrite !read_all_as_str. destruct u, url, txt, lv, lf; reflexivity.
Qed.

Lemma read_all_post_links_to_dict (posts : list PostWithLinks) :
  read_all post_with_links_of_dict (map _post_links_to_dict posts) = Some posts.
Proof.
  induction posts as [|p posts IH]; [reflexivity|]. cbn [map read_all].
  now rewrite post_with_links_of_dict_to_dict, IH.
Qed.

(** X25: the text [export_posts_with_links_json] writes parses back
    to one record per post, and reading the twelve fields of every record
    gives back the posts that were exported. *)
Theorem export_posts_with_links_round_trip (posts : list PostWithLinks) :
  Json.loads (export_posts_with_links_json posts)
    = Some (JList (map _post_links_to_dict posts))
  /\ read_posts_with_links (export_posts_with_links_json posts) = Some posts.
Proof.
  unfold read_posts_with_links, export_posts_with_links_json. rewrite JsonSpec.loads_dumps.
  split; [reflexivity | apply read_all_post_links_to_dict].
Qed.

End PostsWithLinksSpec.


(** ** The Markdown report *)

Module MarkdownSpec.

Import Reporting Text Markdown MarkdownProps StrSpec BotSpec.

Lemma len_take_exact (n : nat) (s : string) : (n <= len s)%nat -> len (take n s) = n.
Proof.
  revert n. induction s as [|c s IH]; intros n; cbn [take len]; [lia|].
  destruct (is_continuation c) eqn:Hc; cbn [Nat.add].
  - intros Hn. cbn [len]. rewrite Hc. now apply IH.
  - destruct n as [|n]; [reflexivity|]. intros Hn. cbn [len]. rewrite Hc.
    rewrite IH by lia. reflexivity.
Qed.

Lemma single_line_app (a b : string) :
  single_line a = true -> single_line b = true -> single_line (a +:+ b) = true.
Proof.
  unfold single_line. induction a as [|c a IH]; [auto|].
  rewrite str_app_cons. cbn [Str.forallb]. intros [Hc Ha]%andb_true_iff Hb.
  rewrite Hc. now apply IH.
Qed.

Lemma single_line_replace (s : string) : single_line (replace_char line_feed " " s) = true.
Proof.
  unfold single_line. induction s as [|c s IH]; [reflexivity|].
  cbn [replace_char Str.forallb]. rewrite IH.
  destruct (Ascii.eqb c line_feed) eqn:Hc; [reflexivity | now rewrite Hc].
Qed.

Lemma single_line_lstrip (s : string) (skip : nat) :
  single_line s = true -> single_line (lstrip_from skip s) = true.
Proof.
  unfold single_line. revert skip. induction s as [|c s IH]; intros skip Hs; [reflexivity|].
  pose proof Hs as Hs'. cbn [Str.forallb] in Hs'. apply andb_true_iff in Hs' as [_ Htail].
  cbn [lstrip_from]. destruct skip as [|k]; [|now apply IH].
  destruct (space_width (String c s)); [exact Hs | now apply IH].
Qed.

Lemma single_line_rstrip (s : string) :
  single_line s = true -> single_line (rstrip s) = true.
Proof.
  unfold single_line. induction s as [|c s IH]; [reflexivity|].
  cbn [Str.forallb rstrip]. intros [Hc Hs]%andb_true_iff.
  destruct (blank (String c s)); [reflexivity|]. cbn [Str.forallb]. rewrite Hc. now apply IH.
Qed.

Lemma single_line_take (n : nat) (s : string) :
  single_line s = true -> single_line (take n s) = true.
Proof.
  unfold single_line. revert n. induction s as [|c s IH]; intros n; [reflexivity|].
  cbn [Str.forallb take]. intros [Hc Hs]%andb_true_iff.
  destruct (is_continuation c); [cbn [Str.forallb]; rewrite Hc; now apply IH|].
  destruct n; [reflexivity|]. cbn [Str.forallb]. rewrite Hc. now apply IH.
Qed.

(** X26: the text shown for a post in the Markdown report is never
    longer than 280 characters and holds no line feed.  A message text
    that, with its line feeds replaced and its ends stripped, has at most
    280 characters is shown whole; a longer one is cut to its first 277
    characters and three dots, 280 characters in all. *)
Theorem snippet_at_most_280 (message_text : string) :
  (len (snippet_of message_text) <= 280)%nat
  /\ single_line (snippet_of message_text) = true
  /\ ((len (strip (replace_char line_feed " " message_text)) <= 280)%nat ->
      snippet_of message_text = strip (replace_char line_feed " " message_text))
  /\ ((280 < len (strip (replace_char line_feed " " message_text)))%nat ->
      snippet_of message_text
        = take 277 (strip (replace_char line_feed " " message_text)) +:+ "..."
      /\ len (snippet_of message_text) = 280%nat).
Proof.
  unfold snippet_of. cbv zeta.
  set (s := strip (replace_char line_feed " " message_text)).
  assert (Hline : single_line s = true).
  { subst s. unfold strip, lstrip. apply single_line_lstrip, single_line_rstrip,
      single_line_replace. }
  destruct (Nat.ltb_spec 280 (len s)) as [Hlong | Hshort].
  - assert (Hcut : len (take 277 s +:+ "...") = 280%nat).
    { rewrite len_app, len_take_exact by lia. reflexivity. }
    split; [lia|]. split; [|split; [lia | intros _; now split]].
    apply single_line_app; [now apply single_line_take | reflexivity].
  - split; [exact Hshort|]. split; [exact Hline|]. split; [reflexivity | lia].
Qed.

Lemma snippet_at_most_280_witness :
  snippet_of ("  two" +:+ String line_feed "lines ")
  = strip (replace_char line_feed " " ("  two" +:+ String line_feed "lines "))
  /\ snippet_of ("  two" +:+ String line_feed "lines ") = "two lines".
Proof.
  split; [|vm_compute; reflexivity].
  assert (Hshort : (len (strip (replace_char line_feed " "
                                  ("  two" +:+ String line_feed "lines "))) <= 280)%nat)
    by (vm_compute; lia).
  exact (proj1 (proj2 (proj2 (snippet_at_most_280 ("  two" +:+ String line_feed "lines "))))
           Hshort).
Defined.

(** *** The headings *)

Lemma link_section_no_heading (title : string) (urls : list string) :
  is_heading title = false -> List.filter is_heading (link_section title urls) = [].
Proof.
  intros Ht. destruct urls as [|u urls]; [reflexivity|]. unfold link_section.
  cbn [List.filter]. rewrite Ht.
  induction (u :: urls) as [|x l IH]; [reflexivity|]. cbn [map List.filter].
  now rewrite IH.
Qed.

Lemma post_lines_heading (idx : Z) (post : TopPost) :
  List.filter is_heading (post_lines idx post) = [heading idx post].
Proof.
  unfold post_lines. rewrite !List.filter_app.
  rewrite !link_section_no_heading by reflexivity.
  destruct (message_text post) as [[|c t]|]; reflexivity.
Qed.

Lemma markdown_lines_headings (idx : Z) (posts : list TopPost) (lines : list string) :
  List.filter is_heading (markdown_lines idx posts lines)
  = (List.filter is_heading lines ++ headings idx posts)%list.
Proof.
  revert idx lines. induction posts as [|post posts IH]; intros idx lines;
    cbn [markdown_lines headings].
  - now rewrite app_nil_r.
  - rewrite IH, List.filter_app, post_lines_heading, <- app_assoc. reflexivity.
Qed.

(** *** The lines of the written text *)

Lemma digit_not_line_feed (c : ascii) :
  Str.is_digit c = true -> negb (Ascii.eqb c line_feed) = true.
Proof.
  intros Hd. destruct (Ascii.eqb_spec c line_feed) as [-> | _]; [discriminate | reflexivity].
Qed.

Lemma single_line_pretty_N_go (x : N) (s : string) :
  single_line s = true -> single_line (pretty_N_go x s) = true.
Proof.
  revert s. induction x as [x IH] using (well_founded_induction N.lt_wf_0). intros s Hs.
  destruct (N.eq_dec x 0%N) as [-> | Hx]; [now rewrite pretty_N_go_0|].
  rewrite pretty_N_go_step by lia. apply IH; [apply N.div_lt; lia|].
  unfold single_line. cbn [Str.forallb].
  destruct (JsonSpec.pretty_N_char_digit (x mod 10)) as (Hd & _); [apply N.mod_lt; lia|].
  rewrite (digit_not_line_feed _ Hd). exact Hs.
Qed.

Lemma single_line_pretty (z : Z) : single_line (pretty z) = true.
Proof.
  assert (Hpos : forall p, single_line (pretty (N.pos p)) = true).
  { intros p. unfold pretty, pretty_N. destruct (decide (N.pos p = 0%N)); [discriminate|].
    now apply single_line_pretty_N_go. }
  destruct z as [|p|p]; [reflexivity | apply Hpos|].
  change (pretty (Z.neg p)) with ("-" +:+ pretty (N.pos p)).
  apply single_line_app; [reflexivity | apply Hpos].
Qed.

Lemma single_line_snippet (text : string) : single_line (snippet_of text) = true.
Proof.
  unfold snippet_of. cbv zeta.
  assert (Hline : single_line (strip (replace_char line_feed " " text)) = true).
  { unfold strip, lstrip. apply single_line_lstrip, single_line_rstrip, single_line_replace. }
  destruct (_ <? _)%nat; [|exact Hline].
  apply single_line_app; [now apply single_line_take | reflexivity].
Qed.

Lemma split_char_single_line (a : string) :
  single_line a = true -> split_char line_feed a = [a].
Proof.
  unfold single_line. induction a as [|c a IH]; [reflexivity|].
  cbn [Str.forallb split_char]. intros [Hc Ha]%andb_true_iff.
  apply negb_true_iff in Hc. rewrite Hc, (IH Ha). reflexivity.
Qed.

Lemma split_char_next_line (a b : string) :
  single_line a = true ->
  split_char line_feed (a +:+ String line_feed b) = a :: split_char line_feed b.
Proof.
  unfold single_line. induction a as [|c a IH].
  - intros _. rewrite str_app_nil_l. cbn [split_char]. now rewrite Ascii.eqb_refl.
  - rewrite str_app_cons. cbn [Str.forallb split_char]. intros [Hc Ha]%andb_true_iff.
    apply negb_true_iff in Hc. rewrite Hc, (IH Ha). reflexivity.
Qed.

(** Splitting the joined text at the line feeds gives the lines back. *)
Lemma split_char_join (lines : list string) :
  lines <> [] -> Forall (fun line => single_line line = true) lines ->
  split_char line_feed (join (String line_feed EmptyString) lines) = lines.
Proof.
  induction lines as [|x [|y rest] IH]; intros Hne Hall; [congruence | |].
  - apply List.Forall_cons_iff in Hall as [Hx _]. now apply split_char_single_line.
  - apply List.Forall_cons_iff in Hall as [Hx Hrest].
    change (join (String line_feed EmptyString) (x :: y :: rest))
      with (x +:+ String line_feed EmptyString +:+ join (String line_feed EmptyString) (y :: rest)).
    rewrite str_app_cons, str_app_nil_l, split_char_next_line by exact Hx.
    now rewrite IH.
Qed.

Lemma link_section_single_lines (title : string) (urls : list string) :
  single_line title = true -> Forall (fun url => single_line url = true) urls ->
  Forall (fun line => single_line line = true) (link_section title urls).
Proof.
  intros Ht Hall. destruct urls as [|u urls]; [constructor|]. unfold link_section.
  constructor; [exact Ht|]. apply List.Forall_map.
  eapply List.Forall_impl; [|exact Hall]. cbn. intros url Hu.
  apply single_line_app; [reflexivity | exact Hu].
Qed.

Lemma post_lines_single_lines (idx : Z) (post : TopPost) :
  on_single_lines post -> Forall (fun line => single_line line = true) (post_lines idx post).
Proof.
  intros (Htitle & Hdate & Hurl & Hlinks).
  apply Forall_app in Hlinks as [Har Hlinks]. apply Forall_app in Hlinks as [Hrs Hgh].
  unfold post_lines. repeat apply Forall_app_2.
  - repeat constructor; unfold heading;
      repeat (apply single_line_app; [|try reflexivity]);
      try reflexivity; try apply single_line_pretty; try assumption.
    unfold or_na. destruct (post_url post) as [[|c u]|]; [reflexivity | now apply Hurl | reflexivity].
  - now apply link_section_single_lines.
  - now apply link_section_single_lines.
  - now apply link_section_single_lines.
  - destruct (message_text post) as [[|c t]|]; repeat constructor.
    apply single_line_app; [reflexivity | apply single_line_snippet].
  - repeat constructor.
Qed.

Lemma markdown_lines_single_lines (idx : Z) (posts : list TopPost) (lines : list string) :
  Forall on_single_lines posts -> Forall (fun line => single_line line = true) lines ->
  Forall (fun line => single_line line = true) (markdown_lines idx posts lines).
Proof.
  intros Hposts. revert idx lines.
  induction Hposts as [|post posts Hpost Hposts IH]; intros idx lines Hlines; [exact Hlines|].
  cbn [markdown_lines]. apply IH. apply Forall_app_2; [exact Hlines|].
  now apply post_lines_single_lines.
Qed.

Lemma markdown_lines_extend (idx : Z) (posts : list TopPost) (lines : list string) :
  exists more, markdown_lines idx posts lines = (lines ++ more)%list.
Proof.
  revert idx lines. induction posts as [|post posts IH]; intros idx lines; cbn [markdown_lines].
  - exists []. now rewrite app_nil_r.
  - destruct (IH (idx + 1) (lines ++ post_lines idx post)%list) as [more ->].
    rewrite <- app_assoc. eauto.
Qed.

(** X27: the Markdown report has one heading line for every post, in
    the order of the posts and numbered from 1; no other line of the
    report starts like a heading.  When no title, timestamp, URL or link
    of a post holds a line feed, the lines of the written text are the
    lines the report was built from, so the text has one heading line for
    every post. *)
Theorem markdown_report_headings (posts : list TopPost) :
  List.filter is_heading (markdown_lines 1 posts title_lines) = headings 1 posts
  /\ List.length (headings 1 posts) = List.length posts
  /\ (forall i post,
        nth_error posts i = Some post ->
        nth_error (headings 1 posts) i = Some (heading (1 + Z.of_nat i) post))
  /\ (Forall on_single_lines posts ->
      split_char line_feed (export_top_posts_markdown posts) = markdown_lines 1 posts title_lines
      /\ List.filter is_heading (split_char line_feed (export_top_posts_markdown posts))
         = headings 1 posts).
Proof.
  assert (Hheads : List.filter is_heading (markdown_lines 1 posts title_lines)
                   = headings 1 posts)
    by (rewrite markdown_lines_headings; reflexivity).
  split; [exact Hheads|].
  assert (Hlines : Forall on_single_lines posts ->
                   split_char line_feed (export_top_posts_markdown posts)
                   = markdown_lines 1 posts title_lines).
  { intros Hposts. unfold export_top_posts_markdown. fold title_lines. apply split_char_join.
    - destruct (markdown_lines_extend 1 posts title_lines) as [more ->]. discriminate.
    - apply markdown_lines_single_lines; [exact Hposts | repeat constructor]. }
  split; [|split; [|intros Hposts; rewrite (Hlines Hposts); now split]];
    generalize 1 as idx.
  - clear Hheads Hlines. induction posts as [|p posts IH]; intros idx; cbn; [reflexivity|].
    now rewrite IH.
  - clear Hheads Hlines. induction posts as [|p posts IH]; intros idx [|i] post; cbn;
      try discriminate.
    + intros [= ->]. now rewrite Z.add_0_r.
    + intros Hp. rewrite (IH (idx + 1) i post Hp). do 2 f_equal. lia.
Qed.

Lemma markdown_report_headings_witness :
  List.filter is_heading
    (split_char line_feed (export_top_posts_markdown [Samples.sample_post; Samples.sample_post]))
  = headings 1 [Samples.sample_post; Samples.sample_post]
  /\ List.length (headings 1 [Samples.sample_post; Samples.sample_post]) = 2%nat.
Proof.
  split; [|reflexivity].
  assert (Hpost : on_single_lines Samples.sample_post).
  { split; [reflexivity|]. split; [reflexivity|]. split.
    - intros url [= <-]. reflexivity.
    - repeat constructor. }
  assert (Hposts : Forall on_single_lines [Samples.sample_post; Samples.sample_post])
    by (constructor; [exact Hpost | constructor; [exact Hpost | constructor]]).
  exact (proj2 (proj2 (proj2 (proj2 (markdown_report_headings
                                       [Samples.sample_post; Samples.sample_post]))) Hposts)).
Defined.

End MarkdownSpec.


(** ** The schema *)

Module SchemaSpec.

Import Schema SchemaProps.











End SchemaSpec.
